(** * CHADTree: the action transitions of the tree state engine

    A shallow embedding of [rplugin/python3/chadtree/transitions.py] and of
    the dispatcher entry point [Main._run] of [rplugin/python3/chadtree/__init__.py].

    The transitions are [async] functions that talk to collaborators: the
    editor (pynvim), the filesystem, the quickfix and version-control
    readers, and [state.forward].  Every such call is an [event]; a
    transition is a finite tree of events ([prog]), and [run] executes it
    against an arbitrary stateful handler, returning the result together
    with the trace of the calls that were made.  Sets of paths are [gset
    string], dictionaries are [gmap].

    An exception is modelled where the transitions catch one: a filesystem
    operation answers with the exception it raised, if any.  The lock that
    [Main] holds around every action, and the scheduling of the coroutines,
    are outside the embedding. *)

From Stdlib Require Import ZArith Ascii String.
From stdpp Require Import gmap strings list.

Open Scope Z_scope.
Open Scope string_scope.

(** ** Data model ([types.py], as used by the transitions) *)

Module Mode.
(** The flags a node's [mode] is drawn from. *)
Inductive t : Set := file | folder | link | orphan_link | executable.

#[global] Instance eq_dec : EqDecision t.
Proof. solve_decision. Defined.
End Mode.

Module ClickType.
Inductive t : Set := primary | secondary | tertiary | v_split | h_split.
End ClickType.

Abbreviation Index := (gset string).
Abbreviation Selection := (gset string).
Abbreviation Locations := (gmap string nat).
Abbreviation VCStatus := (gmap string string).

(** [Node]: the fields the transitions read.  [mode] is a set of flags, kept
    as a list and only ever tested for membership. *)
Module Node.
Record t : Type := mk {
  path : string;
  name : string;
  mode : list Mode.t;
  ext : string
}.
End Node.

Module FilterPattern.
Record t : Type := mk {
  pattern : string;
  search_set : gset string
}.
End FilterPattern.

Module QuickFix.
Record t : Type := mk {
  locations : Locations;
  filtering : bool
}.
End QuickFix.

Module Settings.
Record MimetypeOptions : Type := mk_mime {
  warn : gset string;
  ignore_exts : gset string
}.
Record t : Type := mk {
  mime : MimetypeOptions
}.
End Settings.

Module State.
Record t : Type := mk {
  index : Index;
  selection : Selection;
  filter_pattern : FilterPattern.t;
  show_hidden : bool;
  follow : bool;
  enable_vc : bool;
  width : Z;
  root : Node.t;
  qf : QuickFix.t;
  vc : VCStatus;
  current : option string;
  lookup : list Node.t;
  paths_lookup : gmap string Z
}.
End State.

Module Stage.
Record t : Type := mk {
  state : State.t;
  focus : option string
}.
End Stage.

(** [Stage(state)]: the focus defaults to [None]. *)
Definition Stage1 (st : State.t) : Stage.t := Stage.mk st None.

(** The keyword arguments of [forward]: a keyword that is not in the list,
    or whose value would be [Void()], keeps its [Void()] default. *)
Inductive Delta : Type :=
| kw_root (r : Node.t)
| kw_index (i : Index)
| kw_selection (s : Selection)
| kw_filter_pattern (f : FilterPattern.t)
| kw_show_hidden (b : bool)
| kw_follow (b : bool)
| kw_enable_vc (b : bool)
| kw_width (w : Z)
| kw_qf (q : QuickFix.t)
| kw_vc (v : VCStatus)
| kw_current (c : string)
| kw_paths (p : gset string).

(** ** Python values *)

(** [a ^ b] on sets. *)
Definition set_xor (a b : gset string) : gset string := (a ∖ b) ∪ (b ∖ a).
Infix "^^" := set_xor (at level 45, left associativity).

(** Truthiness of a [str] and of an [Optional[str]]. *)
Definition truthy (s : string) : bool := negb (String.eqb s "").
Definition truthy_opt (s : option string) : bool :=
  match s with Some s => truthy s | None => false end.

(** Truthiness of a set and of a dict. *)
Definition nonempty (s : gset string) : bool := negb (bool_decide (s = ∅)).
Definition nonempty_map (m : Locations) : bool := negb (bool_decide (m = ∅)).

(** [str(b)] for a [bool]. *)
Definition str_bool (b : bool) : string := if b then "True" else "False".
(** [str(x)] for an [Optional[str]]. *)
Definition str_opt (o : option string) : string :=
  match o with Some s => s | None => "None" end.

(** [range(a, b)]. *)
Definition range (a b : Z) : list Z :=
  map (fun i => a + Z.of_nat i) (seq 0 (Z.to_nat (b - a))).

(** [s.partition("/")[0]]: the part of [s] before the first slash. *)
Fixpoint partition_head (s : string) : string :=
  match s with
  | EmptyString => EmptyString
  | String c r => if Ascii.eqb c "/"%char then EmptyString else String c (partition_head r)
  end.

(** [s.replace(a, b)] for a non-empty [a] (the transitions replace [linesep]). *)
Fixpoint replace_fuel (fuel : nat) (a b s : string) : string :=
  match fuel with
  | O => s
  | S fuel =>
      match s with
      | EmptyString => EmptyString
      | String c r =>
          if String.prefix a s
          then b ++ replace_fuel fuel a b (String.substring (String.length a) (String.length s) s)
          else String c (replace_fuel fuel a b r)
      end
  end.
Definition replace (a b s : string) : string :=
  if String.eqb a "" then s else replace_fuel (S (String.length s)) a b s.

(** ** Pure helpers imported from the standard library and from sibling modules

    [os.path], [locale], [mimetypes], and the helpers of [fs.py] and
    [state.py] that the transitions call without any effect of their own.
    Their definitions are not part of [transitions.py]; the transitions are
    embedded over an arbitrary instance. *)
Class Imports : Type := {
  (* os / os.path *)
  sep : string;
  linesep : string;
  dirname : string -> string;
  join : string -> string -> string;
  relpath : string -> string -> string;      (* relpath(path, start=...) *)
  (* locale: sorted(..., key=strxfrm) *)
  sorted_strxfrm : list string -> list string;
  (* mimetypes: guess_type(name, strict=False)[0] *)
  guess_type : string -> option string;
  (* .fs *)
  ancestors : string -> list string;
  is_parent : string -> string -> bool;      (* is_parent(parent=..., child=...) *)
  unify_ancestors : gset string -> list string;
  (* .state *)
  state_index : State.t -> Z -> option Node.t;
  is_dir : Node.t -> bool
}.

(** ** Collaborator calls *)

Abbreviation Window := Z.
Abbreviation Buffer := Z.
(** A raised exception, by its message; [None] is a normal return. *)
Abbreviation Raised := (option string).

Module E.
Inductive event : Type -> Type :=
(* pynvim *)
| get_current_win : event Window
| get_current_buf : event Buffer
| win_get_buf (w : Window) : event Buffer
| win_get_cursor (w : Window) : event (Z * Z)
| win_set_cursor (w : Window) (pos : Z * Z) : event unit
| buf_get_mark (b : Buffer) (mark : string) : event (Z * Z)
| input (prompt : string) (text : option string) : event (option string)
| confirm (question choices : string) (default : Z) : event Z
(* .nvim *)
| print (msg : string) (error : bool) : event unit
(* .wm *)
| is_fm_buffer (b : Buffer) : event bool
| find_current_buffer_name : event string
| resize_fm_windows (width : Z) : event unit
| show_file (st : State.t) (settings : Settings.t) (click : ClickType.t) : event unit
| kill_buffers (paths : gset string) : event unit
| update_buffers (st : State.t) (focus : option string) : event unit
(* os.path *)
| exists_ (p : string) : event bool
| isdir (p : string) : event bool
(* .fs and .system: the answer is the exception raised, if any *)
| fs_exists (p : string) : event bool
| new (p : string) : event Raised
| rename (src dst : string) : event Raised
| remove (paths : list string) : event Raised
| trash (paths : list string) : event Raised
(* .quickfix and .git *)
| quickfix : event Locations
| status : event VCStatus
(* .state *)
| initial (settings : Settings.t) : event State.t
| forward (st : State.t) (settings : Settings.t) (kw : list Delta) : event State.t.
End E.

(** ** Programs over collaborator calls *)

Inductive prog (A : Type) : Type :=
| Ret (a : A)
| Vis {X : Type} (e : E.event X) (k : X -> prog A).
Arguments Ret {A} a.
Arguments Vis {A X} e k.

Fixpoint bind {A B} (p : prog A) (f : A -> prog B) : prog B :=
  match p with
  | Ret a => f a
  | Vis e k => Vis e (fun x => bind (k x) f)
  end.

(** [await] of one collaborator call. *)
Definition call {X} (e : E.event X) : prog X := Vis e Ret.

Declare Scope prog_scope.
Delimit Scope prog_scope with prog.
Notation "'do' x <- p ; k" := (bind p (fun x => k))
  (at level 10, x name, p at level 100, k at level 200) : prog_scope.
Notation "'do' ' pat <- p ; k" := (bind p (fun x => match x with pat => k end))
  (at level 10, pat pattern, p at level 100, k at level 200) : prog_scope.
Open Scope prog_scope.

(** A set comprehension [{x for x in s if await c(x)}], asking in the order
    of [elements]. *)
Fixpoint filterM (c : string -> prog bool) (l : list string) : prog (list string) :=
  match l with
  | [] => Ret []
  | x :: l =>
      do b <- c x;
      do r <- filterM c l;
      Ret (if b then x :: r else r)
  end.

(** A generator expression [(await f(x) for x in l)], consumed in order. *)
Fixpoint mapM {A B} (f : A -> prog B) (l : list A) : prog (list B) :=
  match l with
  | [] => Ret []
  | x :: l => do y <- f x; do r <- mapM f l; Ret (y :: r)
  end.

(** *** Execution against an environment *)

(** One collaborator call together with its answer. *)
Inductive Call : Type :=
| Called {X : Type} (e : E.event X) (x : X).

(** An environment answers every call and moves to its next state. *)
Definition handler (W : Type) : Type := forall X, E.event X -> W -> X * W.

Fixpoint run {W A} (h : handler W) (p : prog A) (w : W) : A * W * list Call :=
  match p with
  | Ret a => (a, w, [])
  | Vis e k =>
      let '(x, w1) := h _ e w in
      let '(a, w2, tr) := run h (k x) w1 in
      (a, w2, Called e x :: tr)
  end.

(** What a run returns, and the calls it made, in order. *)
Definition result {W A} (h : handler W) (p : prog A) (w : W) : A := (run h p w).1.1.
Definition trace {W A} (h : handler W) (p : prog A) (w : W) : list Call := (run h p w).2.
(** The world a run ends in. *)
Definition world {W A} (h : handler W) (p : prog A) (w : W) : W := (run h p w).1.2.

(** *** Reading a trace *)

(** The keyword list of a [forward] call. *)
Definition forward_of (c : Call) : list (list Delta) :=
  match c with
  | Called (E.forward _ _ kw) _ => [kw]
  | Called _ _ => []
  end.

(** The message of a [print] call, with its [error] flag. *)
Definition print_of (c : Call) : list (string * bool) :=
  match c with
  | Called (E.print m e) _ => [(m, e)]
  | Called _ _ => []
  end.

(** The calls to a mutating filesystem operation. *)
Definition is_mutation (c : Call) : bool :=
  match c with
  | Called (E.new _) _ | Called (E.rename _ _) _
  | Called (E.remove _) _ | Called (E.trash _) _ => true
  | Called _ _ => false
  end.
Definition mutation_of (c : Call) : list Call := if is_mutation c then [c] else [].

(** The exception a mutating filesystem operation raised. *)
Definition raise_of (c : Call) : list string :=
  match c with
  | Called (E.new _) (Some e) | Called (E.rename _ _) (Some e)
  | Called (E.remove _) (Some e) | Called (E.trash _) (Some e) => [e]
  | Called _ _ => []
  end.

(** The path that [fs_exists] found present. *)
Definition present_of (c : Call) : list string :=
  match c with
  | Called (E.fs_exists p) true => [p]
  | Called _ _ => []
  end.

(** The keyword lists of the [forward] calls in a trace, in order. *)
Definition forwarded (tr : list Call) : list (list Delta) := flat_map forward_of tr.
(** The messages shown to the user. *)
Definition printed (tr : list Call) : list (string * bool) := flat_map print_of tr.
(** The attempts to change the filesystem. *)
Definition mutations (tr : list Call) : list Call := flat_map mutation_of tr.
(** The exceptions raised by those attempts. *)
Definition raised (tr : list Call) : list string := flat_map raise_of tr.
(** The destinations that the existence check found taken. *)
Definition found_present (tr : list Call) : list string := flat_map present_of tr.

(** The read-only questions to the editor, the disk and the overlays. *)
Definition is_query (X : Type) (e : E.event X) : bool :=
  match e with
  | E.get_current_win | E.get_current_buf | E.win_get_buf _ | E.win_get_cursor _
  | E.buf_get_mark _ _ | E.is_fm_buffer _ | E.find_current_buffer_name
  | E.exists_ _ | E.isdir _ | E.quickfix | E.status => true
  | _ => false
  end.

Definition is_forward (X : Type) (e : E.event X) : bool :=
  match e with
  | E.forward _ _ _ => true
  | _ => false
  end.

(** A program all of whose calls satisfy [P]. *)
Fixpoint only (P : forall X, E.event X -> bool) {A} (p : prog A) : Prop :=
  match p with
  | Ret _ => True
  | Vis e k => P _ e = true /\ forall x, only P (k x)
  end.

(** Keyword lookup: the selection a keyword list supplies, if any. *)
Fixpoint get_selection (kw : list Delta) : option Selection :=
  match kw with
  | [] => None
  | kw_selection s :: _ => Some s
  | _ :: kw => get_selection kw
  end.

(** ** The transitions ([transitions.py]) *)

Section Transitions.
Context {imports : Imports}.

(** [f"&Yes{linesep}&No{linesep}"] *)
Definition yes_no : string := "&Yes" ++ linesep ++ "&No" ++ linesep.

Definition _index (state : State.t) : prog (option Node.t) :=
  do window <- call E.get_current_win;
  do buffer <- call (E.win_get_buf window);
  do fm <- call (E.is_fm_buffer buffer);
  if fm then
    do '(row, _) <- call (E.win_get_cursor window);
    let row := row - 1 in
    Ret (state_index state row)
  else
    Ret None.

Definition _indices (state : State.t) (is_visual : bool) : prog (list Node.t) :=
  if is_visual then
    do buffer <- call E.get_current_buf;
    do '(r1, _) <- call (E.buf_get_mark buffer "<");
    do '(r2, _) <- call (E.buf_get_mark buffer ">");
    Ret (omap (state_index state) (range (r1 - 1) r2))
  else
    do window <- call E.get_current_win;
    do '(row, _) <- call (E.win_get_cursor window);
    let row := row - 1 in
    Ret (option_list (state_index state row)).

Definition _display_path (path : string) (state : State.t) : prog string :=
  let raw := relpath path (Node.path (State.root state)) in
  let name := replace linesep "\n" raw in
  do d <- call (E.isdir path);
  Ret (if d then name ++ sep else name).

Definition c_resize (state : State.t) (settings : Settings.t)
    (direction : Z -> Z -> Z) : prog Stage.t :=
  let width := Z.max (direction (State.width state) 10) 1 in
  do new_state <- call (E.forward state settings [kw_width width]);
  do _ <- call (E.resize_fm_windows (State.width new_state));
  Ret (Stage1 new_state).

Definition c_click (state : State.t) (settings : Settings.t)
    (click_type : ClickType.t) : prog (option Stage.t) :=
  do node <- _index state;
  match node with
  | Some node =>
      if bool_decide (Mode.orphan_link ∈ Node.mode node) then
        let name := Node.name node in
        do _ <- call (E.print ("⚠️  cannot open dead link: " ++ name) true);
        Ret None
      else
        if bool_decide (Mode.folder ∈ Node.mode node) then
          let filter_pattern := State.filter_pattern state in
          if truthy (FilterPattern.pattern filter_pattern)
             || nonempty (FilterPattern.search_set filter_pattern) then
            do _ <- call (E.print
                "⚠️  cannot click on folders while filtering or searching" false);
            Ret None
          else
            let paths : gset string := {[Node.path node]} in
            let index := State.index state ^^ paths in
            do new_state <- call (E.forward state settings [kw_index index; kw_paths paths]);
            Ret (Some (Stage1 new_state))
        else
          let mime := guess_type (Node.name node) in
          let m_type := partition_head (default "" mime) in
          let ask : prog bool :=
            let question :=
              Node.name node ++ " have possible mimetype " ++ str_opt mime ++ ", continue?" in
            do resp <- call (E.confirm question yes_no 2);
            Ret (resp =? 1)%Z in
          do ans <-
            (if bool_decide (m_type ∈ Settings.warn (Settings.mime settings))
                && negb (bool_decide (Node.ext node ∈ Settings.ignore_exts (Settings.mime settings)))
             then ask else Ret true);
          if ans then
            do new_state <- call (E.forward state settings [kw_current (Node.path node)]);
            do _ <- call (E.show_file new_state settings click_type);
            Ret (Some (Stage1 new_state))
          else
            Ret None
  | None => Ret None
  end.

Definition c_collapse (state : State.t) (settings : Settings.t) : prog (option Stage.t) :=
  do node <- _index state;
  match node with
  | Some node =>
      let path :=
        if bool_decide (Mode.folder ∈ Node.mode node)
        then Node.path node else dirname (Node.path node) in
      if negb (String.eqb path (Node.path (State.root state))) then
        let paths : gset string :=
          filter (fun i => i = path \/ is_parent path i = true) (State.index state) in
        let index := State.index state ∖ paths in
        do new_state <- call (E.forward state settings [kw_index index; kw_paths paths]);
        let row := default 0 (State.paths_lookup new_state !! path) in
        do _ <-
          (if negb (row =? 0)%Z then
             do window <- call E.get_current_win;
             do '(_, col) <- call (E.win_get_cursor window);
             call (E.win_set_cursor window (row + 1, col))
           else Ret tt);
        Ret (Some (Stage1 new_state))
      else
        Ret None
  | None => Ret None
  end.

Definition _vc_stat (enable : bool) : prog VCStatus :=
  if enable then call E.status else Ret ∅.

Definition _is_filtering (filter_pattern : FilterPattern.t) : bool :=
  (Z.of_nat (String.length (FilterPattern.pattern filter_pattern)) >? 0)%Z
  && (Z.of_nat (size (FilterPattern.search_set filter_pattern)) >? 0)%Z.

(** [gather(quickfix(nvim), _vc_stat(...))] is taken in argument order;
    [current=new_current or Void()] passes the keyword only for a truthy
    [new_current]. *)
Definition c_refresh (state : State.t) (settings : Settings.t) (write : bool) : prog Stage.t :=
  do _ <- (if write then call (E.print "⏳...⌛️" false) else Ret tt);
  do current <- call E.find_current_buffer_name;
  let cwd := Node.path (State.root state) in
  let paths : gset string := {[cwd]} in
  let new_current := if is_parent cwd current then Some current else None in
  let cont : prog (Index * Selection) :=
    do existing <- filterM (fun i => call (E.exists_ i)) (elements (State.index state));
    let index : gset string := list_to_set existing ∪ paths in
    do selection <-
      (if _is_filtering (State.filter_pattern state) then Ret (∅ : gset string)
       else
         do kept <- filterM (fun s => call (E.exists_ s)) (elements (State.selection state));
         Ret (list_to_set kept));
    Ret (index, selection) in
  do '(index, selection) <- cont;
  let current_paths : gset string :=
    if State.follow state then list_to_set (ancestors current) else ∅ in
  let new_index := if truthy_opt new_current then index else index ∪ current_paths in
  do locations <- call E.quickfix;
  do vc <- _vc_stat (State.enable_vc state);
  let qf := QuickFix.mk locations (QuickFix.filtering (State.qf state)) in
  do new_state <- call (E.forward state settings
    ([kw_index new_index; kw_selection selection; kw_qf qf; kw_vc vc; kw_paths paths]
     ++ (if truthy_opt new_current then [kw_current current] else [])));
  do _ <- (if write then call (E.print "✅" false) else Ret tt);
  Ret (Stage1 new_state).

Definition c_toggle_qf_filtering (state : State.t) (settings : Settings.t) : prog Stage.t :=
  do locations <- call E.quickfix;
  let filtering :=
    if nonempty_map locations then negb (QuickFix.filtering (State.qf state)) else false in
  let qf := QuickFix.mk locations filtering in
  do new_state <- call (E.forward state settings [kw_qf qf]);
  do _ <-
    (if nonempty_map locations then
       call (E.print ("🐶 enable quickfix filtering: "
                      ++ str_bool (QuickFix.filtering (State.qf new_state))) false)
     else
       call (E.print "quickfix list empty" true));
  Ret (Stage1 new_state).

Definition c_new (state : State.t) (settings : Settings.t) : prog (option Stage.t) :=
  do found <- _index state;
  let node := default (State.root state) found in
  let parent := if is_dir node then Node.path node else dirname (Node.path node) in
  do child <- call (E.input "✏️  :" None);
  match child with
  | Some child =>
      if truthy child then
        let name := join parent child in
        do there <- call (E.fs_exists name);
        if there then
          let msg := "⚠️  Exists: " ++ name in
          do _ <- call (E.print msg true);
          Ret (Some (Stage1 state))
        else
          do raised <- call (E.new name);
          match raised with
          | Some e =>
              do _ <- call (E.print e true);
              do stage <- c_refresh state settings false;
              Ret (Some stage)
          | None =>
              let paths : gset string := list_to_set (ancestors name) in
              let index := State.index state ∪ paths in
              do new_state <- call (E.forward state settings [kw_index index; kw_paths paths]);
              Ret (Some (Stage1 new_state))
          end
      else Ret None
  | None => Ret None
  end.

Definition c_rename (state : State.t) (settings : Settings.t) : prog (option Stage.t) :=
  do node <- _index state;
  match node with
  | Some node =>
      let prev_name := Node.path node in
      let parent := Node.path (State.root state) in
      let rel_path := relpath prev_name parent in
      do child <- call (E.input "✏️  :" (Some rel_path));
      match child with
      | Some child =>
          if truthy child then
            let new_name := join parent child in
            let new_parent := dirname new_name in
            do there <- call (E.fs_exists new_name);
            if there then
              let msg := "⚠️  Exists: " ++ new_name in
              do _ <- call (E.print msg true);
              Ret (Some (Stage1 state))
            else
              do raised <- call (E.rename prev_name new_name);
              match raised with
              | Some e =>
                  do _ <- call (E.print e true);
                  do stage <- c_refresh state settings false;
                  Ret (Some stage)
              | None =>
                  let paths : gset string :=
                    {[parent]} ∪ {[new_parent]} ∪ list_to_set (ancestors new_parent) in
                  let index := State.index state ∪ paths in
                  do new_state <-
                    call (E.forward state settings [kw_index index; kw_paths paths]);
                  do _ <- call (E.kill_buffers {[prev_name]});
                  Ret (Some (Stage1 new_state))
              end
          else Ret None
      | None => Ret None
      end
  | None => Ret None
  end.

Definition c_select (state : State.t) (settings : Settings.t)
    (is_visual : bool) : prog (option Stage.t) :=
  do nodes <- _indices state is_visual;
  if is_visual then
    let selection := State.selection state ^^ list_to_set (Node.path <$> nodes) in
    do new_state <- call (E.forward state settings [kw_selection selection]);
    Ret (Some (Stage1 new_state))
  else
    match nodes with
    | node :: _ =>
        let selection := State.selection state ^^ {[Node.path node]} in
        do new_state <- call (E.forward state settings [kw_selection selection]);
        Ret (Some (Stage1 new_state))
    | [] => Ret None
    end.

Definition _delete (state : State.t) (settings : Settings.t) (is_visual : bool)
    (yeet : list string -> prog Raised) : prog (option Stage.t) :=
  do selection <-
    (if nonempty (State.selection state) then Ret (State.selection state)
     else
       do nodes <- _indices state is_visual;
       Ret (list_to_set (Node.path <$> nodes)));
  let unified := unify_ancestors selection in
  match unified with
  | _ :: _ =>
      do shown <- mapM (fun path => _display_path path state) unified;
      let display_paths := String.concat linesep (sorted_strxfrm shown) in
      let question := "🗑" ++ linesep ++ display_paths ++ "?" in
      do resp <- call (E.confirm question yes_no 2);
      let ans := (resp =? 1)%Z in
      if ans then
        do raised <- yeet unified;
        match raised with
        | Some e =>
            do _ <- call (E.print e true);
            do stage <- c_refresh state settings false;
            Ret (Some stage)
        | None =>
            let paths : gset string := list_to_set (dirname <$> unified) in
            do new_state <-
              call (E.forward state settings [kw_selection ∅; kw_paths paths]);
            do _ <- call (E.kill_buffers selection);
            Ret (Some (Stage1 new_state))
        end
      else Ret None
  | [] => Ret None
  end.

(** [remove] of [fs.py] and [trash] of [system.py], as awaited by [_delete]. *)
Definition remove (paths : list string) : prog Raised := call (E.remove paths).
Definition trash (paths : list string) : prog Raised := call (E.trash paths).

Definition c_delete (state : State.t) (settings : Settings.t)
    (is_visual : bool) : prog (option Stage.t) :=
  _delete state settings is_visual remove.

Definition c_trash (state : State.t) (settings : Settings.t)
    (is_visual : bool) : prog (option Stage.t) :=
  _delete state settings is_visual trash.

(** ** The dispatcher ([__init__.py]) *)

(** [Main._curr_state]: [self.state] is built on first use. *)
Definition Main_curr_state (self_state : option State.t) (settings : Settings.t) : prog State.t :=
  match self_state with
  | Some st => Ret st
  | None => call (E.initial settings)
  end.

(** The body that [Main._run] executes while holding [self.lock]; the result
    is the value of [self.state] when the lock is released. *)
Definition Main_run (fn : State.t -> Settings.t -> prog (option Stage.t))
    (self_state : option State.t) (settings : Settings.t) : prog State.t :=
  do state <- Main_curr_state self_state settings;
  do stage <- fn state settings;
  match stage with
  | Some stage =>
      do _ <- call (E.update_buffers (Stage.state stage) (Stage.focus stage));
      Ret (Stage.state stage)
  | None => Ret state
  end.

End Transitions.

(** [operator.add] and [operator.sub], the two directions [Main] resizes with. *)
Definition add : Z -> Z -> Z := Z.add.
Definition sub : Z -> Z -> Z := Z.sub.

(** ** What [forward] returns *)

(** Modelled from the spec: [state.forward] ([state.py] is not among the
    sources).  Step 1 of its algorithm: the deltas are merged into a copy of
    the old state, and a field that is not supplied is carried over
    unchanged.  [paths] names the subtrees to rescan and has no field of its
    own. *)
Definition merge_delta (st : State.t) (d : Delta) : State.t :=
  let '(State.mk index selection filter_pattern show_hidden follow enable_vc
          width root qf vc current lookup paths_lookup) := st in
  match d with
  | kw_root r =>
      State.mk index selection filter_pattern show_hidden follow enable_vc
        width r qf vc current lookup paths_lookup
  | kw_index i =>
      State.mk i selection filter_pattern show_hidden follow enable_vc
        width root qf vc current lookup paths_lookup
  | kw_selection s =>
      State.mk index s filter_pattern show_hidden follow enable_vc
        width root qf vc current lookup paths_lookup
  | kw_filter_pattern f =>
      State.mk index selection f show_hidden follow enable_vc
        width root qf vc current lookup paths_lookup
  | kw_show_hidden b =>
      State.mk index selection filter_pattern b follow enable_vc
        width root qf vc current lookup paths_lookup
  | kw_follow b =>
      State.mk index selection filter_pattern show_hidden b enable_vc
        width root qf vc current lookup paths_lookup
  | kw_enable_vc b =>
      State.mk index selection filter_pattern show_hidden follow b
        width root qf vc current lookup paths_lookup
  | kw_width w =>
      State.mk index selection filter_pattern show_hidden follow enable_vc
        w root qf vc current lookup paths_lookup
  | kw_qf q =>
      State.mk index selection filter_pattern show_hidden follow enable_vc
        width root q vc current lookup paths_lookup
  | kw_vc v =>
      State.mk index selection filter_pattern show_hidden follow enable_vc
        width root qf v current lookup paths_lookup
  | kw_current c =>
      State.mk index selection filter_pattern show_hidden follow enable_vc
        width root qf vc (Some c) lookup paths_lookup
  | kw_paths _ => st
  end.

Definition merge (st : State.t) (kw : list Delta) : State.t :=
  fold_left merge_delta kw st.

(** Modelled from the spec: the fields of the state that step 1 of
    [state.forward] settles.  The root and the row lookups are derived in
    the later steps (rescan, visibility, ordering) and are left open. *)
Definition same_settled (a b : State.t) : Prop :=
  State.index a = State.index b
  /\ State.selection a = State.selection b
  /\ State.filter_pattern a = State.filter_pattern b
  /\ State.show_hidden a = State.show_hidden b
  /\ State.follow a = State.follow b
  /\ State.enable_vc a = State.enable_vc b
  /\ State.width a = State.width b
  /\ State.qf a = State.qf b
  /\ State.vc a = State.vc b
  /\ State.current a = State.current b.

(** An environment whose [forward] merges the deltas as the spec says. *)
Definition forward_merges {W} (h : handler W) : Prop :=
  forall st settings kw w, same_settled (h _ (E.forward st settings kw) w).1 (merge st kw).

(** ** A concrete environment, to run the transitions on examples *)

Module Posix.
Definition slash : ascii := "/"%char.

Fixpoint drop_slashes (l : list ascii) : list ascii :=
  match l with
  | c :: r => if Ascii.eqb c slash then drop_slashes r else l
  | [] => []
  end.

Fixpoint drop_to_slash (l : list ascii) : list ascii :=
  match l with
  | c :: r => if Ascii.eqb c slash then l else drop_to_slash r
  | [] => []
  end.

(** [posixpath.dirname]: the head up to the last slash, without its
    trailing slashes unless it consists of slashes only. *)
Definition dirname (p : string) : string :=
  let head := drop_to_slash (rev (list_ascii_of_string p)) in
  match drop_slashes head with
  | [] => string_of_list_ascii (rev head)
  | stripped => string_of_list_ascii (rev stripped)
  end.

(** [posixpath.join] of two components. *)
Definition join (a b : string) : string :=
  if String.prefix "/" b then b
  else if String.eqb a "" then b
  else match rev (list_ascii_of_string a) with
       | c :: _ => if Ascii.eqb c slash then a ++ b else a ++ "/" ++ b
       | [] => b
       end.

(** [relpath] for a path below [start]; other paths are returned as they are. *)
Definition relpath (p start : string) : string :=
  if String.eqb p start then "."
  else if String.prefix (start ++ "/") p
       then String.substring (S (String.length start)) (String.length p) p
       else p.

(** The chain of parents of a path, outermost first. *)
Fixpoint ancestors_fuel (fuel : nat) (p : string) : list string :=
  match fuel with
  | O => []
  | S fuel =>
      if String.eqb p "" || String.eqb p "/" then []
      else let parent := dirname p in ancestors_fuel fuel parent ++ [parent]
  end.
Definition ancestors (p : string) : list string := ancestors_fuel (String.length p) p.

Definition is_parent (parent child : string) : bool :=
  bool_decide (parent ∈ ancestors child).

Definition unify_ancestors (paths : gset string) : list string :=
  List.filter (fun p => forallb (fun a => negb (bool_decide (a ∈ paths))) (ancestors p))
              (elements paths).

Definition state_index (st : State.t) (row : Z) : option Node.t :=
  if (row <? 0)%Z then None else State.lookup st !! Z.to_nat row.

Definition is_dir (n : Node.t) : bool := bool_decide (Mode.folder ∈ Node.mode n).

Definition newline : string := String (ascii_of_nat 10) "".

(** Sorting in byte order, the collation of the C locale. *)
Fixpoint insert_sorted (x : string) (l : list string) : list string :=
  match l with
  | [] => [x]
  | y :: r => if String.leb x y then x :: l else y :: insert_sorted x r
  end.
Definition sorted (l : list string) : list string := fold_right insert_sorted [] l.

(** The instance: POSIX paths, the C locale, no mimetype table. *)
Definition imports : Imports :=
  Build_Imports "/" newline dirname join relpath sorted (fun _ => None)
    ancestors is_parent unify_ancestors state_index is_dir.

(** The world of the example environment: what the editor answers, what
    is on disk, and whether the filesystem refuses to change. *)
Record World : Type := mk {
  cursor : Z * Z;
  marks : (Z * Z) * (Z * Z);
  in_fm_buffer : bool;
  typed : option string;
  confirmed : Z;
  buffer_name : string;
  disk : gset string;
  folders : gset string;
  read_only : bool;
  quickfix_list : Locations;
  vc_status : VCStatus;
  first_state : State.t
}.

Definition on_disk (d : gset string) (w : World) : World :=
  mk (cursor w) (marks w) (in_fm_buffer w) (typed w) (confirmed w) (buffer_name w)
     d (folders w) (read_only w) (quickfix_list w) (vc_status w) (first_state w).

(** A filesystem change: refused with an exception when the world is
    read-only, applied to the disk otherwise. *)
Definition mutate (d : gset string) (w : World) : Raised * World :=
  if read_only w then (Some "Permission denied", w) else (None, on_disk d w).

(** The environment: the editor answers from the world, the filesystem is
    the [disk], and [forward] merges its deltas. *)
Definition env : handler World :=
  fun X e =>
    match e in E.event X return World -> X * World with
    | E.get_current_win => fun w => (1, w)
    | E.get_current_buf => fun w => (1, w)
    | E.win_get_buf _ => fun w => (1, w)
    | E.win_get_cursor _ => fun w => (cursor w, w)
    | E.win_set_cursor _ _ => fun w => (tt, w)
    | E.buf_get_mark _ m => fun w => (if String.eqb m "<" then (marks w).1 else (marks w).2, w)
    | E.input _ _ => fun w => (typed w, w)
    | E.confirm _ _ _ => fun w => (confirmed w, w)
    | E.print _ _ => fun w => (tt, w)
    | E.is_fm_buffer _ => fun w => (in_fm_buffer w, w)
    | E.find_current_buffer_name => fun w => (buffer_name w, w)
    | E.resize_fm_windows _ => fun w => (tt, w)
    | E.show_file _ _ _ => fun w => (tt, w)
    | E.kill_buffers _ => fun w => (tt, w)
    | E.update_buffers _ _ => fun w => (tt, w)
    | E.exists_ p => fun w => (bool_decide (p ∈ disk w), w)
    | E.isdir p => fun w => (bool_decide (p ∈ disk w) && bool_decide (p ∈ folders w), w)
    | E.fs_exists p => fun w => (bool_decide (p ∈ disk w), w)
    | E.new p => fun w => mutate (disk w ∪ {[p]}) w
    | E.rename src dst => fun w => mutate (disk w ∖ {[src]} ∪ {[dst]}) w
    | E.remove paths => fun w => mutate (disk w ∖ list_to_set paths) w
    | E.trash paths => fun w => mutate (disk w ∖ list_to_set paths) w
    | E.quickfix => fun w => (quickfix_list w, w)
    | E.status => fun w => (vc_status w, w)
    | E.initial _ => fun w => (first_state w, w)
    | E.forward st _ kw => fun w => (merge st kw, w)
    end.
End Posix.

(** ** Example data: the tree [/a] with [/a/b/c.txt] and [/a/d.txt] *)

Module Ex.
Definition root : Node.t := Node.mk "/a" "a" [Mode.folder] "".
Definition b : Node.t := Node.mk "/a/b" "b" [Mode.folder] "".
Definition c : Node.t := Node.mk "/a/b/c.txt" "c.txt" [Mode.file] ".txt".
Definition d : Node.t := Node.mk "/a/d.txt" "d.txt" [Mode.file] ".txt".
Definition dead : Node.t := Node.mk "/a/e" "e" [Mode.link; Mode.orphan_link] "".

Definition settings : Settings.t := Settings.mk (Settings.mk_mime ∅ ∅).

(** A state over that tree with the given selection, filter and quickfix. *)
Definition state (selection : gset string) (filter_pattern : FilterPattern.t)
    (qf : QuickFix.t) : State.t :=
  State.mk ({["/a"]} ∪ {["/a/b"]}) selection filter_pattern false false false 40
    root qf ∅ None [root; b; c; d; dead]
    (list_to_map [("/a", 0); ("/a/b", 1); ("/a/b/c.txt", 2); ("/a/d.txt", 3); ("/a/e", 4)]).

Definition no_filter : FilterPattern.t := FilterPattern.mk "" ∅.
Definition no_qf : QuickFix.t := QuickFix.mk ∅ false.

(** A world with the cursor on the given (1-based) row of the tree buffer
    and everything of the tree on disk. *)
Definition world (row : Z) (typed : option string) (read_only : bool) : Posix.World :=
  Posix.mk (row, 0) ((row, 0), (row, 0)) true typed 1 "/a/d.txt"
    ({["/a"]} ∪ {["/a/b"]} ∪ {["/a/b/c.txt"]} ∪ {["/a/d.txt"]})
    ({["/a"]} ∪ {["/a/b"]})
    read_only ∅ ∅ (state ∅ no_filter no_qf).
End Ex.

(** ** Notions the properties are stated with *)

Section Notions.
Context {imports : Imports}.

(** The directory [c_collapse] folds for a node: the node itself when it is
    a folder, else the directory that holds it. *)
Definition collapse_target (node : Node.t) : string :=
  if bool_decide (Mode.folder ∈ Node.mode node)
  then Node.path node else dirname (Node.path node).

(** The entries [c_collapse] takes out of the index for a target. *)
Definition collapsed (target : string) (index : Index) : gset string :=
  filter (fun i => i = target \/ is_parent target i = true) index.


(** The paths [c_select] flips for the nodes under the cursor: all of them
    in visual mode, else the first one; nothing when there is none. *)
Definition toggled (is_visual : bool) (nodes : list Node.t) : option (gset string) :=
  if is_visual then Some (list_to_set (Node.path <$> nodes))
  else match nodes with
       | node :: _ => Some {[Node.path node]}
       | [] => None
       end.


(** A transition that always returns a stage, as [Main._run] takes it. *)
Definition staged (fn : State.t -> Settings.t -> prog Stage.t)
    (state : State.t) (settings : Settings.t) : prog (option Stage.t) :=
  do stage <- fn state settings; Ret (Some stage).


Section Disk.
Context {W : Type} (h : handler W).

(** The paths among [l] that the disk still has, as the refresh finds them
    when it asks from the world [w]. *)
Definition still_exist (l : list string) (w : W) : list string :=
  result h (filterM (fun s => call (E.exists_ s)) l) w.

(** The selection a refresh hands to [forward], when the disk is asked about
    the old selection from the world [w]. *)
Definition refreshed_selection (state : State.t) (w : W) : gset string :=
  if _is_filtering (State.filter_pattern state) then ∅
  else list_to_set (still_exist (elements (State.selection state)) w).


End Disk.

End Notions.

Definition is_query_or_forward (X : Type) (e : E.event X) : bool :=
  is_query X e || is_forward X e.



(** ** Further example states *)

(** A quickfix overlay that was filtering on the single entry [/a/d.txt]. *)
Definition stale_qf : QuickFix.t := QuickFix.mk {["/a/d.txt" := 1%nat]} true.


(** A state whose quickfix overlay is that stale one. *)
Definition stale_state : State.t := Ex.state ∅ Ex.no_filter stale_qf.

(** [/a/d.txt] is selected while only the pattern [d] filters the view. *)
Definition by_pattern : State.t :=
  Ex.state {["/a/d.txt"]} (FilterPattern.mk "d" ∅) Ex.no_qf.

(** [/a/d.txt] is selected while only a search that found it filters the view. *)
Definition by_search : State.t :=
  Ex.state {["/a/d.txt"]} (FilterPattern.mk "" {["/a/d.txt"]}) Ex.no_qf.

(** [/a/d.txt] is selected and nothing filters the view. *)
Definition unfiltered_selected : State.t :=
  Ex.state {["/a/d.txt"]} Ex.no_filter Ex.no_qf.

(** [/a/b] is selected; then [/a/d.txt] is flipped into the selection. *)
Definition picked_b : State.t := Ex.state {["/a/b"]} Ex.no_filter Ex.no_qf.
Definition picked_b_d : State.t :=
  Ex.state ({["/a/b"]} ^^ {["/a/d.txt"]}) Ex.no_filter Ex.no_qf.

(** Nothing is selected and nothing filters the view. *)
Definition plain : State.t := Ex.state ∅ Ex.no_filter Ex.no_qf.

(** The same with a sidebar only 5 columns wide. *)
Definition narrow : State.t := merge plain [kw_width 5].



(** ** The other transitions of [transitions.py] *)

(** Pure helpers that only these transitions import: [os.path.basename],
    the sort of dictionary items by the collation key of their source, and
    [state.search_forward] with its two keywords. *)
Class MoreImports : Type := {
  basename : string -> string;
  sorted_items : list (string * string) -> list (string * string);
  search_forward : FilterPattern.t -> option string -> option (gset string) -> FilterPattern.t
}.

(** Collaborators these transitions await that are not among the events;
    each is some program over the events.  [search] answers with the message
    of the [SearchError] it raised or with the set it found, [cut] and
    [copy] with the exception they raised, if any. *)
Class Awaited : Type := {
  new_root : string -> Index -> prog Node.t;
  getcwd : prog string;
  search : string -> string -> string -> prog (string + gset string);
  setreg : string -> string -> prog unit;
  cut : list (string * string) -> prog Raised;
  copy : list (string * string) -> prog Raised
}.

(** A dict comprehension [{k: v for k, v in items if await c(k, v)}]. *)
Fixpoint keepM {A} (c : A -> prog bool) (l : list A) : prog (list A) :=
  match l with
  | [] => Ret []
  | x :: l =>
      do b <- c x;
      do r <- keepM c l;
      Ret (if b then x :: r else r)
  end.

Section MoreTransitions.
Context {imports : Imports} {more : MoreImports} {awaited : Awaited}.

Definition _current (state : State.t) (settings : Settings.t)
    (current : string) : prog (option Stage.t) :=
  if is_parent (Node.path (State.root state)) current then
    let paths : gset string :=
      if State.follow state then list_to_set (ancestors current) else ∅ in
    let index := State.index state ∪ paths in
    do new_state <- call (E.forward state settings
                            [kw_index index; kw_paths paths; kw_current current]);
    Ret (Some (Stage1 new_state))
  else
    Ret None.

Definition _change_dir (state : State.t) (settings : Settings.t)
    (new_base : string) : prog Stage.t :=
  let index := State.index state ∪ {[new_base]} in
  do root <- new_root new_base index;
  do new_state <- call (E.forward state settings [kw_root root; kw_index index]);
  Ret (Stage1 new_state).

Definition a_changedir (state : State.t) (settings : Settings.t) : prog Stage.t :=
  do cwd <- getcwd;
  _change_dir state settings cwd.

Definition a_follow (state : State.t) (settings : Settings.t) : prog (option Stage.t) :=
  do current <- call E.find_current_buffer_name;
  if truthy current then _current state settings current else Ret None.

Definition a_quickfix (state : State.t) (settings : Settings.t) : prog Stage.t :=
  do locations <- call E.quickfix;
  let qf := QuickFix.mk locations (QuickFix.filtering (State.qf state)) in
  do new_state <- call (E.forward state settings [kw_qf qf]);
  Ret (Stage1 new_state).

Definition c_change_focus (state : State.t) (settings : Settings.t) : prog (option Stage.t) :=
  do node <- _index state;
  match node with
  | Some node =>
      let new_base :=
        if bool_decide (Mode.folder ∈ Node.mode node)
        then Node.path node else dirname (Node.path node) in
      do stage <- _change_dir state settings new_base;
      Ret (Some stage)
  | None => Ret None
  end.

Definition c_change_focus_up (state : State.t) (settings : Settings.t)
    : prog (option Stage.t) :=
  let c_root := Node.path (State.root state) in
  let parent := dirname c_root in
  if truthy parent && negb (String.eqb parent c_root) then
    do stage <- _change_dir state settings parent;
    Ret (Some stage)
  else
    Ret None.

Definition c_jump_to_current (state : State.t) (settings : Settings.t)
    : prog (option Stage.t) :=
  match State.current state with
  | Some current =>
      if truthy current then
        do stage <- _current state settings current;
        match stage with
        | Some stage => Ret (Some (Stage.mk (Stage.state stage) (Some current)))
        | None => Ret None
        end
      else Ret None
  | None => Ret None
  end.

Definition c_hidden (state : State.t) (settings : Settings.t) : prog Stage.t :=
  do new_state <- call (E.forward state settings
                          [kw_show_hidden (negb (State.show_hidden state))]);
  Ret (Stage1 new_state).

Definition c_toggle_follow (state : State.t) (settings : Settings.t) : prog Stage.t :=
  do new_state <- call (E.forward state settings [kw_follow (negb (State.follow state))]);
  do _ <- call (E.print ("🐶 follow mode: " ++ str_bool (State.follow new_state)) false);
  Ret (Stage1 new_state).

Definition c_toggle_vc (state : State.t) (settings : Settings.t) : prog Stage.t :=
  let enable_vc := negb (State.enable_vc state) in
  do vc <- _vc_stat enable_vc;
  do new_state <- call (E.forward state settings [kw_enable_vc enable_vc; kw_vc vc]);
  do _ <- call (E.print ("🐶 enable version control: "
                         ++ str_bool (State.enable_vc new_state)) false);
  Ret (Stage1 new_state).

Definition c_new_filter (state : State.t) (settings : Settings.t) : prog Stage.t :=
  do resp <- call (E.input "New filter:"
                     (Some (FilterPattern.pattern (State.filter_pattern state))));
  let pattern := default "" resp in
  let filter_pattern := search_forward (State.filter_pattern state) (Some pattern) None in
  do new_state <- call (E.forward state settings
                          [kw_selection ∅; kw_filter_pattern filter_pattern]);
  Ret (Stage1 new_state).

Definition c_new_search (state : State.t) (settings : Settings.t) : prog (option Stage.t) :=
  let cwd := Node.path (State.root state) in
  do pattern <- call (E.input "New search:" (Some ""));
  do found <-
    (match pattern with
     | Some pattern => if truthy pattern then search pattern cwd linesep else Ret (inr ∅)
     | None => Ret (inr ∅)
     end);
  match found with
  | inl e =>
      do _ <- call (E.print e true);
      Ret None
  | inr search_set =>
      let filter_pattern := search_forward (State.filter_pattern state) None (Some search_set) in
      do new_state <- call (E.forward state settings [kw_filter_pattern filter_pattern]);
      Ret (Some (Stage1 new_state))
  end.

Definition c_copy_name (state : State.t) (settings : Settings.t)
    (is_visual : bool) : prog unit :=
  let selection := State.selection state in
  do paths <-
    (if is_visual || negb (nonempty selection) then
       do nodes <- _indices state is_visual;
       Ret (Node.path <$> nodes)
     else
       Ret (sorted_strxfrm (elements selection)));
  let clip := String.concat linesep paths in
  let clap := String.concat ", " paths in
  do _ <- setreg "+" clip;
  do _ <- setreg "*" clip;
  call (E.print ("📎 " ++ clap) false).

Definition c_clear_selection (state : State.t) (settings : Settings.t) : prog Stage.t :=
  do new_state <- call (E.forward state settings [kw_selection ∅]);
  Ret (Stage1 new_state).

Definition _find_dest (src : string) (node : Node.t) : string :=
  let name := basename src in
  let parent := if is_dir node then Node.path node else dirname (Node.path node) in
  let dst := join parent name in
  dst.

(** [f"{_display_path(s, state=state)} -> {_display_path(d, state=state)}"] *)
Definition _arrow (state : State.t) (item : string * string) : prog string :=
  do s <- _display_path item.1 state;
  do d <- _display_path item.2 state;
  Ret (s ++ " -> " ++ d).

(** The dict [operations] is the list of its items, in the order of
    [unified], which names each source once. *)
Definition _operation (state : State.t) (settings : Settings.t) (op_name : string)
    (action : list (string * string) -> prog Raised) : prog (option Stage.t) :=
  do node <- _index state;
  let selection := State.selection state in
  let unified := unify_ancestors selection in
  match unified, node with
  | _ :: _, Some node =>
      let operations := map (fun src => (src, _find_dest src node)) unified in
      do pre_existing <- keepM (fun item => call (E.exists_ item.2)) operations;
      match pre_existing with
      | _ :: _ =>
          do shown <- mapM (_arrow state) (sorted_items pre_existing);
          let msg := String.concat ", " shown in
          do _ <- call (E.print ("⚠️  -- " ++ op_name ++ ": path(s) already exist! :: " ++ msg)
                          true);
          Ret None
      | [] =>
          do shown <- mapM (_arrow state) (sorted_items operations);
          let msg := String.concat linesep shown in
          do resp <- call (E.confirm (op_name ++ linesep ++ msg ++ "?") yes_no 2);
          let ans := (resp =? 1)%Z in
          if ans then
            do raised <- action operations;
            match raised with
            | Some e =>
                do _ <- call (E.print e true);
                do stage <- c_refresh state settings false;
                Ret (Some stage)
            | None =>
                let paths : gset string :=
                  list_to_set (dirname <$> (map fst operations ++ map snd operations)%list) in
                let index := State.index state ∪ paths in
                do new_state <- call (E.forward state settings
                                        [kw_index index; kw_selection ∅; kw_paths paths]);
                do _ <- call (E.kill_buffers selection);
                Ret (Some (Stage1 new_state))
            end
          else Ret None
      end
  | _, _ =>
      do _ <- call (E.print "⚠️  -- {name}: nothing selected!" true);
      Ret None
  end.

Definition c_cut (state : State.t) (settings : Settings.t) : prog (option Stage.t) :=
  _operation state settings "Cut" cut.

Definition c_copy (state : State.t) (settings : Settings.t) : prog (option Stage.t) :=
  _operation state settings "Copy" copy.

End MoreTransitions.

(** ** Further readings of a trace *)

(** The answer the user typed at an [input] prompt. *)
Definition input_of (c : Call) : list (option string) :=
  match c with
  | Called (E.input _ _) x => [x]
  | Called _ _ => []
  end.

(** The answer the user gave to a [confirm] dialog. *)
Definition confirm_of (c : Call) : list Z :=
  match c with
  | Called (E.confirm _ _ _) x => [x]
  | Called _ _ => []
  end.

(** The state and click type a file was opened with. *)
Definition show_of (c : Call) : list (State.t * ClickType.t) :=
  match c with
  | Called (E.show_file st _ click) _ => [(st, click)]
  | Called _ _ => []
  end.

(** The paths whose buffers were closed. *)
Definition kill_of (c : Call) : list (gset string) :=
  match c with
  | Called (E.kill_buffers paths) _ => [paths]
  | Called _ _ => []
  end.

(** The state and focus the tree buffer was redrawn with. *)
Definition redraw_of (c : Call) : list (State.t * option string) :=
  match c with
  | Called (E.update_buffers st focus) _ => [(st, focus)]
  | Called _ _ => []
  end.

(** A path that [fs_exists] was asked about. *)
Definition check_of (c : Call) : list string :=
  match c with
  | Called (E.fs_exists p) _ => [p]
  | Called _ _ => []
  end.

(** A read of the cursor or of the visual marks. *)
Definition cursor_of (c : Call) : list Call :=
  match c with
  | Called (E.win_get_cursor _) _ | Called (E.buf_get_mark _ _) _ => [c]
  | Called _ _ => []
  end.

(** A call to the version-control reader. *)
Definition status_of (c : Call) : list Call :=
  match c with
  | Called E.status _ => [c]
  | Called _ _ => []
  end.

(** A path that [exists] reported present. *)
Definition there_of (c : Call) : list string :=
  match c with
  | Called (E.exists_ p) true => [p]
  | Called _ _ => []
  end.

Definition typed (tr : list Call) : list (option string) := flat_map input_of tr.
Definition confirmed (tr : list Call) : list Z := flat_map confirm_of tr.
Definition shown (tr : list Call) : list (State.t * ClickType.t) := flat_map show_of tr.
Definition killed (tr : list Call) : list (gset string) := flat_map kill_of tr.
Definition redrawn (tr : list Call) : list (State.t * option string) := flat_map redraw_of tr.
Definition checked (tr : list Call) : list string := flat_map check_of tr.
Definition cursor_reads (tr : list Call) : list Call := flat_map cursor_of tr.
Definition status_reads (tr : list Call) : list Call := flat_map status_of tr.
Definition reported_there (tr : list Call) : list string := flat_map there_of tr.

(** The index a refresh hands to [forward]: what the disk still has of the
    old index, asked from the world [w], with the root, and, when the
    current buffer [current] is not below the root, with its ancestors if
    the state follows. *)
Definition refreshed_index {imports : Imports} {W : Type} (h : handler W)
    (state : State.t) (current : string) (w : W) : gset string :=
  let kept : gset string :=
    list_to_set (still_exist h (elements (State.index state)) w)
    ∪ {[Node.path (State.root state)]} in
  if truthy_opt (if is_parent (Node.path (State.root state)) current
                 then Some current else None)
  then kept
  else kept ∪ (if State.follow state then list_to_set (ancestors current) else ∅).

(** The calls a refresh makes when it does not print. *)
Definition is_refresh_call (X : Type) (e : E.event X) : bool :=
  match e with
  | E.find_current_buffer_name | E.exists_ _ | E.quickfix | E.status
  | E.forward _ _ _ => true
  | _ => false
  end.

(** An environment whose questions leave the world as it is. *)
Definition reads_only {W : Type} (h : handler W) : Prop :=
  forall (X : Type) (e : E.event X) (w : W), is_query X e = true -> (h X e w).2 = w.

(** ** A concrete instance of the further helpers and collaborators *)

Module PosixMore.
(** [posixpath.basename]: what follows the last slash. *)
Definition basename (p : string) : string :=
  let fix tail (l acc : list ascii) : list ascii :=
    match l with
    | [] => acc
    | c :: r => if Ascii.eqb c Posix.slash then acc else tail r (c :: acc)
    end in
  string_of_list_ascii (tail (rev (list_ascii_of_string p)) []).

Fixpoint insert_item (x : string * string) (l : list (string * string))
    : list (string * string) :=
  match l with
  | [] => [x]
  | y :: r => if String.leb x.1 y.1 then x :: l else y :: insert_item x r
  end.
Definition sorted_items (l : list (string * string)) : list (string * string) :=
  fold_right insert_item [] l.

(** A keyword that is given replaces its field. *)
Definition search_forward (fp : FilterPattern.t) (pattern : option string)
    (search_set : option (gset string)) : FilterPattern.t :=
  FilterPattern.mk (default (FilterPattern.pattern fp) pattern)
                   (default (FilterPattern.search_set fp) search_set).

Definition more : MoreImports := Build_MoreImports basename sorted_items search_forward.

(** The first exception among the answers, if any. *)
Fixpoint first_raised (l : list Raised) : Raised :=
  match l with
  | [] => None
  | Some e :: _ => Some e
  | None :: r => first_raised r
  end.

(** Collaborators for the examples: the new root is a folder node for the
    base, the working directory is [/a/b], a search for [(] is a bad
    pattern and any other finds [/a/d.txt], registers are write-only, a cut
    renames each source to its destination and a copy creates each
    destination. *)
Definition awaited : Awaited :=
  Build_Awaited
    (fun base _ => do d <- call (E.isdir base);
                   Ret (Node.mk base (basename base)
                          (if d then [Mode.folder] else [Mode.file]) ""))
    (Ret "/a/b")
    (fun pattern _ _ =>
       Ret (if String.eqb pattern "(" then inl "bad pattern"
            else inr ({["/a/d.txt"]} : gset string)))
    (fun _ _ => Ret tt)
    (fun ops => do rs <- mapM (fun item => call (E.rename item.1 item.2)) ops;
                Ret (first_raised rs))
    (fun ops => do rs <- mapM (fun item => call (E.new item.2)) ops;
                Ret (first_raised rs)).
End PosixMore.


(** ** Further example worlds and states *)

(** The given world with another current buffer. *)
Definition in_buffer (name : string) (w : Posix.World) : Posix.World :=
  Posix.mk (Posix.cursor w) (Posix.marks w) (Posix.in_fm_buffer w) (Posix.typed w)
    (Posix.confirmed w) name (Posix.disk w) (Posix.folders w) (Posix.read_only w)
    (Posix.quickfix_list w) (Posix.vc_status w) (Posix.first_state w).

(** The given world with a user who gives that answer to a confirmation. *)
Definition answering (given : Z) (w : Posix.World) : Posix.World :=
  Posix.mk (Posix.cursor w) (Posix.marks w) (Posix.in_fm_buffer w) (Posix.typed w)
    given (Posix.buffer_name w) (Posix.disk w) (Posix.folders w) (Posix.read_only w)
    (Posix.quickfix_list w) (Posix.vc_status w) (Posix.first_state w).

(** The given world with that quickfix list. *)
Definition with_quickfix (l : Locations) (w : Posix.World) : Posix.World :=
  Posix.mk (Posix.cursor w) (Posix.marks w) (Posix.in_fm_buffer w) (Posix.typed w)
    (Posix.confirmed w) (Posix.buffer_name w) (Posix.disk w) (Posix.folders w)
    (Posix.read_only w) l (Posix.vc_status w) (Posix.first_state w).

(** The current buffer is a file outside the tree. *)
Definition elsewhere : Posix.World := in_buffer "/x/y.txt" (Ex.world 1 None false).

(** The example tree after [/a/b] has been removed behind the back of the
    state. *)
Definition without_b : Posix.World :=
  Posix.on_disk ({["/a"]} ∪ {["/a/d.txt"]}) (Ex.world 1 None false).

(** The plain state that follows the current buffer, that has [/a/d.txt]
    as its current file, and that has version control on. *)
Definition following : State.t := merge plain [kw_follow true].
Definition at_d : State.t := merge plain [kw_current "/a/d.txt"].
Definition versioned : State.t := merge plain [kw_enable_vc true].

(** The plain state with [/a/b] alone in the index, and the state rooted at
    the top of the filesystem. *)
Definition stale_index : State.t := merge plain [kw_index {["/a/b"]}].
Definition at_top : State.t := merge plain [kw_root (Node.mk "/" "" [Mode.folder] "")].

(** Whether a name ends in [suffix]. *)
Definition ends_in (suffix name : string) : bool :=
  String.prefix (string_of_list_ascii (rev (list_ascii_of_string suffix)))
                (string_of_list_ascii (rev (list_ascii_of_string name))).

(** The POSIX instance with a mimetype table that knows [.txt]. *)
Definition mime_imports : Imports :=
  Build_Imports "/" Posix.newline Posix.dirname Posix.join Posix.relpath Posix.sorted
    (fun name => if ends_in ".txt" name then Some "text/plain" else None)
    Posix.ancestors Posix.is_parent Posix.unify_ancestors Posix.state_index Posix.is_dir.

(** Settings that warn before a text file is opened. *)
Definition wary : Settings.t := Settings.mk (Settings.mk_mime {["text"]} ∅).


(** * Properties *)

(** ** Python truth values *)

Lemma truthy_spec (s : string) : truthy s = true <-> s <> "".
Proof.
  unfold truthy. rewrite negb_true_iff. split.
  - intros H ->. rewrite String.eqb_refl in H. discriminate.
  - intros H. apply String.eqb_neq. exact H.
Qed.

Lemma nonempty_spec (s : gset string) : nonempty s = true <-> s <> ∅.
Proof.
  unfold nonempty. rewrite negb_true_iff, bool_decide_eq_false. reflexivity.
Qed.

Lemma nonempty_map_spec (m : Locations) : nonempty_map m = true <-> m <> ∅.
Proof.
  unfold nonempty_map. rewrite negb_true_iff, bool_decide_eq_false. reflexivity.
Qed.

(** ** Running programs *)

Lemma run_bind {W A B} (h : handler W) (p : prog A) (f : A -> prog B) (w : W) :
  run h (bind p f) w =
  let '(a, w1, t1) := run h p w in
  let '(b, w2, t2) := run h (f a) w1 in
  (b, w2, (t1 ++ t2)%list).
Proof.
  revert w. induction p as [a | X e k IH]; intros w; simpl.
  - destruct (run h (f a) w) as [[b w2] t2]. reflexivity.
  - destruct (h X e w) as [x w1]. rewrite IH.
    destruct (run h (k x) w1) as [[a w2] t1].
    destruct (run h (f a) w2) as [[b w3] t2]. reflexivity.
Qed.

Lemma forwarded_app (t1 t2 : list Call) :
  forwarded (t1 ++ t2)%list = (forwarded t1 ++ forwarded t2)%list.
Proof. apply flat_map_app. Qed.

Lemma printed_app (t1 t2 : list Call) :
  printed (t1 ++ t2)%list = (printed t1 ++ printed t2)%list.
Proof. apply flat_map_app. Qed.

(** Destructs the answer of the environment to the next call of the goal. *)
Ltac answer :=
  match goal with
  | |- context [let '(_, _) := ?h ?X ?e ?w in _] =>
      lazymatch type of e with
      | E.event _ =>
          let x := fresh "x" in
          let w' := fresh "w" in
          let E := fresh "Hans" in
          destruct (h X e w) as [x w'] eqn:E; simpl
      end
  end.

(** Runs a program to its end, splitting on every answer it branches on. *)
Ltac run_all :=
  repeat (answer
          || match goal with
             | |- context [run _ (if ?b then _ else _) _] => destruct b; simpl
             | |- context [run _ (let (_, _) := ?x in _) _] => destruct x; simpl
             | |- context [run _ (match ?x with (_, _) => _ end) _] => destruct x; simpl
             | |- context [let (_, _) := ?x in _] => is_var x; destruct x; simpl
             | |- context [run _ (match ?x with Some _ => _ | None => _ end) _] =>
                 destruct x; simpl
             end).

Lemma result_bind {W A B} (h : handler W) (p : prog A) (f : A -> prog B) (w : W) :
  result h (bind p f) w = result h (f (result h p w)) (run h p w).1.2.
Proof.
  unfold result. rewrite run_bind.
  destruct (run h p w) as [[a w1] t1]. simpl.
  destruct (run h (f a) w1) as [[b w2] t2]. reflexivity.
Qed.

Lemma trace_bind {W A B} (h : handler W) (p : prog A) (f : A -> prog B) (w : W) :
  trace h (bind p f) w = (trace h p w ++ trace h (f (result h p w)) (run h p w).1.2)%list.
Proof.
  unfold trace, result. rewrite run_bind.
  destruct (run h p w) as [[a w1] t1]. simpl.
  destruct (run h (f a) w1) as [[b w2] t2]. reflexivity.
Qed.

(** *** Programs that only make some calls *)

Lemma only_bind (P : forall X, E.event X -> bool) {A B} (p : prog A) (f : A -> prog B) :
  only P p -> (forall a, only P (f a)) -> only P (bind p f).
Proof.
  intros Hp Hf. induction p as [a | X e k IH]; simpl.
  - apply Hf.
  - destruct Hp as [He Hk]. split; [exact He |]. intros x. apply IH, Hk.
Qed.

Lemma only_filterM (P : forall X, E.event X -> bool) (c : string -> prog bool) l :
  (forall x, only P (c x)) -> only P (filterM c l).
Proof.
  intros Hc. induction l as [| x l IH]; simpl; [trivial |].
  apply only_bind; [apply Hc |]. intros b.
  apply only_bind; [exact IH |]. intros r. exact I.
Qed.

Lemma only_mapM (P : forall X, E.event X -> bool) {A B} (f : A -> prog B) l :
  (forall x, only P (f x)) -> only P (mapM f l).
Proof.
  intros Hf. induction l as [| x l IH]; simpl; [trivial |].
  apply only_bind; [apply Hf |]. intros y.
  apply only_bind; [exact IH |]. intros r. exact I.
Qed.

(** What a reading of the trace sees of such a program: nothing, when the
    reading ignores the calls the program is confined to. *)
Lemma only_unseen (P : forall X, E.event X -> bool) {B} (f : Call -> list B)
    {W A} (h : handler W) (p : prog A) (w : W) :
  (forall X (e : E.event X) x, P X e = true -> f (Called e x) = []) ->
  only P p -> flat_map f (trace h p w) = [].
Proof.
  intros Hf. unfold trace. revert w.
  induction p as [a | X e k IH]; intros w Hp; simpl; [reflexivity |].
  destruct Hp as [He Hk]. destruct (h X e w) as [x w1].
  specialize (IH x w1 (Hk x)).
  destruct (run h (k x) w1) as [[a w2] tr]. simpl in *.
  rewrite (Hf X e x He), IH. reflexivity.
Qed.

Lemma query_unseen {W A} (h : handler W) (p : prog A) (w : W) :
  only is_query p ->
  forwarded (trace h p w) = [] /\ printed (trace h p w) = []
  /\ mutations (trace h p w) = [] /\ raised (trace h p w) = []
  /\ found_present (trace h p w) = [].
Proof.
  intros Hp. repeat split; apply (only_unseen is_query); try exact Hp;
    intros X e x; destruct e; simpl; try discriminate; reflexivity.
Qed.

(** ** The dispatcher *)

(** An action that returns nothing leaves [self.state] as it was, and
    nothing is redrawn. *)
Lemma Main_run_nothing {W} (h : handler W) (w : W)
    (fn : State.t -> Settings.t -> prog (option Stage.t)) state settings :
  result h (fn state settings) w = None ->
  result h (Main_run fn (Some state) settings) w = state
  /\ trace h (Main_run fn (Some state) settings) w = trace h (fn state settings) w.
Proof.
  intros Hnone. unfold Main_run. simpl.
  rewrite result_bind, trace_bind, Hnone. simpl.
  split; [reflexivity | apply app_nil_r].
Qed.

(** An action that returns a stage installs the state of that stage. *)
Lemma Main_run_stage {W} (h : handler W) (w : W)
    (fn : State.t -> Settings.t -> prog (option Stage.t)) state settings stage :
  result h (fn state settings) w = Some stage ->
  result h (Main_run fn (Some state) settings) w = Stage.state stage.
Proof.
  intros Hsome. unfold Main_run. simpl.
  rewrite result_bind, Hsome. unfold result, call. simpl.
  answer. reflexivity.
Qed.

(** ** Resizing *)

(** C9: for both directions the width handed to [forward] by [c_resize] is
    [max(old_width ± 10, 1)]; whatever the direction it is at least 1, and
    so is the width of the resulting state when [forward] merges it. *)
Theorem c_resize_width_floor :
  forall (W : Type) (h : handler W) (w : W) (state : State.t) (settings : Settings.t),
    forwarded (trace h (c_resize state settings add) w)
      = [[kw_width (Z.max (State.width state + 10) 1)]]
    /\ forwarded (trace h (c_resize state settings sub) w)
      = [[kw_width (Z.max (State.width state - 10) 1)]]
    /\ forall direction : Z -> Z -> Z,
        exists width : Z,
          forwarded (trace h (c_resize state settings direction) w) = [[kw_width width]]
          /\ width = Z.max (direction (State.width state) 10) 1
          /\ (1 <= width)%Z
          /\ (forward_merges h ->
              State.width (Stage.state (result h (c_resize state settings direction) w))
              = width).
Proof.
  intros W h w state settings.
  assert (G : forall direction,
    forwarded (trace h (c_resize state settings direction) w)
    = [[kw_width (Z.max (direction (State.width state) 10) 1)]]).
  { intros direction. unfold trace, c_resize, call. simpl.
    repeat answer. reflexivity. }
  split; [apply G | split; [apply G |]].
  intros direction. eexists. split; [apply G | split; [reflexivity | split; [lia |]]].
  intros Hmerge.
  pose proof (Hmerge state settings
                [kw_width (Z.max (direction (State.width state) 10) 1)] w) as Hs.
  unfold result, c_resize, call. simpl.
  destruct (h _ (E.forward state settings
                   [kw_width (Z.max (direction (State.width state) 10) 1)]) w)
    as [new_state w1].
  simpl in *. answer.
  destruct Hs as (_ & _ & _ & _ & _ & _ & Hw & _).
  rewrite Hw. destruct state; reflexivity.
Qed.

(** The example environment merges the deltas of [forward]. *)
Lemma Posix_env_merges : forward_merges Posix.env.
Proof. intros st settings kw w. simpl. repeat split; reflexivity. Qed.

(** Shrinking the 5 columns wide sidebar stops at width 1. *)
Lemma c_resize_width_floor_witness :
  forward_merges Posix.env
  /\ State.width
       (Stage.state (result Posix.env (c_resize narrow Ex.settings sub)
                       (Ex.world 1 None false))) = 1%Z.
Proof.
  split; [exact Posix_env_merges |].
  destruct (proj2 (proj2 (c_resize_width_floor _ Posix.env (Ex.world 1 None false)
                            narrow Ex.settings)) sub)
    as (width & _ & Hwidth & _ & Hstate).
  rewrite (Hstate Posix_env_merges), Hwidth. reflexivity.
Defined.

(** ** Clicking *)

Section Click.
Context {imports : Imports} {W : Type} (h : handler W).

(** The cursor lookup prints nothing, forwards nothing and changes nothing
    on disk. *)
Lemma _index_quiet (w : W) (state : State.t) :
  printed (trace h (_index state) w) = []
  /\ forwarded (trace h (_index state) w) = []
  /\ mutations (trace h (_index state) w) = [].
Proof.
  unfold trace, _index, call. simpl. run_all; repeat split; reflexivity.
Qed.

(** The dead-link exit of [c_click]. *)
Lemma c_click_orphan (w : W) state settings click_type node :
  result h (_index state) w = Some node ->
  Mode.orphan_link ∈ Node.mode node ->
  result h (c_click state settings click_type) w = None
  /\ trace h (c_click state settings click_type) w
     = (trace h (_index state) w
        ++ [Called (E.print ("⚠️  cannot open dead link: " ++ Node.name node) true) tt])%list.
Proof.
  intros Hnode Hdead. unfold c_click.
  rewrite result_bind, trace_bind, Hnode.
  rewrite bool_decide_eq_true_2 by exact Hdead.
  generalize ((run h (_index state) w).1.2). intros w1.
  unfold result, trace, call. simpl. answer. destruct x. split; reflexivity.
Qed.

(** The filtering exit of [c_click] on a folder that is not a dead link. *)
Lemma c_click_filtering (w : W) state settings click_type node :
  result h (_index state) w = Some node ->
  Mode.orphan_link ∉ Node.mode node ->
  Mode.folder ∈ Node.mode node ->
  truthy (FilterPattern.pattern (State.filter_pattern state))
    || nonempty (FilterPattern.search_set (State.filter_pattern state)) = true ->
  result h (c_click state settings click_type) w = None
  /\ trace h (c_click state settings click_type) w
     = (trace h (_index state) w
        ++ [Called (E.print "⚠️  cannot click on folders while filtering or searching" false)
              tt])%list.
Proof.
  intros Hnode Hlive Hfolder Hfilter. unfold c_click.
  rewrite result_bind, trace_bind, Hnode.
  rewrite bool_decide_eq_false_2 by exact Hlive.
  rewrite bool_decide_eq_true_2 by exact Hfolder.
  rewrite Hfilter.
  generalize ((run h (_index state) w).1.2). intros w1.
  unfold result, trace, call. simpl. answer. destruct x. split; reflexivity.
Qed.

(** C10: a click of any type on a node whose mode has [orphan_link] prints
    the dead-link error and returns nothing: after the cursor lookup the
    print is the only call, so nothing is toggled or opened, and the
    dispatcher keeps the state it had. *)
Theorem c_click_dead_link :
  forall (w : W) (state : State.t) (settings : Settings.t)
         (click_type : ClickType.t) (node : Node.t),
    result h (_index state) w = Some node ->
    Mode.orphan_link ∈ Node.mode node ->
    result h (c_click state settings click_type) w = None
    /\ trace h (c_click state settings click_type) w
       = (trace h (_index state) w
          ++ [Called (E.print ("⚠️  cannot open dead link: " ++ Node.name node) true) tt])%list
    /\ printed (trace h (c_click state settings click_type) w)
       = [("⚠️  cannot open dead link: " ++ Node.name node, true)]
    /\ forwarded (trace h (c_click state settings click_type) w) = []
    /\ result h (Main_run (fun st s => c_click st s click_type) (Some state) settings) w
       = state.
Proof.
  intros w state settings click_type node Hnode Hdead.
  destruct (c_click_orphan w state settings click_type node Hnode Hdead) as [Hres Htr].
  split; [exact Hres | split; [exact Htr |]].
  rewrite Htr, printed_app, forwarded_app.
  destruct (_index_quiet w state) as (-> & -> & _). simpl.
  split; [reflexivity | split; [reflexivity |]].
  apply (Main_run_nothing h w (fun st s => c_click st s click_type)). exact Hres.
Qed.

(** C5: a click of any type on a folder while the pattern or the search set
    is non-empty prints one message and returns nothing; [forward] is not
    called, so the index is not toggled, and the dispatcher keeps the state
    it had.  Unless the folder is also a dead link, the message is the
    filtering notice, printed without the error flag. *)
Theorem c_click_folder_while_filtering :
  forall (w : W) (state : State.t) (settings : Settings.t)
         (click_type : ClickType.t) (node : Node.t),
    result h (_index state) w = Some node ->
    Mode.folder ∈ Node.mode node ->
    FilterPattern.pattern (State.filter_pattern state) <> ""
      \/ FilterPattern.search_set (State.filter_pattern state) <> ∅ ->
    result h (c_click state settings click_type) w = None
    /\ (exists msg err, printed (trace h (c_click state settings click_type) w) = [(msg, err)])
    /\ (Mode.orphan_link ∈ Node.mode node
        \/ printed (trace h (c_click state settings click_type) w)
           = [("⚠️  cannot click on folders while filtering or searching", false)])
    /\ forwarded (trace h (c_click state settings click_type) w) = []
    /\ result h (Main_run (fun st s => c_click st s click_type) (Some state) settings) w
       = state.
Proof.
  intros w state settings click_type node Hnode Hfolder Hfilter.
  assert (Hon : truthy (FilterPattern.pattern (State.filter_pattern state))
        || nonempty (FilterPattern.search_set (State.filter_pattern state)) = true).
  { apply orb_true_iff. destruct Hfilter as [Hp | Hs].
    - left. apply truthy_spec. exact Hp.
    - right. apply nonempty_spec. exact Hs. }
  destruct (decide (Mode.orphan_link ∈ Node.mode node)) as [Hdead | Hlive].
  - destruct (c_click_orphan w state settings click_type node Hnode Hdead) as [Hres Htr].
    rewrite Htr, printed_app, forwarded_app.
    destruct (_index_quiet w state) as (-> & -> & _). simpl.
    split; [exact Hres |]. split; [eauto |]. split; [left; exact Hdead |].
    split; [reflexivity |].
    apply (Main_run_nothing h w (fun st s => c_click st s click_type)). exact Hres.
  - destruct (c_click_filtering w state settings click_type node Hnode Hlive Hfolder Hon)
      as [Hres Htr].
    rewrite Htr, printed_app, forwarded_app.
    destruct (_index_quiet w state) as (-> & -> & _). simpl.
    split; [exact Hres |]. split; [eauto |]. split; [right; reflexivity |].
    split; [reflexivity |].
    apply (Main_run_nothing h w (fun st s => c_click st s click_type)). exact Hres.
Qed.

End Click.

Section ClickExamples.
#[local] Existing Instance Posix.imports.

(** The cursor on the dead link [/a/e]: the click is refused. *)
Lemma c_click_dead_link_witness :
  result Posix.env (_index plain) (Ex.world 5 None false)
    = Some Ex.dead
  /\ Mode.orphan_link ∈ Node.mode Ex.dead
  /\ printed (trace Posix.env
        (c_click plain Ex.settings ClickType.primary)
        (Ex.world 5 None false))
     = [("⚠️  cannot open dead link: e", true)].
Proof.
  assert (H1 : result Posix.env (_index plain)
                 (Ex.world 5 None false) = Some Ex.dead) by reflexivity.
  assert (H2 : Mode.orphan_link ∈ Node.mode Ex.dead)
    by (apply list_elem_of_In; simpl; auto).
  split; [exact H1 | split; [exact H2 |]].
  exact (proj1 (proj2 (proj2
    (c_click_dead_link Posix.env _ _ Ex.settings ClickType.primary _ H1 H2)))).
Defined.

(** The cursor on the folder [/a/b] while the pattern [c] filters the view. *)
Lemma c_click_folder_while_filtering_witness :
  result Posix.env (_index (Ex.state ∅ (FilterPattern.mk "c" ∅) Ex.no_qf))
    (Ex.world 2 None false) = Some Ex.b
  /\ Mode.folder ∈ Node.mode Ex.b
  /\ (FilterPattern.pattern (State.filter_pattern (Ex.state ∅ (FilterPattern.mk "c" ∅) Ex.no_qf))
        <> ""
      \/ FilterPattern.search_set
           (State.filter_pattern (Ex.state ∅ (FilterPattern.mk "c" ∅) Ex.no_qf)) <> ∅)
  /\ result Posix.env
       (c_click (Ex.state ∅ (FilterPattern.mk "c" ∅) Ex.no_qf) Ex.settings ClickType.secondary)
       (Ex.world 2 None false) = None.
Proof.
  assert (H1 : result Posix.env (_index (Ex.state ∅ (FilterPattern.mk "c" ∅) Ex.no_qf))
                 (Ex.world 2 None false) = Some Ex.b) by reflexivity.
  assert (H2 : Mode.folder ∈ Node.mode Ex.b)
    by (apply list_elem_of_In; simpl; auto).
  assert (H3 : FilterPattern.pattern
                 (State.filter_pattern (Ex.state ∅ (FilterPattern.mk "c" ∅) Ex.no_qf)) <> ""
      \/ FilterPattern.search_set
           (State.filter_pattern (Ex.state ∅ (FilterPattern.mk "c" ∅) Ex.no_qf)) <> ∅)
    by (left; simpl; discriminate).
  split; [exact H1 | split; [exact H2 | split; [exact H3 |]]].
  exact (proj1
    (c_click_folder_while_filtering Posix.env _ _ Ex.settings ClickType.secondary _ H1 H2 H3)).
Defined.

End ClickExamples.

(** ** Collapsing *)

Section Collapse.
Context {imports : Imports} {W : Type} (h : handler W).

Lemma elem_of_collapsed_rest (target : string) (index : Index) (i : string) :
  i ∈ index ∖ collapsed target index
  <-> i ∈ index /\ i <> target /\ is_parent target i = false.
Proof.
  unfold collapsed. rewrite elem_of_difference, elem_of_filter. split.
  - intros [Hin Hnot]. split; [exact Hin |]. split.
    + intros ->. apply Hnot. split; [left; reflexivity | exact Hin].
    + destruct (is_parent target i) eqn:Hp; [| reflexivity].
      exfalso. apply Hnot. split; [right; reflexivity | exact Hin].
  - intros (Hin & Hne & Hp). split; [exact Hin |].
    intros [[Heq | Hpar] _]; [contradiction | congruence].
Qed.

(** The root exit of [c_collapse]. *)
Lemma c_collapse_root (w : W) state settings node :
  result h (_index state) w = Some node ->
  collapse_target node = Node.path (State.root state) ->
  result h (c_collapse state settings) w = None
  /\ trace h (c_collapse state settings) w = trace h (_index state) w.
Proof.
  intros Hnode Hroot. unfold c_collapse.
  rewrite result_bind, trace_bind, Hnode.
  fold (collapse_target node). rewrite Hroot, String.eqb_refl. simpl.
  split; [reflexivity | apply app_nil_r].
Qed.

(** The one call of [forward] that [c_collapse] makes below the root. *)
Lemma c_collapse_below (w : W) state settings node :
  result h (_index state) w = Some node ->
  collapse_target node <> Node.path (State.root state) ->
  forwarded (trace h (c_collapse state settings) w)
  = [[kw_index (State.index state ∖ collapsed (collapse_target node) (State.index state));
      kw_paths (collapsed (collapse_target node) (State.index state))]]
  /\ exists new_state,
       result h (c_collapse state settings) w = Some (Stage1 new_state).
Proof.
  intros Hnode Hbelow. unfold c_collapse.
  rewrite result_bind, trace_bind, forwarded_app, Hnode.
  destruct (_index_quiet h w state) as (_ & -> & _).
  fold (collapse_target node).
  apply String.eqb_neq in Hbelow. rewrite Hbelow. simpl negb. cbv iota.
  fold (collapsed (collapse_target node) (State.index state)).
  generalize ((run h (_index state) w).1.2). intros w1.
  unfold result, trace, call. simpl. answer.
  destruct (negb (default 0 (State.paths_lookup x !! collapse_target node) =? 0)%Z);
    simpl; run_all; (split; [reflexivity | eexists; reflexivity]).
Qed.

(** C7: with the cursor on a node whose target directory [p] is not the
    root, [c_collapse] calls [forward] once, with the old index minus exactly
    the entries that are [p] or lie below [p]; with [p] the root it returns
    nothing, calls [forward] not at all, and the dispatcher keeps its state.
    The root path, which does not lie below a directory of its own tree,
    therefore stays in the index handed to [forward]. *)
Theorem c_collapse_index :
  forall (w : W) (state : State.t) (settings : Settings.t) (node : Node.t),
    result h (_index state) w = Some node ->
    let p := collapse_target node in
    let root_path := Node.path (State.root state) in
    (p <> root_path ->
       forwarded (trace h (c_collapse state settings) w)
         = [[kw_index (State.index state ∖ collapsed p (State.index state));
             kw_paths (collapsed p (State.index state))]]
       /\ (forall i, i ∈ State.index state ∖ collapsed p (State.index state)
                     <-> i ∈ State.index state /\ i <> p /\ is_parent p i = false)
       /\ (root_path ∈ State.index state -> is_parent p root_path = false ->
           root_path ∈ State.index state ∖ collapsed p (State.index state)))
    /\ (p = root_path ->
        result h (c_collapse state settings) w = None
        /\ forwarded (trace h (c_collapse state settings) w) = []
        /\ result h (Main_run c_collapse (Some state) settings) w = state).
Proof.
  intros w state settings node Hnode p root_path. split.
  - intros Hbelow.
    destruct (c_collapse_below w state settings node Hnode Hbelow) as [Hfw _].
    split; [exact Hfw |]. split; [apply elem_of_collapsed_rest |].
    intros Hin Hpar. apply elem_of_collapsed_rest.
    split; [exact Hin |]. split; [| exact Hpar].
    intros Heq. apply Hbelow. symmetry. exact Heq.
  - intros Hroot.
    destruct (c_collapse_root w state settings node Hnode Hroot) as [Hres Htr].
    split; [exact Hres |]. split.
    + rewrite Htr. apply (_index_quiet h w state).
    + apply (Main_run_nothing h w c_collapse). exact Hres.
Qed.

End Collapse.

Section CollapseExamples.
#[local] Existing Instance Posix.imports.

(** The cursor on [/a/b/c.txt]: the folder [/a/b] is folded and [/a] stays. *)
Lemma c_collapse_index_witness :
  result Posix.env (_index plain) (Ex.world 3 None false)
    = Some Ex.c
  /\ collapse_target Ex.c = "/a/b"
  /\ collapse_target Ex.c <> Node.path (State.root plain)
  /\ forwarded (trace Posix.env (c_collapse plain Ex.settings)
                  (Ex.world 3 None false))
     = [[kw_index (State.index plain
                   ∖ collapsed (collapse_target Ex.c)
                       (State.index plain));
         kw_paths (collapsed (collapse_target Ex.c)
                     (State.index plain))]]
  /\ State.index plain
     ∖ collapsed (collapse_target Ex.c) (State.index plain)
     = {["/a"]}.
Proof.
  assert (H1 : result Posix.env (_index plain)
                 (Ex.world 3 None false) = Some Ex.c) by reflexivity.
  assert (H2 : collapse_target Ex.c
               <> Node.path (State.root plain))
    by (vm_compute; discriminate).
  split; [exact H1 |]. split; [reflexivity |]. split; [exact H2 |].
  split; [| vm_compute; reflexivity].
  exact (proj1 (proj1 (c_collapse_index Posix.env _ _ Ex.settings _ H1) H2)).
Defined.

End CollapseExamples.

(** ** Refreshing *)

Ltac solve_only :=
  repeat (simpl;
          match goal with
          | |- True => exact I
          | |- _ /\ _ => split
          | |- _ = _ => reflexivity
          | |- forall _, _ => intro
          | |- only _ (bind _ _) => apply only_bind
          | |- only _ (filterM _ _) => apply only_filterM
          | |- only _ (mapM _ _) => apply only_mapM
          | |- only _ (if ?b then _ else _) => destruct b
          | |- only _ (match ?x with (_, _) => _ end) => destruct x
          end).

Section Refresh.
Context {imports : Imports} {W : Type} (h : handler W).

Lemma _index_only state : only is_query (_index state).
Proof. unfold _index, call. solve_only. Qed.

Lemma _indices_only state is_visual : only is_query (_indices state is_visual).
Proof. unfold _indices, call. destruct is_visual; solve_only. Qed.

Lemma _display_path_only path state : only is_query (_display_path path state).
Proof. unfold _display_path, call. solve_only. Qed.

Lemma c_refresh_only state settings :
  only is_query_or_forward (c_refresh state settings false).
Proof. unfold c_refresh, _vc_stat, call. solve_only. Qed.

(** Apart from its one [forward], a silent refresh only asks questions. *)
Lemma c_refresh_unseen (w : W) state settings :
  printed (trace h (c_refresh state settings false) w) = []
  /\ mutations (trace h (c_refresh state settings false) w) = []
  /\ raised (trace h (c_refresh state settings false) w) = []
  /\ found_present (trace h (c_refresh state settings false) w) = [].
Proof.
  repeat split; apply (only_unseen is_query_or_forward);
    try apply c_refresh_only;
    intros X e x; destruct e; simpl; try discriminate; reflexivity.
Qed.

Lemma still_exist_run (l : list string) (w : W) :
  exists (w' : W) (t : list Call),
    run h (filterM (fun s => call (E.exists_ s)) l) w = (still_exist h l w, w', t)
    /\ forwarded t = [].
Proof.
  assert (Hq : only is_query (filterM (fun s => call (E.exists_ s)) l))
    by (apply only_filterM; intros; simpl; auto).
  pose proof (proj1 (query_unseen h _ w Hq)) as Hf.
  unfold still_exist, result, trace in *.
  destruct (run h (filterM (fun s => call (E.exists_ s)) l) w) as [[r w'] t].
  exists w', t. split; [reflexivity | exact Hf].
Qed.

(** The one [forward] of a refresh and the selection it carries. *)
Lemma c_refresh_forwarded (w : W) state settings write :
  exists (w' : W) (index : Index) (rest : list Delta),
    forwarded (trace h (c_refresh state settings write) w)
    = [kw_index index :: kw_selection (refreshed_selection h state w') :: rest].
Proof.
  unfold c_refresh, refreshed_selection, _vc_stat, trace.
  destruct write; simpl; repeat answer.
  all: rewrite !run_bind.
  all: match goal with
       | |- context [run h (filterM _ ?l) ?w] =>
           destruct (still_exist_run l w) as (wa & ta & -> & Hta)
       end.
  all: simpl; destruct (_is_filtering (State.filter_pattern state)); simpl.
  all: try (rewrite !run_bind;
            match goal with
            | |- context [run h (filterM _ ?l) ?w] =>
                exists w; destruct (still_exist_run l w) as (wb & tb & -> & Htb)
            end; simpl).
  all: repeat answer.
  all: destruct (State.enable_vc state); simpl; repeat answer.
  all: unfold forwarded in *; simpl; rewrite ?flat_map_app; simpl.
  all: rewrite ?Hta; try rewrite Htb; simpl.
  all: try exists w.
  all: eexists; eexists; reflexivity.
Qed.

End Refresh.


(** *** The worlds a run goes through *)





Section StillExist.
Context {W : Type} (h : handler W).

Lemma still_exist_cons (x : string) (l : list string) (w : W) :
  still_exist h (x :: l) w
  = if (h _ (E.exists_ x) w).1
    then x :: still_exist h l (h _ (E.exists_ x) w).2
    else still_exist h l (h _ (E.exists_ x) w).2.
Proof.
  unfold still_exist, result, call. simpl.
  destruct (h bool (E.exists_ x) w) as [b w1]. simpl.
  rewrite run_bind.
  destruct (run h (filterM (fun s => Vis (E.exists_ s) Ret) l) w1) as [[r w2] t].
  simpl. reflexivity.
Qed.

(** A refresh keeps no path that was not there before. *)
Lemma still_exist_sub (l : list string) (w : W) (p : string) :
  p ∈ still_exist h l w -> p ∈ l.
Proof.
  revert w. induction l as [| x l IH]; intros w.
  - unfold still_exist, result. simpl. intros H. exact H.
  - rewrite still_exist_cons.
    destruct ((h _ (E.exists_ x) w).1).
    + rewrite !elem_of_cons. intros [-> | H]; [left; reflexivity | right; eauto].
    + rewrite elem_of_cons. intros H. right. eauto.
Qed.



End StillExist.

Section RefreshSelection.
#[local] Existing Instance Posix.imports.

(** C1 (defect): [_is_filtering] asks for a pattern AND a search set.  In the
    first state below only the pattern [d] is set, in the second only the
    search set; the view is filtering, yet each time the refresh hands the
    selected [/a/d.txt] on to [forward] instead of the empty set. *)
Theorem c_refresh_keeps_selection_while_filtering :
  (FilterPattern.pattern (State.filter_pattern by_pattern) <> ""
   /\ _is_filtering (State.filter_pattern by_pattern) = false
   /\ map get_selection
        (forwarded (trace Posix.env (c_refresh by_pattern Ex.settings false)
                      (Ex.world 1 None false)))
      = [Some {["/a/d.txt"]}])
  /\ (FilterPattern.search_set (State.filter_pattern by_search) <> ∅
      /\ _is_filtering (State.filter_pattern by_search) = false
      /\ map get_selection
           (forwarded (trace Posix.env (c_refresh by_search Ex.settings false)
                         (Ex.world 1 None false)))
         = [Some {["/a/d.txt"]}]).
Proof.
  split; (split; [simpl; try discriminate; vm_compute; discriminate |]);
    split; vm_compute; reflexivity.
Qed.

End RefreshSelection.


(** ** Toggling the quickfix filter *)

Section ToggleQuickfix.
Context {W : Type} (h : handler W).

Lemma same_settled_qf (a b : State.t) : same_settled a b -> State.qf a = State.qf b.
Proof. intros (_ & _ & _ & _ & _ & _ & _ & Hqf & _). exact Hqf. Qed.

(** C2, as the code has it: with an empty quickfix list the toggle prints
    the error, and it does call [forward], with an overlay of the empty
    list and filtering off; the stage carries the state [forward] returned.
    When [forward] merges its deltas, that state has the overlay replaced,
    so [qf.filtering] is false, and every other settled field is the old
    one. *)
Theorem c_toggle_qf_filtering_empty :
  forall (w : W) (state : State.t) (settings : Settings.t),
    (h _ E.quickfix w).1 = ∅ ->
    printed (trace h (c_toggle_qf_filtering state settings) w)
      = [("quickfix list empty", true)]
    /\ forwarded (trace h (c_toggle_qf_filtering state settings) w)
       = [[kw_qf (QuickFix.mk ∅ false)]]
    /\ result h (c_toggle_qf_filtering state settings) w
       = Stage1 (h _ (E.forward state settings [kw_qf (QuickFix.mk ∅ false)])
                   (h _ E.quickfix w).2).1
    /\ (forward_merges h ->
        let new_state := Stage.state (result h (c_toggle_qf_filtering state settings) w) in
        State.qf new_state = QuickFix.mk ∅ false
        /\ QuickFix.filtering (State.qf new_state) = false
        /\ same_settled new_state (merge state [kw_qf (QuickFix.mk ∅ false)])).
Proof.
  intros w state settings Hempty.
  unfold c_toggle_qf_filtering, trace, result. simpl.
  destruct (h _ E.quickfix w) as [locations w1] eqn:Hq. simpl in Hempty. subst locations.
  assert (Hn : nonempty_map ∅ = false)
    by (unfold nonempty_map; rewrite bool_decide_eq_true_2; reflexivity).
  rewrite Hn. simpl.
  destruct (h _ (E.forward state settings [kw_qf (QuickFix.mk ∅ false)]) w1)
    as [new_state w2] eqn:Hf.
  simpl. answer.
  split; [reflexivity |]. split; [reflexivity |]. split; [reflexivity |].
  intros Hmerge. simpl.
  pose proof (Hmerge state settings [kw_qf (QuickFix.mk ∅ false)] w1) as Hs.
  rewrite Hf in Hs. simpl in Hs.
  pose proof (same_settled_qf _ _ Hs) as Hqf.
  destruct state; simpl in *.
  split; [exact Hqf |]. split; [rewrite Hqf; reflexivity | exact Hs].
Qed.

End ToggleQuickfix.

(** C2, as the spec words it, fails: the quickfix list is now empty, and the
    state that the dispatcher installs after the toggle differs from the one
    it had, in its quickfix overlay. *)
Lemma c_toggle_qf_filtering_changes_state :
  (Posix.env _ E.quickfix (Ex.world 1 None false)).1 = ∅
  /\ result Posix.env (Main_run (staged c_toggle_qf_filtering) (Some stale_state) Ex.settings)
       (Ex.world 1 None false) <> stale_state
  /\ State.qf stale_state = QuickFix.mk {["/a/d.txt" := 1%nat]} true
  /\ State.qf (result Posix.env
                 (Main_run (staged c_toggle_qf_filtering) (Some stale_state) Ex.settings)
                 (Ex.world 1 None false))
     = QuickFix.mk ∅ false.
Proof.
  split; [reflexivity |].
  assert (Hqf : State.qf (result Posix.env
                 (Main_run (staged c_toggle_qf_filtering) (Some stale_state) Ex.settings)
                 (Ex.world 1 None false)) = QuickFix.mk ∅ false)
    by (vm_compute; reflexivity).
  split; [| split; [reflexivity | exact Hqf]].
  intros Heq. rewrite Heq in Hqf. vm_compute in Hqf. discriminate Hqf.
Qed.

(** The toggle on the stale overlay, run in the example environment. *)
Lemma c_toggle_qf_filtering_empty_witness :
  (Posix.env _ E.quickfix (Ex.world 1 None false)).1 = ∅
  /\ printed (trace Posix.env
        (c_toggle_qf_filtering stale_state Ex.settings)
        (Ex.world 1 None false))
     = [("quickfix list empty", true)].
Proof.
  assert (H1 : (Posix.env _ E.quickfix (Ex.world 1 None false)).1 = ∅) by reflexivity.
  split; [exact H1 |].
  exact (proj1 (c_toggle_qf_filtering_empty Posix.env _ stale_state Ex.settings H1)).
Defined.

(** ** Selecting *)

(** [a ^ b ^ b] is [a]. *)
Lemma set_xor_involutive (S T : gset string) : (S ^^ T) ^^ T = S.
Proof.
  unfold set_xor. apply set_eq. intros x.
  rewrite !elem_of_union, !elem_of_difference, !elem_of_union, !elem_of_difference.
  destruct (decide (x ∈ T)); destruct (decide (x ∈ S)); tauto.
Qed.

Section Select.
Context {imports : Imports} {W : Type} (h : handler W).

(** What [c_select] hands to [forward]. *)
Lemma c_select_forwarded (w : W) state settings is_visual :
  forwarded (trace h (c_select state settings is_visual) w)
  = match toggled is_visual (result h (_indices state is_visual) w) with
    | Some paths => [[kw_selection (State.selection state ^^ paths)]]
    | None => []
    end.
Proof.
  unfold c_select. rewrite trace_bind, forwarded_app.
  rewrite (proj1 (query_unseen h _ w (_indices_only state is_visual))).
  generalize ((run h (_indices state is_visual) w).1.2). intros w1.
  generalize (result h (_indices state is_visual) w). intros nodes.
  unfold toggled, trace.
  destruct is_visual; [| destruct nodes as [| node nodes]]; simpl;
    repeat answer; reflexivity.
Qed.

(** C6: selecting the same path, or in visual mode the same paths, a second
    time, in the state whose selection is the one the first [c_select] handed
    to [forward], hands the original selection to [forward]:
    [(S ^ paths) ^ paths = S]. *)
Theorem c_select_twice :
  forall (w w' : W) (state state' : State.t) (settings : Settings.t)
         (is_visual : bool) (paths : gset string),
    toggled is_visual (result h (_indices state is_visual) w) = Some paths ->
    toggled is_visual (result h (_indices state' is_visual) w') = Some paths ->
    State.selection state' = State.selection state ^^ paths ->
    forwarded (trace h (c_select state settings is_visual) w)
      = [[kw_selection (State.selection state ^^ paths)]]
    /\ forwarded (trace h (c_select state' settings is_visual) w')
       = [[kw_selection (State.selection state)]]
    /\ (State.selection state ^^ paths) ^^ paths = State.selection state.
Proof.
  intros w w' state state' settings is_visual paths Hfirst Hsecond Hsel.
  rewrite !c_select_forwarded, Hfirst, Hsecond, Hsel, set_xor_involutive.
  repeat split; reflexivity.
Qed.

End Select.

Section SelectExamples.
#[local] Existing Instance Posix.imports.

(** Selecting [/a/d.txt] next to the selected [/a/b], then once more. *)
Lemma c_select_twice_witness :
  toggled false (result Posix.env (_indices picked_b false) (Ex.world 4 None false))
    = Some {["/a/d.txt"]}
  /\ toggled false (result Posix.env (_indices picked_b_d false) (Ex.world 4 None false))
     = Some {["/a/d.txt"]}
  /\ State.selection picked_b_d = State.selection picked_b ^^ {["/a/d.txt"]}
  /\ forwarded (trace Posix.env (c_select picked_b_d Ex.settings false)
                  (Ex.world 4 None false))
     = [[kw_selection {["/a/b"]}]].
Proof.
  assert (H1 : toggled false (result Posix.env (_indices picked_b false)
                                (Ex.world 4 None false))
               = Some {["/a/d.txt"]}) by reflexivity.
  assert (H2 : toggled false (result Posix.env (_indices picked_b_d false)
                                (Ex.world 4 None false))
               = Some {["/a/d.txt"]}) by reflexivity.
  assert (H3 : State.selection picked_b_d = State.selection picked_b ^^ {["/a/d.txt"]})
    by reflexivity.
  split; [exact H1 | split; [exact H2 | split; [exact H3 |]]].
  exact (proj1 (proj2 (c_select_twice Posix.env _ _ picked_b picked_b_d Ex.settings false _
                         H1 H2 H3))).
Defined.

End SelectExamples.

(** ** Renaming and creating *)

Lemma run_eta {W A} (h : handler W) (p : prog A) (w : W) :
  run h p w = (result h p w, world h p w, trace h p w).
Proof. unfold result, world, trace. destruct (run h p w) as [[a w1] t]. reflexivity. Qed.

(** From here on a refresh is reasoned about through its lemmas. *)
Opaque c_refresh.

Section Conflict.
Context {imports : Imports} {W : Type} (h : handler W).

(** The cursor lookup asks about no destination. *)
Lemma _index_checks_nothing (w : W) state :
  checked (trace h (_index state) w) = [].
Proof.
  apply (only_unseen is_query); [| apply _index_only].
  intros X e x; destruct e; simpl; try discriminate; reflexivity.
Qed.

(** The run of a rename whose destination the disk reports present. *)
Lemma c_rename_refused (w w1 : W) state settings (node : Node.t) (child : string) :
  child <> "" ->
  result h (_index state) w = Some node ->
  h _ (E.input "✏️  :" (Some (relpath (Node.path node) (Node.path (State.root state)))))
    (world h (_index state) w) = (Some child, w1) ->
  (h _ (E.fs_exists (join (Node.path (State.root state)) child)) w1).1 = true ->
  result h (c_rename state settings) w = Some (Stage1 state)
  /\ trace h (c_rename state settings) w
     = (trace h (_index state) w
        ++ [Called (E.input "✏️  :"
                      (Some (relpath (Node.path node) (Node.path (State.root state)))))
                   (Some child);
            Called (E.fs_exists (join (Node.path (State.root state)) child)) true;
            Called (E.print ("⚠️  Exists: " ++ join (Node.path (State.root state)) child)
                      true) tt])%list.
Proof.
  intros Hchild Hnode Hin Hthere.
  unfold c_rename. rewrite result_bind, trace_bind.
  change ((run h (_index state) w).1.2) with (world h (_index state) w).
  rewrite Hnode. unfold result, trace. simpl. rewrite Hin. simpl.
  destruct child as [| c child]; [contradiction |]. simpl.
  destruct (h _ (E.fs_exists (join (Node.path (State.root state)) (String c child))) w1)
    as [there w2].
  simpl in Hthere. subst there. simpl.
  destruct (h _ (E.print _ true) w2) as [[] w3]. simpl.
  split; reflexivity.
Qed.

(** The run of a create whose destination the disk reports present. *)
Lemma c_new_refused (w w1 : W) state settings (child : string) :
  child <> "" ->
  h _ (E.input "✏️  :" None) (world h (_index state) w) = (Some child, w1) ->
  (h _ (E.fs_exists
          (join (let node := default (State.root state) (result h (_index state) w) in
                 if is_dir node then Node.path node else dirname (Node.path node))
                child)) w1).1 = true ->
  result h (c_new state settings) w = Some (Stage1 state)
  /\ trace h (c_new state settings) w
     = (trace h (_index state) w
        ++ [Called (E.input "✏️  :" None) (Some child);
            Called (E.fs_exists
                      (join (let node := default (State.root state)
                                           (result h (_index state) w) in
                             if is_dir node then Node.path node
                             else dirname (Node.path node))
                            child)) true;
            Called (E.print
                      ("⚠️  Exists: "
                       ++ join (let node := default (State.root state)
                                              (result h (_index state) w) in
                                if is_dir node then Node.path node
                                else dirname (Node.path node))
                               child)
                      true) tt])%list.
Proof.
  intros Hchild Hin Hthere. revert Hthere.
  unfold c_new. rewrite result_bind, trace_bind.
  change ((run h (_index state) w).1.2) with (world h (_index state) w).
  generalize (result h (_index state) w). intros found. cbv zeta.
  unfold result, trace. simpl. rewrite Hin. simpl.
  destruct child as [| c child]; [contradiction |]. simpl.
  match goal with
  | |- (h _ (E.fs_exists ?dest) w1).1 = true -> _ =>
      destruct (h _ (E.fs_exists dest) w1) as [there w2]
  end.
  simpl. intros ->. simpl.
  destruct (h _ (E.print _ true) w2) as [[] w3]. simpl.
  split; reflexivity.
Qed.

(** C3: a rename or a create whose destination the disk reports present.
    The destination is the entered name joined to the root, for a rename,
    or to the directory of the node under the cursor, for a create.  After
    the prompt the action asks the disk about that destination and nothing
    else, prints the [Exists] error, and returns a stage that carries the
    very state it was given; the whole run contains no call to a mutating
    filesystem operation and no [forward], and the dispatcher ends with the
    state it had. *)
Theorem rename_or_new_conflict :
  forall (w w1 : W) (state : State.t) (settings : Settings.t) (child : string),
    child <> "" ->
    (forall node : Node.t,
        result h (_index state) w = Some node ->
        h _ (E.input "✏️  :"
               (Some (relpath (Node.path node) (Node.path (State.root state)))))
          (world h (_index state) w) = (Some child, w1) ->
        (h _ (E.fs_exists (join (Node.path (State.root state)) child)) w1).1 = true ->
        result h (c_rename state settings) w = Some (Stage1 state)
        /\ checked (trace h (c_rename state settings) w)
           = [join (Node.path (State.root state)) child]
        /\ printed (trace h (c_rename state settings) w)
           = [("⚠️  Exists: " ++ join (Node.path (State.root state)) child, true)]
        /\ mutations (trace h (c_rename state settings) w) = []
        /\ forwarded (trace h (c_rename state settings) w) = []
        /\ result h (Main_run c_rename (Some state) settings) w = state)
    /\ (forall dest : string,
          dest = join (let node := default (State.root state) (result h (_index state) w) in
                       if is_dir node then Node.path node else dirname (Node.path node))
                      child ->
          h _ (E.input "✏️  :" None) (world h (_index state) w) = (Some child, w1) ->
          (h _ (E.fs_exists dest) w1).1 = true ->
          result h (c_new state settings) w = Some (Stage1 state)
          /\ checked (trace h (c_new state settings) w) = [dest]
          /\ printed (trace h (c_new state settings) w) = [("⚠️  Exists: " ++ dest, true)]
          /\ mutations (trace h (c_new state settings) w) = []
          /\ forwarded (trace h (c_new state settings) w) = []
          /\ result h (Main_run c_new (Some state) settings) w = state).
Proof.
  intros w w1 state settings child Hchild.
  destruct (query_unseen h _ w (_index_only state)) as (Hf & Hp & Hm & _ & _).
  pose proof (_index_checks_nothing w state) as Hc.
  split.
  - intros node Hnode Hin Hthere.
    destruct (c_rename_refused w w1 state settings node child Hchild Hnode Hin Hthere)
      as [Hres Htrace].
    rewrite Htrace.
    unfold checked, printed, mutations, forwarded in *. rewrite !flat_map_app.
    rewrite Hf, Hp, Hm, Hc. simpl.
    repeat split; try reflexivity; try exact Hres.
    apply (Main_run_stage h w c_rename state settings (Stage1 state) Hres).
  - intros dest -> Hin Hthere.
    destruct (c_new_refused w w1 state settings child Hchild Hin Hthere) as [Hres Htrace].
    rewrite Htrace.
    unfold checked, printed, mutations, forwarded in *. rewrite !flat_map_app.
    rewrite Hf, Hp, Hm, Hc. simpl.
    repeat split; try reflexivity; try exact Hres.
    apply (Main_run_stage h w c_new state settings (Stage1 state) Hres).
Qed.

End Conflict.

(** ** Deleting *)

Section Delete.
Context {imports : Imports} {W : Type} (h : handler W).




End Delete.

Transparent c_refresh.

Section ConflictExamples.
#[local] Existing Instance Posix.imports.

(** With the cursor on [/a/d.txt], renaming it to [b], or creating [b]
    beside it: [/a/b] is the folder that is already there. *)
Lemma rename_or_new_conflict_witness :
  "b" <> ""
  /\ result Posix.env (_index plain) (Ex.world 4 (Some "b") false) = Some Ex.d
  /\ Posix.env _ (E.input "✏️  :"
                    (Some (relpath (Node.path Ex.d) (Node.path (State.root plain)))))
       (world Posix.env (_index plain) (Ex.world 4 (Some "b") false))
     = (Some "b", Ex.world 4 (Some "b") false)
  /\ Posix.env _ (E.input "✏️  :" None)
       (world Posix.env (_index plain) (Ex.world 4 (Some "b") false))
     = (Some "b", Ex.world 4 (Some "b") false)
  /\ (Posix.env _ (E.fs_exists "/a/b") (Ex.world 4 (Some "b") false)).1 = true
  /\ (result Posix.env (c_rename plain Ex.settings) (Ex.world 4 (Some "b") false)
      = Some (Stage1 plain)
      /\ checked (trace Posix.env (c_rename plain Ex.settings)
                    (Ex.world 4 (Some "b") false)) = ["/a/b"]
      /\ mutations (trace Posix.env (c_rename plain Ex.settings)
                      (Ex.world 4 (Some "b") false)) = [])
  /\ (result Posix.env (c_new plain Ex.settings) (Ex.world 4 (Some "b") false)
      = Some (Stage1 plain)
      /\ checked (trace Posix.env (c_new plain Ex.settings)
                    (Ex.world 4 (Some "b") false)) = ["/a/b"]
      /\ mutations (trace Posix.env (c_new plain Ex.settings)
                      (Ex.world 4 (Some "b") false)) = []).
Proof.
  assert (H1 : "b" <> "") by discriminate.
  assert (H2 : result Posix.env (_index plain) (Ex.world 4 (Some "b") false) = Some Ex.d)
    by reflexivity.
  assert (H3 : Posix.env _ (E.input "✏️  :"
                    (Some (relpath (Node.path Ex.d) (Node.path (State.root plain)))))
                 (world Posix.env (_index plain) (Ex.world 4 (Some "b") false))
               = (Some "b", Ex.world 4 (Some "b") false)) by reflexivity.
  assert (H4 : Posix.env _ (E.input "✏️  :" None)
                 (world Posix.env (_index plain) (Ex.world 4 (Some "b") false))
               = (Some "b", Ex.world 4 (Some "b") false)) by reflexivity.
  assert (H5 : (Posix.env _ (E.fs_exists "/a/b") (Ex.world 4 (Some "b") false)).1 = true)
    by (vm_compute; reflexivity).
  assert (H6 : "/a/b"
               = join (let node := default (State.root plain)
                                     (result Posix.env (_index plain)
                                        (Ex.world 4 (Some "b") false)) in
                       if is_dir node then Node.path node else dirname (Node.path node))
                      "b") by (vm_compute; reflexivity).
  split; [exact H1 | split; [exact H2 | split; [exact H3 | split; [exact H4 |
    split; [exact H5 |]]]]].
  destruct (rename_or_new_conflict Posix.env (Ex.world 4 (Some "b") false)
              (Ex.world 4 (Some "b") false) plain Ex.settings "b" H1)
    as [Hrename Hnew].
  destruct (Hrename Ex.d H2 H3 H5) as (Hres & Hchecked & _ & Hmu & _).
  destruct (Hnew "/a/b" H6 H4 H5) as (Hres' & Hchecked' & _ & Hmu' & _).
  split; [split; [exact Hres | split; [exact Hchecked | exact Hmu]]
         | split; [exact Hres' | split; [exact Hchecked' | exact Hmu']]].
Defined.

End ConflictExamples.

Section DeleteExamples.
#[local] Existing Instance Posix.imports.




End DeleteExamples.

(** * Further properties of the transitions *)

(** Unfolds the readings of a trace. *)
Ltac readings :=
  unfold forwarded, printed, mutations, raised, found_present, typed, confirmed,
    shown, killed, redrawn, checked, cursor_reads, status_reads, reported_there in *;
  simpl.

(** ** Following the current buffer *)

Section Follow.
Context {imports : Imports} {W : Type} (h : handler W).

(** X1: when the current buffer has no name or does not lie below the root,
    [a_follow] returns nothing after its one question to the editor:
    [forward] is not called and the dispatcher keeps its state. *)
Theorem a_follow_elsewhere :
  forall (w : W) (state : State.t) (settings : Settings.t),
    (h _ E.find_current_buffer_name w).1 = ""
    \/ is_parent (Node.path (State.root state)) (h _ E.find_current_buffer_name w).1 = false ->
    result h (a_follow state settings) w = None
    /\ trace h (a_follow state settings) w
       = [Called E.find_current_buffer_name (h _ E.find_current_buffer_name w).1]
    /\ result h (Main_run a_follow (Some state) settings) w = state.
Proof.
  intros w state settings Hwhere.
  assert (H : result h (a_follow state settings) w = None
    /\ trace h (a_follow state settings) w
       = [Called E.find_current_buffer_name (h _ E.find_current_buffer_name w).1]).
  { revert Hwhere. unfold result, trace, a_follow, _current. simpl.
    destruct (h _ E.find_current_buffer_name w) as [current w1]. simpl.
    intros [-> | Hout]; simpl; [split; reflexivity |].
    rewrite Hout. destruct (truthy current); simpl; split; reflexivity. }
  destruct H as [Hres Htr]. split; [exact Hres | split; [exact Htr |]].
  apply (Main_run_nothing h w a_follow). exact Hres.
Qed.

(** X2: when the current buffer has a name and lies below the root,
    [a_follow] calls [forward] once, with that buffer as [current] and with
    the old index joined with the ancestors of the buffer if the state
    follows; nothing leaves the index, and without [follow] the index is the
    old one. *)
Theorem a_follow_below_root :
  forall (w : W) (state : State.t) (settings : Settings.t),
    (h _ E.find_current_buffer_name w).1 <> "" ->
    is_parent (Node.path (State.root state)) (h _ E.find_current_buffer_name w).1 = true ->
    exists paths : gset string,
      paths = (if State.follow state
               then list_to_set (ancestors (h _ E.find_current_buffer_name w).1) else ∅)
      /\ forwarded (trace h (a_follow state settings) w)
         = [[kw_index (State.index state ∪ paths); kw_paths paths;
             kw_current (h _ E.find_current_buffer_name w).1]]
      /\ State.index state ⊆ State.index state ∪ paths
      /\ (State.follow state = false -> State.index state ∪ paths = State.index state).
Proof.
  intros w state settings Hname Hbelow. eexists. split; [reflexivity |].
  split; [| split].
  - revert Hname Hbelow. unfold trace, a_follow, _current. simpl.
    destruct (h _ E.find_current_buffer_name w) as [current w1]. simpl.
    intros Hname Hbelow. apply truthy_spec in Hname. rewrite Hname, Hbelow. simpl.
    answer. reflexivity.
  - apply union_subseteq_l.
  - intros ->. apply leibniz_equiv. apply union_empty_r.
Qed.

End Follow.

(** ** Jumping to the current file *)

Section Jump.
Context {imports : Imports} {W : Type} (h : handler W).

(** X3: whenever [c_jump_to_current] returns a stage, the state has a
    current file, the focus of the stage is that file, and the one call of
    [forward] carries it as [current]; a state without a current file gives
    nothing, without any call. *)
Theorem c_jump_to_current_focus :
  forall (w : W) (state : State.t) (settings : Settings.t),
    (forall stage,
        result h (c_jump_to_current state settings) w = Some stage ->
        exists current paths,
          State.current state = Some current
          /\ Stage.focus stage = Some current
          /\ forwarded (trace h (c_jump_to_current state settings) w)
             = [[kw_index (State.index state ∪ paths); kw_paths paths; kw_current current]])
    /\ (State.current state = None ->
        result h (c_jump_to_current state settings) w = None
        /\ trace h (c_jump_to_current state settings) w = []).
Proof.
  intros w state settings. split.
  - intros stage. unfold result, trace, c_jump_to_current, _current.
    destruct (State.current state) as [current |]; simpl; [| discriminate].
    destruct (truthy current); simpl; [| discriminate].
    destruct (is_parent (Node.path (State.root state)) current); simpl; [| discriminate].
    answer. intros [= <-]. eexists. eexists. repeat split; reflexivity.
  - intros Hnone. unfold result, trace, c_jump_to_current. rewrite Hnone.
    split; reflexivity.
Qed.

End Jump.

(** ** What questions and refreshes leave no mark on *)

Lemma query_unseen_more {W A} (h : handler W) (p : prog A) (w : W) :
  only is_query p ->
  typed (trace h p w) = [] /\ confirmed (trace h p w) = []
  /\ shown (trace h p w) = [] /\ killed (trace h p w) = []
  /\ redrawn (trace h p w) = [] /\ checked (trace h p w) = [].
Proof.
  intros Hp. repeat split; apply (only_unseen is_query); try exact Hp;
    intros X e x; destruct e; simpl; try discriminate; reflexivity.
Qed.

Lemma c_refresh_unseen_more {imports : Imports} {W} (h : handler W) (w : W) state settings :
  typed (trace h (c_refresh state settings false) w) = []
  /\ confirmed (trace h (c_refresh state settings false) w) = []
  /\ shown (trace h (c_refresh state settings false) w) = []
  /\ killed (trace h (c_refresh state settings false) w) = []
  /\ checked (trace h (c_refresh state settings false) w) = []
  /\ cursor_reads (trace h (c_refresh state settings false) w) = [].
Proof.
  assert (Honly : only is_refresh_call (c_refresh state settings false))
    by (unfold c_refresh, _vc_stat, call; solve_only).
  repeat split; apply (only_unseen is_refresh_call);
    try exact Honly;
    intros X e x; destruct e; simpl; try discriminate; reflexivity.
Qed.

(** Splits the run of an action off the cursor lookup it starts with; what
    is known of the lookup is kept as [Hi1] and [Hi2]. *)
Ltac after_index h state w :=
  rewrite run_bind, (run_eta h (_index state) w);
  pose proof (query_unseen h _ w (_index_only state)) as Hi1;
  pose proof (query_unseen_more h _ w (_index_only state)) as Hi2;
  revert Hi1 Hi2;
  generalize (trace h (_index state) w);
  generalize (world h (_index state) w);
  generalize (result h (_index state) w);
  intros found wi ti (Hif & Hip & Him & Hir & Hix) (Hit & Hic & His & Hik & Hid & Hie).

(** Splits the run of a fallback refresh off; what is known of it is kept. *)
Ltac at_refresh h :=
  rewrite run_bind, (run_eta h (c_refresh _ _ false));
  match goal with
  | |- context [trace h (c_refresh ?s ?st false) ?w] =>
      destruct (c_refresh_unseen h w s st) as (Hrp & Hrm & Hrr & Hrx);
      destruct (c_refresh_unseen_more h w s st) as (Hrt & Hrc & Hrs & Hrk & Hre & Hru);
      destruct (c_refresh_forwarded h w s st false) as (wr' & indexr & restr & Hrf);
      revert Hrp Hrm Hrr Hrx Hrt Hrc Hrs Hrk Hre Hru Hrf;
      generalize (trace h (c_refresh s st false) w);
      generalize (world h (c_refresh s st false) w);
      generalize (result h (c_refresh s st false) w);
      intros stager wr tr Hrp Hrm Hrr Hrx Hrt Hrc Hrs Hrk Hre Hru Hrf; simpl
  end.

(** Like [run_all], keeping what each branch knows of the answer. *)
Ltac run_cases :=
  repeat (answer
          || match goal with
             | |- context [run _ (if ?b then _ else _) _] =>
                 let Hb := fresh "Hb" in destruct b eqn:Hb; simpl
             | |- context [run _ (match ?x with (_, _) => _ end) _] => destruct x; simpl
             | |- context [let (_, _) := ?x in _] => is_var x; destruct x; simpl
             | |- context [run _ (match ?x with Some _ => _ | None => _ end) _] =>
                 destruct x; simpl
             end);
  repeat match goal with
         | H : (_ =? _)%Z = true |- _ => apply Z.eqb_eq in H; subst
         | H : (_ =? _)%Z = false |- _ => apply Z.eqb_neq in H
         end.

(** Reads the trace of the goal with everything known of its parts. *)
Ltac read_off :=
  readings; rewrite ?flat_map_app; simpl; rewrite ?flat_map_app; simpl;
  repeat match goal with
         | H : flat_map _ _ = _ |- _ => rewrite !H
         end;
  simpl.

(** ** Clicking, continued *)

Section ClickMore.
Context {imports : Imports} {W : Type} (h : handler W).

(** X4: a click on a folder that is no dead link, with no filter set, calls
    [forward] once with the folder flipped in the index and named in
    [paths]; no file is shown and nothing is printed.  The folder is in the
    new index exactly if it was not in the old one, every other entry is as
    before, and a second flip gives the old index back. *)
Theorem c_click_folder_toggles :
  forall (w : W) (state : State.t) (settings : Settings.t)
         (click_type : ClickType.t) (node : Node.t),
    result h (_index state) w = Some node ->
    Mode.orphan_link ∉ Node.mode node ->
    Mode.folder ∈ Node.mode node ->
    FilterPattern.pattern (State.filter_pattern state) = "" ->
    FilterPattern.search_set (State.filter_pattern state) = ∅ ->
    forwarded (trace h (c_click state settings click_type) w)
      = [[kw_index (State.index state ^^ {[Node.path node]}); kw_paths {[Node.path node]}]]
    /\ shown (trace h (c_click state settings click_type) w) = []
    /\ printed (trace h (c_click state settings click_type) w) = []
    /\ (Node.path node ∈ State.index state ^^ {[Node.path node]}
        <-> Node.path node ∉ State.index state)
    /\ (forall p, p <> Node.path node ->
          (p ∈ State.index state ^^ {[Node.path node]} <-> p ∈ State.index state))
    /\ (State.index state ^^ {[Node.path node]}) ^^ {[Node.path node]} = State.index state.
Proof.
  intros w state settings click_type node Hnode Hlive Hfolder Hpat Hset.
  assert (Hrun : forwarded (trace h (c_click state settings click_type) w)
      = [[kw_index (State.index state ^^ {[Node.path node]}); kw_paths {[Node.path node]}]]
    /\ shown (trace h (c_click state settings click_type) w) = []
    /\ printed (trace h (c_click state settings click_type) w) = []).
  { revert Hnode. unfold trace, result, c_click. after_index h state w.
    simpl. intros ->.
    rewrite bool_decide_eq_false_2 by exact Hlive.
    rewrite bool_decide_eq_true_2 by exact Hfolder.
    rewrite Hpat, Hset. unfold nonempty. rewrite bool_decide_eq_true_2 by reflexivity.
    simpl. run_all. read_off. repeat split; reflexivity. }
  destruct Hrun as (Hf & Hs & Hp).
  split; [exact Hf | split; [exact Hs | split; [exact Hp |]]].
  unfold set_xor. split; [| split].
  - rewrite elem_of_union, !elem_of_difference, !elem_of_singleton. tauto.
  - intros p Hne. rewrite elem_of_union, !elem_of_difference, !elem_of_singleton. tauto.
  - apply set_xor_involutive.
Qed.

(** X5: a click on a file that is no dead link, when no mimetype warning is
    asked or the user answers yes, calls [forward] once with the file as
    [current], and then shows the file with the state that [forward]
    returned and with the click type of the call; the stage carries that
    same state.  The run ends with these two calls: the [forward] whose
    answer is that state, and the [show_file] that is given it. *)
Theorem c_click_file_opens :
  forall (w : W) (state : State.t) (settings : Settings.t)
         (click_type : ClickType.t) (node : Node.t),
    result h (_index state) w = Some node ->
    Mode.orphan_link ∉ Node.mode node ->
    Mode.folder ∉ Node.mode node ->
    confirmed (trace h (c_click state settings click_type) w) = []
      \/ confirmed (trace h (c_click state settings click_type) w) = [1%Z] ->
    exists (new_state : State.t) (before : list Call),
      trace h (c_click state settings click_type) w
      = (before
         ++ [Called (E.forward state settings [kw_current (Node.path node)]) new_state;
             Called (E.show_file new_state settings click_type) tt])%list
      /\ forwarded before = []
      /\ shown before = []
      /\ result h (c_click state settings click_type) w = Some (Stage1 new_state)
      /\ forwarded (trace h (c_click state settings click_type) w)
         = [[kw_current (Node.path node)]]
      /\ shown (trace h (c_click state settings click_type) w) = [(new_state, click_type)]
      /\ printed (trace h (c_click state settings click_type) w) = [].
Proof.
  intros w state settings click_type node Hnode Hlive Hfile. revert Hnode.
  unfold trace, result, c_click. after_index h state w.
  simpl. intros ->.
  rewrite bool_decide_eq_false_2 by exact Hlive.
  rewrite bool_decide_eq_false_2 by exact Hfile.
  destruct (bool_decide _ && negb (bool_decide _)); simpl; run_cases.
  all: repeat match goal with u : unit |- _ => destruct u end.
  all: read_off.
  all: intros [Hc | Hc]; try discriminate Hc; try (injection Hc as Hc; contradiction).
  all: eexists.
  all: match goal with
       | |- context [(?t ++ ?c :: _ :: _ :: nil)%list] =>
           exists (t ++ [c])%list; split; [rewrite <- app_assoc; reflexivity |]
       | |- context [(?t ++ _ :: _ :: nil)%list] =>
           exists t; split; [reflexivity |]
       end.
  all: rewrite ?flat_map_app; simpl;
       repeat match goal with H : flat_map _ _ = _ |- _ => rewrite !H end; simpl.
  all: repeat split; reflexivity.
Qed.

(** X6: the mimetype warning is asked exactly when the type of the file is
    among the warned ones and its extension is not exempt; when the user
    answers anything but yes, the click returns nothing, [forward] is not
    called and no file is shown. *)
Theorem c_click_file_declined :
  forall (w : W) (state : State.t) (settings : Settings.t)
         (click_type : ClickType.t) (node : Node.t),
    result h (_index state) w = Some node ->
    Mode.orphan_link ∉ Node.mode node ->
    Mode.folder ∉ Node.mode node ->
    (confirmed (trace h (c_click state settings click_type) w) <> []
     <-> partition_head (default "" (guess_type (Node.name node)))
           ∈ Settings.warn (Settings.mime settings)
         /\ Node.ext node ∉ Settings.ignore_exts (Settings.mime settings))
    /\ forall answer : Z,
        confirmed (trace h (c_click state settings click_type) w) = [answer] ->
        answer <> 1%Z ->
        result h (c_click state settings click_type) w = None
        /\ forwarded (trace h (c_click state settings click_type) w) = []
        /\ shown (trace h (c_click state settings click_type) w) = [].
Proof.
  intros w state settings click_type node Hnode Hlive Hfile. revert Hnode.
  unfold trace, result, c_click. after_index h state w.
  simpl. intros ->.
  rewrite bool_decide_eq_false_2 by exact Hlive.
  rewrite bool_decide_eq_false_2 by exact Hfile.
  destruct (decide (partition_head (default "" (guess_type (Node.name node)))
                      ∈ Settings.warn (Settings.mime settings))) as [Hwarn | Hwarn];
    [rewrite (bool_decide_eq_true_2 _ Hwarn) | rewrite (bool_decide_eq_false_2 _ Hwarn)];
    [destruct (decide (Node.ext node ∈ Settings.ignore_exts (Settings.mime settings)))
        as [Hext | Hext];
     [rewrite (bool_decide_eq_true_2 _ Hext) | rewrite (bool_decide_eq_false_2 _ Hext)] |];
    simpl; run_cases.
  all: read_off.
  all: split; [split; [intros Hne; try (exfalso; apply Hne; reflexivity); tauto
                      | intros [? ?]; try contradiction; discriminate] |].
  all: intros given Hgiven Hno; try discriminate Hgiven.
  all: injection Hgiven as <-; try contradiction.
  all: repeat split; reflexivity.
Qed.

(** X7: when there is no node under the cursor, a click, a collapse, a
    rename and a change of focus return nothing and make no call beyond
    the cursor lookup: nothing is printed, asked or forwarded. *)
Theorem no_node_no_action :
  forall {awaited : Awaited}
         (w : W) (state : State.t) (settings : Settings.t) (click_type : ClickType.t),
    result h (_index state) w = None ->
    (result h (c_click state settings click_type) w = None
     /\ trace h (c_click state settings click_type) w = trace h (_index state) w)
    /\ (result h (c_collapse state settings) w = None
        /\ trace h (c_collapse state settings) w = trace h (_index state) w)
    /\ (result h (c_rename state settings) w = None
        /\ trace h (c_rename state settings) w = trace h (_index state) w)
    /\ (result h (c_change_focus state settings) w = None
        /\ trace h (c_change_focus state settings) w = trace h (_index state) w).
Proof.
  intros awaited w state settings click_type Hnone.
  unfold c_click, c_collapse, c_rename, c_change_focus.
  rewrite !result_bind, !trace_bind, !Hnone. simpl.
  rewrite !app_nil_r. repeat split; reflexivity.
Qed.

End ClickMore.

(** ** Creating and renaming, continued *)

Opaque c_refresh.

Section CreateRename.
Context {imports : Imports} {W : Type} (h : handler W).

Lemma c_new_cancelled (w : W) state settings :
  typed (trace h (c_new state settings) w) = [None]
  \/ typed (trace h (c_new state settings) w) = [Some ""] ->
  result h (c_new state settings) w = None
  /\ checked (trace h (c_new state settings) w) = []
  /\ mutations (trace h (c_new state settings) w) = []
  /\ forwarded (trace h (c_new state settings) w) = []
  /\ printed (trace h (c_new state settings) w) = [].
Proof.
  unfold trace, result, c_new. after_index h state w.
  simpl. run_cases. all: try at_refresh h. all: read_off.
  all: intros [Hc | Hc]; try discriminate Hc.
  all: try (injection Hc as ->; discriminate).
  all: repeat split; reflexivity.
Qed.

Lemma c_rename_cancelled (w : W) state settings :
  typed (trace h (c_rename state settings) w) = [None]
  \/ typed (trace h (c_rename state settings) w) = [Some ""] ->
  result h (c_rename state settings) w = None
  /\ checked (trace h (c_rename state settings) w) = []
  /\ mutations (trace h (c_rename state settings) w) = []
  /\ forwarded (trace h (c_rename state settings) w) = []
  /\ printed (trace h (c_rename state settings) w) = [].
Proof.
  unfold trace, result, c_rename. after_index h state w.
  destruct found as [node |]; simpl; run_cases.
  all: try at_refresh h. all: read_off.
  all: intros [Hc | Hc]; try discriminate Hc.
  all: try (injection Hc as ->; discriminate).
  all: repeat split; reflexivity.
Qed.

(** X8: when the user cancels the prompt of a create or a rename, or enters
    nothing, the action returns nothing: no path is checked, the filesystem
    is not touched, [forward] is not called and nothing is printed. *)
Theorem create_or_rename_cancelled :
  forall (w : W) (state : State.t) (settings : Settings.t)
         (action : State.t -> Settings.t -> prog (option Stage.t)),
    action = c_new \/ action = c_rename ->
    typed (trace h (action state settings) w) = [None]
    \/ typed (trace h (action state settings) w) = [Some ""] ->
    result h (action state settings) w = None
    /\ checked (trace h (action state settings) w) = []
    /\ mutations (trace h (action state settings) w) = []
    /\ forwarded (trace h (action state settings) w) = []
    /\ printed (trace h (action state settings) w) = [].
Proof.
  intros w state settings action [-> | ->];
    [apply c_new_cancelled | apply c_rename_cancelled].
Qed.

(** X9: the path [c_new] checks is the entered name joined to the directory
    of the node under the cursor, the root standing in when there is no
    node: the node itself if it is a directory, else its parent. *)
Theorem c_new_destination :
  forall (w : W) (state : State.t) (settings : Settings.t) (child : string),
    typed (trace h (c_new state settings) w) = [Some child] ->
    child <> "" ->
    checked (trace h (c_new state settings) w)
    = [join (let node := default (State.root state) (result h (_index state) w) in
             if is_dir node then Node.path node else dirname (Node.path node))
            child].
Proof.
  intros w state settings child. unfold trace, c_new.
  rewrite run_bind, (run_eta h (_index state) w).
  pose proof (query_unseen_more h _ w (_index_only state)) as (Hit & _ & _ & _ & _ & Hie).
  revert Hit Hie.
  generalize (trace h (_index state) w).
  generalize (world h (_index state) w).
  generalize (result h (_index state) w).
  intros found wi ti Hit Hie.
  simpl. run_cases. all: try at_refresh h. all: read_off.
  all: intros Ht Hne; try discriminate Ht.
  all: injection Ht as ->.
  all: try reflexivity.
  apply truthy_spec in Hne. congruence.
Qed.

Lemma c_new_failed (w : W) state settings e :
  In e (raised (trace h (c_new state settings) w)) ->
  printed (trace h (c_new state settings) w) = [(e, true)]
  /\ length (mutations (trace h (c_new state settings) w)) = 1%nat
  /\ killed (trace h (c_new state settings) w) = []
  /\ exists (w' : W) (index : Index) (rest : list Delta),
       forwarded (trace h (c_new state settings) w)
       = [kw_index index :: kw_selection (refreshed_selection h state w') :: rest].
Proof.
  unfold trace, result, c_new. after_index h state w.
  simpl. run_cases. all: try at_refresh h. all: read_off.
  all: try (intros []; fail).
  intros [<- | []]. repeat split. exists wr', indexr, restr. reflexivity.
Qed.

Lemma c_rename_failed (w : W) state settings e :
  In e (raised (trace h (c_rename state settings) w)) ->
  printed (trace h (c_rename state settings) w) = [(e, true)]
  /\ length (mutations (trace h (c_rename state settings) w)) = 1%nat
  /\ killed (trace h (c_rename state settings) w) = []
  /\ exists (w' : W) (index : Index) (rest : list Delta),
       forwarded (trace h (c_rename state settings) w)
       = [kw_index index :: kw_selection (refreshed_selection h state w') :: rest].
Proof.
  unfold trace, result, c_rename. after_index h state w.
  destruct found as [node |]; simpl; run_cases.
  all: try at_refresh h. all: read_off.
  all: try (intros []; fail).
  intros [<- | []]. repeat split. exists wr', indexr, restr. reflexivity.
Qed.

(** X10: when the filesystem operation of a create or a rename raises, the
    exception is the one message printed, the operation was attempted once,
    no buffer is closed, and the one call of [forward] is that of a full
    refresh, with the refreshed selection. *)
Theorem create_or_rename_failed :
  forall (w : W) (state : State.t) (settings : Settings.t)
         (action : State.t -> Settings.t -> prog (option Stage.t)) (e : string),
    action = c_new \/ action = c_rename ->
    In e (raised (trace h (action state settings) w)) ->
    printed (trace h (action state settings) w) = [(e, true)]
    /\ length (mutations (trace h (action state settings) w)) = 1%nat
    /\ killed (trace h (action state settings) w) = []
    /\ exists (w' : W) (index : Index) (rest : list Delta),
         forwarded (trace h (action state settings) w)
         = [kw_index index :: kw_selection (refreshed_selection h state w') :: rest].
Proof.
  intros w state settings action e [-> | ->];
    [apply c_new_failed | apply c_rename_failed].
Qed.

(** X11: when [c_new] changes the filesystem and nothing is raised, the path
    it created is the one path it had checked, before, and found absent;
    [forward] is called once, with the old index joined with the ancestors
    of the new path, which are also the [paths] to rescan; nothing is
    printed. *)
Theorem c_new_created :
  forall (w : W) (state : State.t) (settings : Settings.t),
    mutations (trace h (c_new state settings) w) <> [] ->
    raised (trace h (c_new state settings) w) = [] ->
    exists (name : string) (new_state : State.t),
      mutations (trace h (c_new state settings) w) = [Called (E.new name) None]
      /\ checked (trace h (c_new state settings) w) = [name]
      /\ found_present (trace h (c_new state settings) w) = []
      /\ forwarded (trace h (c_new state settings) w)
         = [[kw_index (State.index state ∪ list_to_set (ancestors name));
             kw_paths (list_to_set (ancestors name))]]
      /\ State.index state ⊆ State.index state ∪ list_to_set (ancestors name)
      /\ result h (c_new state settings) w = Some (Stage1 new_state)
      /\ printed (trace h (c_new state settings) w) = [].
Proof.
  intros w state settings.
  unfold trace, result, c_new. after_index h state w.
  simpl. run_cases. all: try at_refresh h. all: read_off.
  all: intros Hmut Hraise; try (exfalso; apply Hmut; reflexivity); try discriminate Hraise.
  eexists. eexists. repeat split; try reflexivity. apply union_subseteq_l.
Qed.

(** X12: when [c_rename] changes the filesystem and nothing is raised, the
    rename went from the path of the node under the cursor to the one path
    that was checked and found absent; [forward] is called once, with the
    old index joined with the root, the new parent directory and its
    ancestors, and the buffer of the old path is closed. *)
Theorem c_rename_renamed :
  forall (w : W) (state : State.t) (settings : Settings.t),
    mutations (trace h (c_rename state settings) w) <> [] ->
    raised (trace h (c_rename state settings) w) = [] ->
    exists (node : Node.t) (new_name : string) (new_state : State.t),
      result h (_index state) w = Some node
      /\ mutations (trace h (c_rename state settings) w)
         = [Called (E.rename (Node.path node) new_name) None]
      /\ checked (trace h (c_rename state settings) w) = [new_name]
      /\ found_present (trace h (c_rename state settings) w) = []
      /\ forwarded (trace h (c_rename state settings) w)
         = [[kw_index (State.index state
                       ∪ ({[Node.path (State.root state)]} ∪ {[dirname new_name]}
                          ∪ list_to_set (ancestors (dirname new_name))));
             kw_paths ({[Node.path (State.root state)]} ∪ {[dirname new_name]}
                       ∪ list_to_set (ancestors (dirname new_name)))]]
      /\ killed (trace h (c_rename state settings) w) = [{[Node.path node]}]
      /\ result h (c_rename state settings) w = Some (Stage1 new_state).
Proof.
  intros w state settings.
  unfold trace, result, c_rename. after_index h state w.
  destruct found as [node |]; simpl; run_cases.
  all: try at_refresh h. all: read_off.
  all: intros Hmut Hraise; try (exfalso; apply Hmut; reflexivity); try discriminate Hraise.
  eexists. eexists. eexists. repeat split; reflexivity.
Qed.

End CreateRename.

(** ** Refreshing, continued *)

Transparent c_refresh.

Section RefreshMore.
Context {imports : Imports} {W : Type} (h : handler W).

Lemma still_exist_quiet (l : list string) (w : W) :
  exists (w' : W) (t : list Call),
    run h (filterM (fun s => call (E.exists_ s)) l) w = (still_exist h l w, w', t)
    /\ forwarded t = [] /\ printed t = [] /\ status_reads t = []
    /\ (forall p, p ∈ still_exist h l w -> p ∈ reported_there t).
Proof.
  assert (Hthere : forall p, p ∈ still_exist h l w ->
                     p ∈ reported_there (trace h (filterM (fun s => call (E.exists_ s)) l) w)).
  { revert w. induction l as [| x l IH]; intros w p.
    - unfold still_exist, result. simpl. intros Hp. inversion Hp.
    - rewrite still_exist_cons. unfold trace, reported_there. simpl.
      destruct (h bool (E.exists_ x) w) as [present w1]. simpl.
      rewrite run_bind, (run_eta h (filterM (fun s => call (E.exists_ s)) l) w1).
      specialize (IH w1 p). unfold reported_there in IH.
      destruct present; simpl; rewrite app_nil_r; [| exact IH].
      rewrite !elem_of_cons. intros [-> | Hp]; [left; reflexivity | right; apply IH; exact Hp]. }
  assert (Hq : only (fun X (e : E.event X) => match e with E.exists_ _ => true | _ => false end)
                 (filterM (fun s => call (E.exists_ s)) l))
    by (apply only_filterM; intros; simpl; auto).
  assert (Hf : forwarded (trace h (filterM (fun s => call (E.exists_ s)) l) w) = []
     /\ printed (trace h (filterM (fun s => call (E.exists_ s)) l) w) = []
     /\ status_reads (trace h (filterM (fun s => call (E.exists_ s)) l) w) = []).
  { repeat split; apply (only_unseen _ _ h _ w) with (2 := Hq);
      intros X e x; destruct e; simpl; try discriminate; reflexivity. }
  unfold still_exist, result, trace in *.
  destruct (run h (filterM (fun s => call (E.exists_ s)) l) w) as [[r w'] t].
  exists w', t. split; [reflexivity |].
  destruct Hf as (Hf1 & Hf2 & Hf3).
  split; [exact Hf1 | split; [exact Hf2 | split; [exact Hf3 | exact Hthere]]].
Qed.

(** Everything a refresh hands to [forward], and what it prints. *)
Lemma c_refresh_keywords (w : W) state settings write :
  exists (current : string) (w1 w2 : W) (locations : Locations) (vcs : VCStatus),
    forwarded (trace h (c_refresh state settings write) w)
    = [kw_index (refreshed_index h state current w1)
       :: kw_selection (refreshed_selection h state w2)
       :: kw_qf (QuickFix.mk locations (QuickFix.filtering (State.qf state)))
       :: kw_vc vcs
       :: kw_paths {[Node.path (State.root state)]}
       :: (if truthy_opt (if is_parent (Node.path (State.root state)) current
                          then Some current else None)
           then [kw_current current] else [])]
    /\ printed (trace h (c_refresh state settings write) w)
       = (if write then [("⏳...⌛️", false); ("✅", false)] else [])
    /\ (State.enable_vc state = false ->
        vcs = ∅ /\ status_reads (trace h (c_refresh state settings write) w) = [])
    /\ (forall p, p ∈ still_exist h (elements (State.index state)) w1 ->
          p ∈ reported_there (trace h (c_refresh state settings write) w))
    /\ (_is_filtering (State.filter_pattern state) = false ->
        forall p, p ∈ still_exist h (elements (State.selection state)) w2 ->
          p ∈ reported_there (trace h (c_refresh state settings write) w))
    /\ current
       = (h _ E.find_current_buffer_name
            (if write then (h _ (E.print "⏳...⌛️" false) w).2 else w)).1.
Proof.
  unfold c_refresh, refreshed_index, refreshed_selection, _vc_stat, trace.
  destruct write; simpl; repeat answer.
  all: rewrite !run_bind.
  all: match goal with
       | |- context [run h (filterM _ ?l) ?w] =>
           exists x0 + exists x; exists w;
           destruct (still_exist_quiet l w) as (wa & ta & -> & Hfa & Hpa & Hsa & Hta)
       end.
  all: cbv iota; rewrite ?Hans; simpl; rewrite ?Hans, ?Hans0; simpl.
  all: simpl; destruct (_is_filtering (State.filter_pattern state)); simpl.
  all: try (rewrite !run_bind;
            match goal with
            | |- context [run h (filterM _ ?l) ?w] =>
                exists w;
                destruct (still_exist_quiet l w) as (wb & tb & -> & Hfb & Hpb & Hsb & Htb)
            end; simpl).
  all: try (exists wa).
  all: repeat answer.
  all: destruct (State.enable_vc state); simpl; repeat answer.
  all: eexists; eexists.
  all: readings; rewrite ?flat_map_app; simpl; rewrite ?flat_map_app; simpl.
  all: repeat match goal with
              | H : flat_map _ _ = _ |- _ => rewrite !H
              end; simpl.
  all: split; [reflexivity | split; [reflexivity | split; [| split; [| split]]]].
  all: try reflexivity.
  all: try (intros Hvc; try discriminate Hvc; split; reflexivity).
  all: try (intros Hno; discriminate Hno).
  all: try intros _; intros p Hp; rewrite ?elem_of_app; auto 8.
Qed.

(** X13: whatever the disk and the editor answer, a refresh calls [forward]
    once and the index it hands over has the root path in it; [paths] is the
    root alone, the quickfix overlay keeps its filtering flag, the selection
    only loses entries, and the index gains nothing but the root and, if the
    state follows and the current buffer is not below the root, ancestors of
    that buffer.  The current buffer is what the editor answers to
    [find_current_buffer_name], asked first, or after the hourglass message
    when the refresh writes. *)
Theorem c_refresh_keeps_root :
  forall (w : W) (state : State.t) (settings : Settings.t) (write : bool),
    exists (index : Index) (selection : Selection)
           (qf : QuickFix.t) (vcs : VCStatus) (rest : list Delta),
      forwarded (trace h (c_refresh state settings write) w)
      = [kw_index index :: kw_selection selection :: kw_qf qf :: kw_vc vcs
         :: kw_paths {[Node.path (State.root state)]} :: rest]
      /\ Node.path (State.root state) ∈ index
      /\ QuickFix.filtering qf = QuickFix.filtering (State.qf state)
      /\ selection ⊆ State.selection state
      /\ index ⊆ State.index state ∪ {[Node.path (State.root state)]}
                 ∪ list_to_set
                     (ancestors
                        (h _ E.find_current_buffer_name
                           (if write then (h _ (E.print "⏳...⌛️" false) w).2 else w)).1)
      /\ (State.follow state = false ->
          index ⊆ State.index state ∪ {[Node.path (State.root state)]}).
Proof.
  intros w state settings write.
  destruct (c_refresh_keywords w state settings write)
    as (current & w1 & w2 & locations & vcs & Hf & _ & _ & _ & _ & <-).
  eexists. eexists. eexists. eexists. eexists.
  split; [exact Hf |].
  assert (Hkept : forall p, p ∈ still_exist h (elements (State.index state)) w1 ->
                            p ∈ State.index state).
  { intros p Hp. apply elem_of_elements. eapply still_exist_sub. exact Hp. }
  unfold refreshed_index, refreshed_selection. repeat split.
  - destruct (truthy_opt _); set_unfold; tauto.
  - destruct (_is_filtering _); [apply empty_subseteq |].
    intros p Hp. apply elem_of_list_to_set in Hp.
    apply elem_of_elements. eapply still_exist_sub. exact Hp.
  - destruct (truthy_opt _); destruct (State.follow state);
      intros p; specialize (Hkept p); set_unfold; tauto.
  - intros ->. destruct (truthy_opt _);
      intros p; specialize (Hkept p); set_unfold; tauto.
Qed.

(** X14: a path that the disk reported present at none of the questions of
    a refresh is pruned, silently: it is not in the selection handed to
    [forward], and it is not in the index unless it is the root or an
    ancestor of the current buffer; a refresh that was not asked to write
    prints nothing.  The current buffer is what the editor answers to
    [find_current_buffer_name], which such a refresh asks first. *)
Theorem c_refresh_prunes_stale :
  forall (w : W) (state : State.t) (settings : Settings.t) (p : string),
    p ∉ reported_there (trace h (c_refresh state settings false) w) ->
    exists (index : Index) (selection : Selection) (rest : list Delta),
      forwarded (trace h (c_refresh state settings false) w)
      = [kw_index index :: kw_selection selection :: rest]
      /\ (p ∉ selection)
      /\ (p ∈ index ->
          p = Node.path (State.root state)
          \/ (State.follow state = true
              /\ p ∈ ancestors (h _ E.find_current_buffer_name w).1))
      /\ printed (trace h (c_refresh state settings false) w) = [].
Proof.
  intros w state settings p Hgone.
  destruct (c_refresh_keywords w state settings false)
    as (current & w1 & w2 & locations & vcs & Hf & Hp & _ & Hindex & Hselection & Hcurrent).
  simpl in Hcurrent. subst current.
  eexists. eexists. eexists.
  split; [exact Hf |].
  unfold refreshed_index, refreshed_selection. split; [| split; [| exact Hp]].
  - destruct (_is_filtering _); [apply not_elem_of_empty |].
    rewrite elem_of_list_to_set. intros Hkept. apply Hgone, Hselection; auto.
  - assert (Hdrop : p ∉ still_exist h (elements (State.index state)) w1)
      by (intros Hkept; apply Hgone, Hindex; exact Hkept).
    destruct (truthy_opt _); destruct (State.follow state); set_unfold; tauto.
Qed.

(** X15: a refresh asked to write prints the hourglass before and the check
    mark after, both as plain messages, and nothing else; when version
    control is off it does not call the version-control reader and hands an
    empty status to [forward]. *)
Theorem c_refresh_reports :
  forall (w : W) (state : State.t) (settings : Settings.t),
    printed (trace h (c_refresh state settings true) w)
      = [("⏳...⌛️", false); ("✅", false)]
    /\ (State.enable_vc state = false ->
        status_reads (trace h (c_refresh state settings true) w) = []
        /\ exists (index : Index) (selection : Selection) (qf : QuickFix.t)
                  (rest : list Delta),
             forwarded (trace h (c_refresh state settings true) w)
             = [kw_index index :: kw_selection selection :: kw_qf qf :: kw_vc ∅ :: rest]).
Proof.
  intros w state settings.
  destruct (c_refresh_keywords w state settings true)
    as (current & w1 & w2 & locations & vcs & Hf & Hp & Hvc & _).
  split; [exact Hp |]. intros Hoff. destruct (Hvc Hoff) as [-> Hs].
  split; [exact Hs |]. eexists. eexists. eexists. eexists. exact Hf.
Qed.


End RefreshMore.

(** ** Toggles *)

Section Toggles.
Context {imports : Imports} {W : Type} (h : handler W).

(** X16: with a quickfix list that is not empty, the toggle hands the list
    and the negated filtering flag to [forward] and prints one message
    without the error flag; run again, with the same list, on a state that
    has the negated flag, it hands the original flag to [forward]. *)
Theorem c_toggle_qf_filtering_flips :
  forall (w w' : W) (state state' : State.t) (settings : Settings.t),
    (h _ E.quickfix w).1 <> ∅ ->
    (h _ E.quickfix w').1 = (h _ E.quickfix w).1 ->
    QuickFix.filtering (State.qf state') = negb (QuickFix.filtering (State.qf state)) ->
    forwarded (trace h (c_toggle_qf_filtering state settings) w)
      = [[kw_qf (QuickFix.mk (h _ E.quickfix w).1
                   (negb (QuickFix.filtering (State.qf state))))]]
    /\ (exists msg, printed (trace h (c_toggle_qf_filtering state settings) w)
                    = [(msg, false)])
    /\ forwarded (trace h (c_toggle_qf_filtering state' settings) w')
       = [[kw_qf (QuickFix.mk (h _ E.quickfix w).1 (QuickFix.filtering (State.qf state)))]].
Proof.
  intros w w' state state' settings Hne Hsame Hflag.
  unfold trace, c_toggle_qf_filtering. simpl.
  destruct (h _ E.quickfix w) as [locations w1].
  destruct (h _ E.quickfix w') as [locations' w1'].
  simpl in *. subst locations'.
  apply nonempty_map_spec in Hne. rewrite Hne, Hflag, negb_involutive. simpl.
  run_all. read_off. repeat split; eauto.
Qed.

(** X17: switching version control off does not call the version-control
    reader and hands an empty status to [forward]; switching it on calls the
    reader once and hands its answer on. *)
Theorem c_toggle_vc_status :
  forall (w : W) (state : State.t) (settings : Settings.t),
    (State.enable_vc state = true ->
     forwarded (trace h (c_toggle_vc state settings) w) = [[kw_enable_vc false; kw_vc ∅]]
     /\ status_reads (trace h (c_toggle_vc state settings) w) = [])
    /\ (State.enable_vc state = false ->
        forwarded (trace h (c_toggle_vc state settings) w)
          = [[kw_enable_vc true; kw_vc (h _ E.status w).1]]
        /\ length (status_reads (trace h (c_toggle_vc state settings) w)) = 1%nat).
Proof.
  intros w state settings.
  unfold trace, c_toggle_vc, _vc_stat.
  split; intros ->; simpl; run_all; read_off; split; reflexivity.
Qed.

End Toggles.

(** ** Deleting, continued *)

Opaque c_refresh.

Section DeleteMore.
Context {imports : Imports} {W : Type} (h : handler W).

(** What the question for the confirmation leaves no mark on. *)
Lemma shown_paths_quiet (state : State.t) (l : list string) (w : W) :
  forwarded (trace h (mapM (fun path => _display_path path state) l) w) = []
  /\ printed (trace h (mapM (fun path => _display_path path state) l) w) = []
  /\ mutations (trace h (mapM (fun path => _display_path path state) l) w) = []
  /\ raised (trace h (mapM (fun path => _display_path path state) l) w) = []
  /\ confirmed (trace h (mapM (fun path => _display_path path state) l) w) = []
  /\ killed (trace h (mapM (fun path => _display_path path state) l) w) = []
  /\ cursor_reads (trace h (mapM (fun path => _display_path path state) l) w) = [].
Proof.
  assert (Hq : only (fun X (e : E.event X) => match e with E.isdir _ => true | _ => false end)
                 (mapM (fun path => _display_path path state) l))
    by (apply only_mapM; intros; unfold _display_path, call; solve_only).
  repeat split; apply (only_unseen _ _ h _ w) with (2 := Hq);
    intros X e x; destruct e; simpl; try discriminate; reflexivity.
Qed.

(** What a delete does once the paths to delete are chosen: the trace and
    the result of the rest of [_delete], for any chosen set. *)
Lemma _delete_rest (w1 : W) state settings (yeet : list string -> prog Raised)
    (k : gset string -> prog (option Stage.t)) (selection : gset string) :
  yeet = remove \/ yeet = trash ->
  k = (fun selection =>
         match unify_ancestors selection with
         | [] => Ret None
         | _ :: _ =>
             do shown <- mapM (fun path => _display_path path state)
                              (unify_ancestors selection);
             do resp <- call (E.confirm ("🗑" ++ linesep
                                         ++ String.concat linesep (sorted_strxfrm shown) ++ "?")
                                yes_no 2);
             if (resp =? 1)%Z then
               do raised <- yeet (unify_ancestors selection);
               match raised with
               | Some e =>
                   do _ <- call (E.print e true);
                   do stage <- c_refresh state settings false;
                   Ret (Some stage)
               | None =>
                   do new_state <-
                     call (E.forward state settings
                             [kw_selection ∅;
                              kw_paths (list_to_set (dirname <$> unify_ancestors selection))]);
                   do _ <- call (E.kill_buffers selection);
                   Ret (Some (Stage1 new_state))
               end
             else Ret None
         end) ->
  cursor_reads (trace h (k selection) w1) = []
  /\ (confirmed (trace h (k selection) w1) <> [1%Z] ->
      result h (k selection) w1 = None
      /\ mutations (trace h (k selection) w1) = []
      /\ forwarded (trace h (k selection) w1) = []
      /\ printed (trace h (k selection) w1) = []
      /\ killed (trace h (k selection) w1) = [])
  /\ (mutations (trace h (k selection) w1) <> [] ->
      raised (trace h (k selection) w1) = [] ->
      exists new_state : State.t,
        (mutations (trace h (k selection) w1)
           = [Called (E.remove (unify_ancestors selection)) None]
         \/ mutations (trace h (k selection) w1)
            = [Called (E.trash (unify_ancestors selection)) None])
        /\ forwarded (trace h (k selection) w1)
           = [[kw_selection ∅;
               kw_paths (list_to_set (dirname <$> unify_ancestors selection))]]
        /\ killed (trace h (k selection) w1) = [selection]
        /\ confirmed (trace h (k selection) w1) = [1%Z]
        /\ printed (trace h (k selection) w1) = []
        /\ result h (k selection) w1 = Some (Stage1 new_state)).
Proof.
  intros Hyeet ->. unfold trace, result.
  destruct (unify_ancestors selection) as [| u us].
  { simpl. readings. repeat split; try reflexivity.
    intros Hmut. exfalso. apply Hmut. reflexivity. }
  cbv iota. remember (u :: us) as unified eqn:Hu. clear Hu u us.
  rewrite run_bind, (run_eta h (mapM _ unified)).
  pose proof (shown_paths_quiet state unified w1) as Hq. revert Hq.
  generalize (trace h (mapM (fun path => _display_path path state) unified) w1).
  generalize (world h (mapM (fun path => _display_path path state) unified) w1).
  generalize (result h (mapM (fun path => _display_path path state) unified) w1).
  intros shown ws ts (Hsf & Hsp & Hsm & Hsr & Hsc & Hsk & Hsu).
  simpl. run_cases.
  all: try (destruct Hyeet as [-> | ->]; unfold remove, trash; simpl; run_cases).
  all: try at_refresh h.
  all: read_off.
  all: split; [reflexivity |].
  all: split; [intros Hno; try (exfalso; apply Hno; reflexivity);
               try (repeat split; reflexivity) |].
  all: intros Hmut Hraise; try (exfalso; apply Hmut; reflexivity); try discriminate Hraise.
  all: eexists; repeat split; eauto.
Qed.

(** The choice of what to delete only asks questions. *)
Lemma pick_only (state : State.t) (is_visual : bool) :
  only is_query
    (if nonempty (State.selection state) then Ret (State.selection state)
     else do nodes <- _indices state is_visual;
          Ret (list_to_set (Node.path <$> nodes) : gset string)).
Proof.
  destruct (nonempty (State.selection state)); [exact I |].
  apply only_bind; [apply _indices_only | intros; exact I].
Qed.

(** The set a delete acts on: the selection when there is one, else the
    nodes under the cursor. *)
Lemma pick_result (w : W) (state : State.t) (is_visual : bool) :
  result h
    (if nonempty (State.selection state) then Ret (State.selection state)
     else do nodes <- _indices state is_visual;
          Ret (list_to_set (Node.path <$> nodes) : gset string)) w
  = (if nonempty (State.selection state) then State.selection state
     else list_to_set (Node.path <$> result h (_indices state is_visual) w)).
Proof.
  destruct (nonempty (State.selection state)); [reflexivity |].
  rewrite result_bind. reflexivity.
Qed.


(** X19: unless the user answers yes to the one confirmation, a delete or a
    trash returns nothing: the filesystem is not touched, [forward] is not
    called, no buffer is closed and nothing is printed. *)
Theorem delete_needs_yes :
  forall (w : W) (state : State.t) (settings : Settings.t) (is_visual : bool)
         (action : State.t -> Settings.t -> bool -> prog (option Stage.t)),
    action = c_delete \/ action = c_trash ->
    confirmed (trace h (action state settings is_visual) w) <> [1%Z] ->
    result h (action state settings is_visual) w = None
    /\ mutations (trace h (action state settings is_visual) w) = []
    /\ forwarded (trace h (action state settings is_visual) w) = []
    /\ printed (trace h (action state settings is_visual) w) = []
    /\ killed (trace h (action state settings is_visual) w) = [].
Proof.
  intros w state settings is_visual action Haction.
  assert (Hyeet : exists yeet, (yeet = remove \/ yeet = trash)
                               /\ action state settings is_visual
                                  = _delete state settings is_visual yeet).
  { destruct Haction as [-> | ->]; [exists remove | exists trash];
      (split; [auto | reflexivity]). }
  destruct Hyeet as (yeet & Hyeet & ->).
  unfold _delete. rewrite trace_bind, result_bind.
  destruct (query_unseen h _ w (pick_only state is_visual)) as (Hf & Hp & Hm & _ & _).
  destruct (query_unseen_more h _ w (pick_only state is_visual))
    as (_ & Hc & _ & Hk & _ & _).
  unfold confirmed, mutations, forwarded, printed, killed in *.
  rewrite !flat_map_app, Hf, Hp, Hm, Hc, Hk. simpl.
  apply (_delete_rest _ state settings yeet _ _ Hyeet eq_refl).
Qed.

(** X20: when a delete or a trash changes the filesystem and nothing is
    raised, the user had answered yes, the one operation was on the chosen
    paths without those below another chosen path, the chosen paths being
    the selection or, without one, the nodes under the cursor; [forward] is
    called once, with an empty selection and the parent directories to
    rescan, and the buffers of all chosen paths are closed. *)
Theorem delete_done :
  forall (w : W) (state : State.t) (settings : Settings.t) (is_visual : bool)
         (action : State.t -> Settings.t -> bool -> prog (option Stage.t)),
    action = c_delete \/ action = c_trash ->
    mutations (trace h (action state settings is_visual) w) <> [] ->
    raised (trace h (action state settings is_visual) w) = [] ->
    exists (chosen : gset string) (new_state : State.t),
      chosen = (if nonempty (State.selection state) then State.selection state
                else list_to_set (Node.path <$> result h (_indices state is_visual) w))
      /\ (mutations (trace h (action state settings is_visual) w)
            = [Called (E.remove (unify_ancestors chosen)) None]
          \/ mutations (trace h (action state settings is_visual) w)
             = [Called (E.trash (unify_ancestors chosen)) None])
      /\ forwarded (trace h (action state settings is_visual) w)
         = [[kw_selection ∅; kw_paths (list_to_set (dirname <$> unify_ancestors chosen))]]
      /\ killed (trace h (action state settings is_visual) w) = [chosen]
      /\ confirmed (trace h (action state settings is_visual) w) = [1%Z]
      /\ printed (trace h (action state settings is_visual) w) = []
      /\ result h (action state settings is_visual) w = Some (Stage1 new_state).
Proof.
  intros w state settings is_visual action Haction.
  assert (Hyeet : exists yeet, (yeet = remove \/ yeet = trash)
                               /\ action state settings is_visual
                                  = _delete state settings is_visual yeet).
  { destruct Haction as [-> | ->]; [exists remove | exists trash];
      (split; [auto | reflexivity]). }
  destruct Hyeet as (yeet & Hyeet & ->).
  unfold _delete. rewrite trace_bind, result_bind.
  destruct (query_unseen h _ w (pick_only state is_visual)) as (Hf & Hp & Hm & Hr & _).
  destruct (query_unseen_more h _ w (pick_only state is_visual))
    as (_ & Hc & _ & Hk & _ & _).
  unfold confirmed, mutations, forwarded, printed, killed, raised in *.
  rewrite !flat_map_app, Hf, Hp, Hm, Hc, Hk, Hr. simpl.
  rewrite pick_result.
  intros Hmut Hraise.
  pose proof (fun w1 =>
    proj2 (proj2 (_delete_rest w1 state settings yeet _
              (if nonempty (State.selection state) then State.selection state
               else list_to_set (Node.path <$> result h (_indices state is_visual) w))
              Hyeet eq_refl))) as Hdone.
  destruct (Hdone _ Hmut Hraise) as (new_state & Hdo).
  eexists. exists new_state. split; [reflexivity | exact Hdo].
Qed.

End DeleteMore.

(** ** Cutting and copying *)

Section Operation.
Context {imports : Imports} {more : MoreImports} {W : Type} (h : handler W).

(** X21: with nothing selected, or with no node under the cursor, a cut or
    copy does not run its action: after the cursor lookup it prints one
    error, whose text has the placeholder [{name}] as it stands in the
    source, and returns nothing. *)
Theorem operation_nothing_selected :
  forall (w : W) (state : State.t) (settings : Settings.t) (op_name : string)
         (action : list (string * string) -> prog Raised),
    unify_ancestors (State.selection state) = [] \/ result h (_index state) w = None ->
    result h (_operation state settings op_name action) w = None
    /\ trace h (_operation state settings op_name action) w
       = (trace h (_index state) w
          ++ [Called (E.print "⚠️  -- {name}: nothing selected!" true) tt])%list.
Proof.
  intros w state settings op_name action Hnothing.
  unfold _operation. rewrite result_bind, trace_bind.
  generalize ((run h (_index state) w).1.2). intros w1.
  assert (Hprint : forall w1,
    result h (do _ <- call (E.print "⚠️  -- {name}: nothing selected!" true); Ret None) w1
      = (None : option Stage.t)
    /\ trace h (do _ <- call (E.print "⚠️  -- {name}: nothing selected!" true);
                Ret (None : option Stage.t)) w1
       = [Called (E.print "⚠️  -- {name}: nothing selected!" true) tt]).
  { intros w2. unfold result, trace. simpl. answer. destruct x. split; reflexivity. }
  destruct Hnothing as [Hsel | Hnode].
  - rewrite Hsel. destruct (Hprint w1) as [Hr Ht].
    split; [exact Hr | f_equal; exact Ht].
  - rewrite Hnode. destruct (Hprint w1) as [Hr Ht].
    destruct (unify_ancestors (State.selection state));
      (split; [exact Hr | f_equal; exact Ht]).
Qed.

(** The existence checks of the destinations only ask questions. *)
Lemma keepM_exists_only (l : list (string * string)) :
  only is_query (keepM (fun item : string * string => call (E.exists_ item.2)) l).
Proof.
  induction l as [| x l IH]; simpl; [exact I |].
  split; [reflexivity |]. intros b.
  apply only_bind; [exact IH |]. intros r. exact I.
Qed.

(** Where questions leave the world as it is, so does a program that only
    asks questions. *)
Lemma query_world {A} (p : prog A) (w : W) :
  reads_only h -> only is_query p -> world h p w = w.
Proof.
  intros Hquiet. induction p as [a | X e k IH]; intros Hp; [reflexivity |].
  destruct Hp as [He Hk]. unfold world. simpl.
  pose proof (Hquiet X e w He) as Hw.
  destruct (h X e w) as [x w1]. simpl in Hw. subst w1.
  specialize (IH x (Hk x)). unfold world in IH.
  destruct (run h (k x) w) as [[a w2] t]. exact IH.
Qed.

(** A destination that the disk reports present is kept, where questions
    leave the world as it is. *)
Lemma keepM_exists_keeps (l : list (string * string)) (w : W) (item : string * string) :
  reads_only h ->
  (h _ (E.exists_ item.2) w).1 = true ->
  In item l ->
  In item (result h (keepM (fun item : string * string => call (E.exists_ item.2)) l) w).
Proof.
  intros Hquiet Hthere. induction l as [| x l IH]; intros Hin; [inversion Hin |].
  unfold result. simpl.
  pose proof (Hquiet _ (E.exists_ x.2) w eq_refl) as Hw.
  destruct (h bool (E.exists_ x.2) w) as [b w1] eqn:Hb. simpl in Hw. subst w1.
  rewrite run_bind.
  unfold result in IH.
  destruct (run h (keepM (fun item : string * string => call (E.exists_ item.2)) l) w)
    as [[r w2] t].
  simpl in *. destruct Hin as [<- | Hin].
  - rewrite Hb in Hthere. simpl in Hthere. subst b. left. reflexivity.
  - destruct b; [right |]; apply IH, Hin.
Qed.

(** The lines of the message only ask questions. *)
Lemma arrows_only (state : State.t) (l : list (string * string)) :
  only is_query (mapM (_arrow state) l).
Proof.
  apply only_mapM. intros item. unfold _arrow.
  apply only_bind; [apply _display_path_only |]. intros s.
  apply only_bind; [apply _display_path_only |]. intros d. exact I.
Qed.

(** X22: in an environment whose questions leave the world as it is, when
    the disk reports the destination of one of the unified sources present,
    a cut or copy prints one error and returns nothing; its action is not
    run, so the filesystem is not touched, the user is not asked to confirm,
    and [forward] is not called. *)
Theorem operation_conflict :
  forall (w : W) (state : State.t) (settings : Settings.t) (op_name : string)
         (action : list (string * string) -> prog Raised) (node : Node.t) (src : string),
    reads_only h ->
    result h (_index state) w = Some node ->
    In src (unify_ancestors (State.selection state)) ->
    (h _ (E.exists_ (_find_dest src node)) w).1 = true ->
    result h (_operation state settings op_name action) w = None
    /\ (exists msg, printed (trace h (_operation state settings op_name action) w)
                    = [(msg, true)])
    /\ mutations (trace h (_operation state settings op_name action) w) = []
    /\ confirmed (trace h (_operation state settings op_name action) w) = []
    /\ forwarded (trace h (_operation state settings op_name action) w) = [].
Proof.
  intros w state settings op_name action node src Hquiet Hnode Hsrc Hthere.
  pose proof (query_world (_index state) w Hquiet (_index_only state)) as Hw.
  revert Hw. revert Hnode.
  unfold trace, result, _operation. after_index h state w.
  change ((found, wi, ti).1.1) with found. intros -> ->.
  destruct (unify_ancestors (State.selection state)) as [| u us] eqn:Hu;
    [inversion Hsrc |].
  cbv iota.
  assert (Hin : In (src, _find_dest src node)
                   (map (fun src => (src, _find_dest src node)) (u :: us)))
    by (apply in_map_iff; exists src; split; [reflexivity | exact Hsrc]).
  revert Hin. generalize (map (fun src => (src, _find_dest src node)) (u :: us)).
  intros operations Hin.
  rewrite run_bind, (run_eta h (keepM _ operations)).
  pose proof (query_unseen h _ w (keepM_exists_only operations)) as (Hkf & Hkp & Hkm & _ & _).
  pose proof (query_unseen_more h _ w (keepM_exists_only operations))
    as (_ & Hkc & _ & _ & _ & _).
  pose proof (keepM_exists_keeps operations w (src, _find_dest src node)
                Hquiet Hthere Hin) as Hkept.
  revert Hkf Hkp Hkm Hkc Hkept.
  generalize (trace h (keepM (fun item : string * string => call (E.exists_ item.2))
                         operations) w).
  generalize (world h (keepM (fun item : string * string => call (E.exists_ item.2))
                         operations) w).
  generalize (result h (keepM (fun item : string * string => call (E.exists_ item.2))
                          operations) w).
  intros pre_existing wk tk Hkf Hkp Hkm Hkc Hkept.
  destruct pre_existing as [| p ps]; [inversion Hkept |].
  cbv iota.
  rewrite run_bind, (run_eta h (mapM _ (sorted_items (p :: ps)))).
  pose proof (query_unseen h _ wk (arrows_only state (sorted_items (p :: ps))))
    as (Haf & Hap & Ham & _ & _).
  pose proof (query_unseen_more h _ wk (arrows_only state (sorted_items (p :: ps))))
    as (_ & Hac & _ & _ & _ & _).
  revert Haf Hap Ham Hac.
  generalize (trace h (mapM (_arrow state) (sorted_items (p :: ps))) wk).
  generalize (world h (mapM (_arrow state) (sorted_items (p :: ps))) wk).
  generalize (result h (mapM (_arrow state) (sorted_items (p :: ps))) wk).
  intros lines wa ta Haf Hap Ham Hac.
  simpl. run_cases. read_off.
  split; [reflexivity |]. split; [eexists; reflexivity |]. repeat split; reflexivity.
Qed.

End Operation.

(** ** Changing the root *)

Section ChangeRoot.
Context {imports : Imports} {more : MoreImports} {awaited : Awaited}
        {W : Type} (h : handler W).

(** X23: when the parent of the root is empty or is the root itself, as at
    the top of the filesystem, [c_change_focus_up] returns nothing and makes
    no call at all. *)
Theorem c_change_focus_up_at_top :
  forall (w : W) (state : State.t) (settings : Settings.t),
    dirname (Node.path (State.root state)) = ""
    \/ dirname (Node.path (State.root state)) = Node.path (State.root state) ->
    result h (c_change_focus_up state settings) w = None
    /\ trace h (c_change_focus_up state settings) w = [].
Proof.
  intros w state settings Htop. unfold result, trace, c_change_focus_up.
  destruct Htop as [-> | Htop].
  - simpl. split; reflexivity.
  - rewrite Htop, String.eqb_refl, andb_false_r. split; reflexivity.
Qed.

(** X24: a change of focus on a node takes as new base the node itself when
    it is a folder, else the directory that holds it; the cartographer is
    asked for the new root with an index that already holds the new base,
    and after it [forward] is called once, with the root the cartographer
    returned and that index; nothing leaves the index. *)
Theorem c_change_focus_rebases :
  forall (w : W) (state : State.t) (settings : Settings.t) (node : Node.t),
    result h (_index state) w = Some node ->
    exists (index : Index) (root : Node.t) (new_state : State.t),
      index = State.index state ∪ {[collapse_target node]}
      /\ root = result h (new_root (collapse_target node) index) (world h (_index state) w)
      /\ trace h (c_change_focus state settings) w
         = (trace h (_index state) w
            ++ trace h (new_root (collapse_target node) index) (world h (_index state) w)
            ++ [Called (E.forward state settings [kw_root root; kw_index index]) new_state])%list
      /\ result h (c_change_focus state settings) w = Some (Stage1 new_state)
      /\ collapse_target node ∈ index
      /\ State.index state ⊆ index.
Proof.
  intros w state settings node Hnode.
  exists (State.index state ∪ {[collapse_target node]}),
         (result h (new_root (collapse_target node)
                      (State.index state ∪ {[collapse_target node]}))
                 (world h (_index state) w)).
  unfold c_change_focus, _change_dir.
  rewrite result_bind, trace_bind, Hnode. fold (collapse_target node).
  fold (world h (_index state) w). generalize (world h (_index state) w). intros wi.
  generalize (trace h (_index state) w). intros ti.
  rewrite !result_bind, !trace_bind.
  fold (world h (new_root (collapse_target node)
                   (State.index state ∪ {[collapse_target node]})) wi).
  generalize (world h (new_root (collapse_target node)
                         (State.index state ∪ {[collapse_target node]})) wi).
  generalize (trace h (new_root (collapse_target node)
                         (State.index state ∪ {[collapse_target node]})) wi).
  generalize (result h (new_root (collapse_target node)
                          (State.index state ∪ {[collapse_target node]})) wi).
  intros root tn wn.
  unfold result, trace, call. simpl.
  destruct (h _ (E.forward state settings
                   [kw_root root; kw_index (State.index state ∪ {[collapse_target node]})])
              wn) as [new_state w0].
  exists new_state. repeat split.
  - simpl. rewrite !app_nil_r. reflexivity.
  - apply elem_of_union_r, elem_of_singleton. reflexivity.
  - apply union_subseteq_l.
Qed.

End ChangeRoot.

(** ** Filtering and searching *)

Section Search.
Context {imports : Imports} {more : MoreImports} {awaited : Awaited}
        {W : Type} (h : handler W).

(** X25: when the search prompt is cancelled or left empty, the search
    collaborator is not run: after the prompt the one call is [forward],
    with the filter that [search_forward] makes of an empty search set. *)
Theorem c_new_search_empty :
  forall (w : W) (state : State.t) (settings : Settings.t),
    (h _ (E.input "New search:" (Some "")) w).1 = None
    \/ (h _ (E.input "New search:" (Some "")) w).1 = Some "" ->
    exists new_state : State.t,
      trace h (c_new_search state settings) w
      = [Called (E.input "New search:" (Some "")) (h _ (E.input "New search:" (Some "")) w).1;
         Called (E.forward state settings
                   [kw_filter_pattern
                      (search_forward (State.filter_pattern state) None (Some ∅))])
                new_state]
      /\ result h (c_new_search state settings) w = Some (Stage1 new_state).
Proof.
  intros w state settings Hempty. revert Hempty.
  unfold trace, result, c_new_search. simpl.
  destruct (h _ (E.input "New search:" (Some "")) w) as [typed_in w1]. simpl.
  intros [-> | ->]; simpl; answer; exists x; split; reflexivity.
Qed.

(** X26: when the search collaborator raises a [SearchError], the error is
    printed after whatever the collaborator did and the action returns
    nothing: [forward] is not called by the action, and the dispatcher keeps
    its state. *)
Theorem c_new_search_error :
  forall (w w1 : W) (state : State.t) (settings : Settings.t) (pattern e : string),
    h _ (E.input "New search:" (Some "")) w = (Some pattern, w1) ->
    pattern <> "" ->
    result h (search pattern (Node.path (State.root state)) linesep) w1 = inl e ->
    result h (c_new_search state settings) w = None
    /\ trace h (c_new_search state settings) w
       = (Called (E.input "New search:" (Some "")) (Some pattern)
          :: trace h (search pattern (Node.path (State.root state)) linesep) w1
          ++ [Called (E.print e true) tt])%list
    /\ result h (Main_run c_new_search (Some state) settings) w = state.
Proof.
  intros w w1 state settings pattern e Hinput Hne Herr.
  assert (H : result h (c_new_search state settings) w = None
    /\ trace h (c_new_search state settings) w
       = (Called (E.input "New search:" (Some "")) (Some pattern)
          :: trace h (search pattern (Node.path (State.root state)) linesep) w1
          ++ [Called (E.print e true) tt])%list).
  { revert Herr. unfold trace, result, c_new_search. simpl. rewrite Hinput.
    apply truthy_spec in Hne. rewrite Hne.
    rewrite run_bind, (run_eta h (search _ _ _)).
    unfold result, trace, world.
    destruct (run h (search pattern (Node.path (State.root state)) linesep) w1)
      as [[found ws] ts].
    simpl. intros ->. simpl. answer. destruct x. split; reflexivity. }
  destruct H as [Hres Htr]. split; [exact Hres | split; [exact Htr |]].
  apply (Main_run_nothing h w c_new_search). exact Hres.
Qed.

(** X27: whatever is entered at the filter prompt, [c_new_filter] hands an
    empty selection to [forward] together with the new filter; the prompt
    starts from the current pattern, and a cancelled prompt counts as the
    empty pattern. *)
Theorem c_new_filter_clears_selection :
  forall (w : W) (state : State.t) (settings : Settings.t),
    typed (trace h (c_new_filter state settings) w)
      = [(h _ (E.input "New filter:"
                 (Some (FilterPattern.pattern (State.filter_pattern state)))) w).1]
    /\ forwarded (trace h (c_new_filter state settings) w)
       = [[kw_selection ∅;
           kw_filter_pattern
             (search_forward (State.filter_pattern state)
                (Some (default ""
                   (h _ (E.input "New filter:"
                           (Some (FilterPattern.pattern (State.filter_pattern state)))) w).1))
                None)]]
    /\ ((h _ (E.input "New filter:"
                (Some (FilterPattern.pattern (State.filter_pattern state)))) w).1 = None ->
        forwarded (trace h (c_new_filter state settings) w)
        = [[kw_selection ∅;
            kw_filter_pattern (search_forward (State.filter_pattern state) (Some "") None)]]).
Proof.
  intros w state settings. unfold trace, c_new_filter. simpl.
  destruct (h _ (E.input "New filter:"
                   (Some (FilterPattern.pattern (State.filter_pattern state)))) w)
    as [typed_in w1].
  simpl. answer. read_off. repeat split. intros ->. reflexivity.
Qed.

End Search.

(** ** The dispatcher, continued *)

Section Dispatch.
Context {W : Type} (h : handler W).

(** X28: when the action returns a stage, [Main._run] installs the state of
    the stage and redraws once, after the action, with that state and the
    focus of the stage; when the action returns nothing it redraws nothing.
    On first use the state is built by [initial], and the run is then that
    of the action on the state so built. *)
Theorem Main_run_redraws :
  forall (w : W) (fn : State.t -> Settings.t -> prog (option Stage.t))
         (state : State.t) (settings : Settings.t),
    (forall stage,
        result h (fn state settings) w = Some stage ->
        result h (Main_run fn (Some state) settings) w = Stage.state stage
        /\ trace h (Main_run fn (Some state) settings) w
           = (trace h (fn state settings) w
              ++ [Called (E.update_buffers (Stage.state stage) (Stage.focus stage)) tt])%list)
    /\ (result h (fn state settings) w = None ->
        result h (Main_run fn (Some state) settings) w = state
        /\ trace h (Main_run fn (Some state) settings) w = trace h (fn state settings) w)
    /\ result h (Main_run fn None settings) w
       = result h (Main_run fn (Some (h _ (E.initial settings) w).1) settings)
           (h _ (E.initial settings) w).2
    /\ trace h (Main_run fn None settings) w
       = Called (E.initial settings) (h _ (E.initial settings) w).1
         :: trace h (Main_run fn (Some (h _ (E.initial settings) w).1) settings)
              (h _ (E.initial settings) w).2.
Proof.
  intros w fn state settings. split; [| split; [| split]].
  - intros stage Hstage. unfold Main_run. simpl.
    rewrite result_bind, trace_bind, Hstage.
    generalize ((run h (fn state settings) w).1.2). intros w1.
    unfold result, trace, call. simpl. answer. destruct x. split; reflexivity.
  - intros Hnone. unfold Main_run. simpl.
    rewrite result_bind, trace_bind, Hnone. simpl.
    split; [reflexivity | apply app_nil_r].
  - unfold result, Main_run. simpl.
    destruct (h _ (E.initial settings) w) as [st0 w0]. simpl.
    destruct (run h _ w0) as [[r w1] t]. reflexivity.
  - unfold trace, Main_run. simpl.
    destruct (h _ (E.initial settings) w) as [st0 w0]. simpl.
    destruct (run h _ w0) as [[r w1] t]. reflexivity.
Qed.

End Dispatch.

Transparent c_refresh.

(** ** Cutting and copying, continued *)

Opaque c_refresh.

Section OperationMore.
Context {imports : Imports} {more : MoreImports} {W : Type} (h : handler W).

(** X29: when the first answer to a confirmation in the run of a cut or
    copy is not yes, that answer is the only one and the action was not
    run: the result is nothing, the filesystem is not touched, no buffer is
    closed and [forward] is not called. *)
Theorem operation_needs_yes :
  forall (w : W) (state : State.t) (settings : Settings.t) (op_name : string)
         (action : list (string * string) -> prog Raised) (given : Z),
    head (confirmed (trace h (_operation state settings op_name action) w)) = Some given ->
    given <> 1%Z ->
    result h (_operation state settings op_name action) w = None
    /\ confirmed (trace h (_operation state settings op_name action) w) = [given]
    /\ mutations (trace h (_operation state settings op_name action) w) = []
    /\ killed (trace h (_operation state settings op_name action) w) = []
    /\ forwarded (trace h (_operation state settings op_name action) w) = []
    /\ printed (trace h (_operation state settings op_name action) w) = [].
Proof.
  intros w state settings op_name action given.
  unfold trace, result, _operation. after_index h state w.
  destruct found as [node |];
    destruct (unify_ancestors (State.selection state)) as [| u us]; cbv iota.
  all: try (simpl; run_cases; read_off; discriminate).
  generalize (map (fun src => (src, _find_dest src node)) (u :: us)).
  intros operations.
  rewrite run_bind, (run_eta h (keepM _ operations)).
  pose proof (query_unseen h _ wi (keepM_exists_only operations))
    as (Hkf & Hkp & Hkm & _ & _).
  pose proof (query_unseen_more h _ wi (keepM_exists_only operations))
    as (_ & Hkc & _ & Hkk & _ & _).
  revert Hkf Hkp Hkm Hkc Hkk.
  generalize (trace h (keepM (fun item : string * string => call (E.exists_ item.2))
                         operations) wi).
  generalize (world h (keepM (fun item : string * string => call (E.exists_ item.2))
                         operations) wi).
  generalize (result h (keepM (fun item : string * string => call (E.exists_ item.2))
                          operations) wi).
  intros pre_existing wk tk Hkf Hkp Hkm Hkc Hkk.
  destruct pre_existing as [| p ps]; cbv iota.
  2: { rewrite run_bind, (run_eta h (mapM _ (sorted_items (p :: ps)))).
       pose proof (query_unseen_more h _ wk (arrows_only state (sorted_items (p :: ps))))
         as (_ & Hac & _ & _ & _ & _).
       revert Hac.
       generalize (trace h (mapM (_arrow state) (sorted_items (p :: ps))) wk).
       generalize (world h (mapM (_arrow state) (sorted_items (p :: ps))) wk).
       generalize (result h (mapM (_arrow state) (sorted_items (p :: ps))) wk).
       intros lines wa ta Hac.
       simpl. run_cases. read_off. discriminate. }
  rewrite run_bind, (run_eta h (mapM _ (sorted_items operations))).
  pose proof (query_unseen h _ wk (arrows_only state (sorted_items operations)))
    as (Haf & Hap & Ham & _ & _).
  pose proof (query_unseen_more h _ wk (arrows_only state (sorted_items operations)))
    as (_ & Hac & _ & Hak & _ & _).
  revert Haf Hap Ham Hac Hak.
  generalize (trace h (mapM (_arrow state) (sorted_items operations)) wk).
  generalize (world h (mapM (_arrow state) (sorted_items operations)) wk).
  generalize (result h (mapM (_arrow state) (sorted_items operations)) wk).
  intros lines wa ta Haf Hap Ham Hac Hak.
  simpl. answer.
  destruct (x =? 1)%Z eqn:Hyes; simpl.
  - apply Z.eqb_eq in Hyes. subst x.
    match goal with
    | |- context [run h ?p ?w0] => destruct (run h p w0) as [[res wend] tend]
    end.
    read_off. intros [= <-] Hno. contradiction.
  - read_off. intros [= <-] _. repeat split; reflexivity.
Qed.

End OperationMore.

Transparent c_refresh.

(** * Examples for the further properties *)

(** Decides a closed decidable proposition by evaluation. *)
Ltac decided := apply (bool_decide_unpack _); vm_compute; exact I.

Section FollowExamples.
#[local] Existing Instance Posix.imports.

(** The current buffer [/x/y.txt] is not below the root [/a]. *)
Lemma a_follow_elsewhere_witness :
  is_parent (Node.path (State.root plain)) "/x/y.txt" = false
  /\ result Posix.env (a_follow plain Ex.settings) elsewhere = None
  /\ result Posix.env (Main_run a_follow (Some plain) Ex.settings) elsewhere = plain.
Proof.
  assert (H1 : is_parent (Node.path (State.root plain)) "/x/y.txt" = false) by reflexivity.
  split; [exact H1 |].
  pose proof (a_follow_elsewhere Posix.env elsewhere plain Ex.settings (or_intror H1))
    as (Hres & _ & Hrun).
  split; [exact Hres | exact Hrun].
Defined.

(** The current buffer [/a/d.txt] lies below the root and the state follows. *)
Lemma a_follow_below_root_witness :
  "/a/d.txt" <> ""
  /\ is_parent (Node.path (State.root following)) "/a/d.txt" = true
  /\ forwarded (trace Posix.env (a_follow following Ex.settings) (Ex.world 1 None false))
     = [[kw_index (State.index following ∪ list_to_set (ancestors "/a/d.txt"));
         kw_paths (list_to_set (ancestors "/a/d.txt")); kw_current "/a/d.txt"]].
Proof.
  assert (H1 : "/a/d.txt" <> "") by discriminate.
  assert (H2 : is_parent (Node.path (State.root following)) "/a/d.txt" = true) by reflexivity.
  split; [exact H1 | split; [exact H2 |]].
  destruct (a_follow_below_root Posix.env (Ex.world 1 None false) following Ex.settings H1 H2)
    as (paths & -> & Hf & _).
  exact Hf.
Defined.

(** The state has [/a/d.txt] as its current file. *)
Lemma c_jump_to_current_focus_witness :
  exists stage,
    result Posix.env (c_jump_to_current at_d Ex.settings) (Ex.world 1 None false) = Some stage
    /\ Stage.focus stage = Some "/a/d.txt".
Proof.
  pose proof (proj1 (c_jump_to_current_focus Posix.env (Ex.world 1 None false)
                       at_d Ex.settings)) as Hstage.
  destruct (result Posix.env (c_jump_to_current at_d Ex.settings) (Ex.world 1 None false))
    as [stage |] eqn:Hres; [| vm_compute in Hres; discriminate Hres].
  exists stage. split; [reflexivity |].
  destruct (Hstage stage eq_refl) as (current & paths & Hc & Hfocus & _).
  rewrite Hfocus. symmetry. exact Hc.
Defined.

End FollowExamples.

Section ClickMoreExamples.
#[local] Existing Instance Posix.imports.

(** A click on the open folder [/a/b] closes it. *)
Lemma c_click_folder_toggles_witness :
  result Posix.env (_index plain) (Ex.world 2 None false) = Some Ex.b
  /\ (Mode.orphan_link ∉ Node.mode Ex.b)
  /\ Mode.folder ∈ Node.mode Ex.b
  /\ FilterPattern.pattern (State.filter_pattern plain) = ""
  /\ FilterPattern.search_set (State.filter_pattern plain) = ∅
  /\ forwarded (trace Posix.env (c_click plain Ex.settings ClickType.primary)
                  (Ex.world 2 None false))
     = [[kw_index (State.index plain ^^ {["/a/b"]}); kw_paths {["/a/b"]}]].
Proof.
  assert (H1 : result Posix.env (_index plain) (Ex.world 2 None false) = Some Ex.b)
    by reflexivity.
  assert (H2 : Mode.orphan_link ∉ Node.mode Ex.b) by decided.
  assert (H3 : Mode.folder ∈ Node.mode Ex.b) by decided.
  assert (H4 : FilterPattern.pattern (State.filter_pattern plain) = "") by reflexivity.
  assert (H5 : FilterPattern.search_set (State.filter_pattern plain) = ∅) by reflexivity.
  split; [exact H1 | split; [exact H2 | split; [exact H3 | split; [exact H4 |
    split; [exact H5 |]]]]].
  exact (proj1 (c_click_folder_toggles Posix.env _ plain Ex.settings ClickType.primary
                  Ex.b H1 H2 H3 H4 H5)).
Defined.

(** A click on the file [/a/d.txt], whose type is not warned about. *)
Lemma c_click_file_opens_witness :
  result Posix.env (_index plain) (Ex.world 4 None false) = Some Ex.d
  /\ (Mode.orphan_link ∉ Node.mode Ex.d)
  /\ (Mode.folder ∉ Node.mode Ex.d)
  /\ confirmed (trace Posix.env (c_click plain Ex.settings ClickType.v_split)
                  (Ex.world 4 None false)) = []
  /\ forwarded (trace Posix.env (c_click plain Ex.settings ClickType.v_split)
                  (Ex.world 4 None false))
     = [[kw_current "/a/d.txt"]].
Proof.
  assert (H1 : result Posix.env (_index plain) (Ex.world 4 None false) = Some Ex.d)
    by reflexivity.
  assert (H2 : Mode.orphan_link ∉ Node.mode Ex.d) by decided.
  assert (H3 : Mode.folder ∉ Node.mode Ex.d) by decided.
  assert (H4 : confirmed (trace Posix.env (c_click plain Ex.settings ClickType.v_split)
                            (Ex.world 4 None false)) = [])
    by (vm_compute; reflexivity).
  split; [exact H1 | split; [exact H2 | split; [exact H3 | split; [exact H4 |]]]].
  destruct (c_click_file_opens Posix.env _ plain Ex.settings ClickType.v_split
              Ex.d H1 H2 H3 (or_introl H4))
    as (new_state & before & _ & _ & _ & _ & Hf & _).
  exact Hf.
Defined.

(** With no node under the cursor: the cursor is below the last row. *)
Lemma no_node_no_action_witness :
  result Posix.env (_index plain) (Ex.world 9 None false) = None
  /\ result Posix.env (c_click plain Ex.settings ClickType.primary) (Ex.world 9 None false)
     = None
  /\ result Posix.env (c_rename plain Ex.settings) (Ex.world 9 None false) = None.
Proof.
  assert (H1 : result Posix.env (_index plain) (Ex.world 9 None false) = None)
    by reflexivity.
  split; [exact H1 |].
  pose proof (no_node_no_action Posix.env (awaited := PosixMore.awaited)
                _ plain Ex.settings ClickType.primary H1)
    as ((Hclick & _) & _ & (Hrename & _) & _).
  split; [exact Hclick | exact Hrename].
Defined.

End ClickMoreExamples.

Section MimeExamples.
#[local] Existing Instance mime_imports.

(** A click on the text file [/a/d.txt] when text files are warned about
    and the user answers no. *)
Lemma c_click_file_declined_witness :
  result Posix.env (_index plain) (answering 2 (Ex.world 4 None false)) = Some Ex.d
  /\ (Mode.orphan_link ∉ Node.mode Ex.d)
  /\ (Mode.folder ∉ Node.mode Ex.d)
  /\ confirmed (trace Posix.env (c_click plain wary ClickType.primary)
                  (answering 2 (Ex.world 4 None false))) = [2]
  /\ 2 <> 1
  /\ result Posix.env (c_click plain wary ClickType.primary)
       (answering 2 (Ex.world 4 None false)) = None
  /\ shown (trace Posix.env (c_click plain wary ClickType.primary)
              (answering 2 (Ex.world 4 None false))) = [].
Proof.
  assert (H1 : result Posix.env (_index plain) (answering 2 (Ex.world 4 None false))
               = Some Ex.d) by reflexivity.
  assert (H2 : Mode.orphan_link ∉ Node.mode Ex.d) by decided.
  assert (H3 : Mode.folder ∉ Node.mode Ex.d) by decided.
  assert (H4 : confirmed (trace Posix.env (c_click plain wary ClickType.primary)
                            (answering 2 (Ex.world 4 None false))) = [2])
    by (vm_compute; reflexivity).
  assert (H5 : 2 <> 1) by discriminate.
  split; [exact H1 | split; [exact H2 | split; [exact H3 | split; [exact H4 |
    split; [exact H5 |]]]]].
  pose proof (proj2 (c_click_file_declined Posix.env _ plain wary ClickType.primary
                       Ex.d H1 H2 H3) 2 H4 H5) as (Hres & _ & Hshown).
  split; [exact Hres | exact Hshown].
Defined.

End MimeExamples.

Section CreateRenameExamples.
#[local] Existing Instance Posix.imports.

(** The prompt of a create is cancelled. *)
Lemma create_or_rename_cancelled_witness :
  (c_new = c_new \/ c_new = c_rename)
  /\ typed (trace Posix.env (c_new plain Ex.settings) (Ex.world 4 None false)) = [None]
  /\ result Posix.env (c_new plain Ex.settings) (Ex.world 4 None false) = None
  /\ checked (trace Posix.env (c_new plain Ex.settings) (Ex.world 4 None false)) = [].
Proof.
  assert (H1 : c_new = c_new \/ c_new = c_rename) by (left; reflexivity).
  assert (H2 : typed (trace Posix.env (c_new plain Ex.settings) (Ex.world 4 None false))
               = [None]) by (vm_compute; reflexivity).
  split; [exact H1 | split; [exact H2 |]].
  pose proof (create_or_rename_cancelled Posix.env _ plain Ex.settings c_new
                H1 (or_introl H2)) as (Hres & Hchecked & _).
  split; [exact Hres | exact Hchecked].
Defined.

(** [f.txt] is entered with the cursor on the file [/a/d.txt]: the new path
    lies beside that file. *)
Lemma c_new_destination_witness :
  typed (trace Posix.env (c_new plain Ex.settings) (Ex.world 4 (Some "f.txt") false))
    = [Some "f.txt"]
  /\ "f.txt" <> ""
  /\ checked (trace Posix.env (c_new plain Ex.settings) (Ex.world 4 (Some "f.txt") false))
     = ["/a/f.txt"].
Proof.
  assert (H1 : typed (trace Posix.env (c_new plain Ex.settings)
                        (Ex.world 4 (Some "f.txt") false)) = [Some "f.txt"])
    by (vm_compute; reflexivity).
  assert (H2 : "f.txt" <> "") by discriminate.
  split; [exact H1 | split; [exact H2 |]].
  exact (c_new_destination Posix.env _ plain Ex.settings "f.txt" H1 H2).
Defined.

(** A create on a read-only disk. *)
Lemma create_or_rename_failed_witness :
  (c_new = c_new \/ c_new = c_rename)
  /\ In "Permission denied"
       (raised (trace Posix.env (c_new plain Ex.settings) (Ex.world 4 (Some "f.txt") true)))
  /\ printed (trace Posix.env (c_new plain Ex.settings) (Ex.world 4 (Some "f.txt") true))
     = [("Permission denied", true)].
Proof.
  assert (H1 : c_new = c_new \/ c_new = c_rename) by (left; reflexivity).
  assert (H2 : In "Permission denied"
       (raised (trace Posix.env (c_new plain Ex.settings) (Ex.world 4 (Some "f.txt") true))))
    by (vm_compute; left; reflexivity).
  split; [exact H1 | split; [exact H2 |]].
  exact (proj1 (create_or_rename_failed Posix.env _ plain Ex.settings c_new _ H1 H2)).
Defined.

(** A create of [/a/f.txt] that succeeds. *)
Lemma c_new_created_witness :
  mutations (trace Posix.env (c_new plain Ex.settings) (Ex.world 4 (Some "f.txt") false))
    <> []
  /\ raised (trace Posix.env (c_new plain Ex.settings) (Ex.world 4 (Some "f.txt") false))
     = []
  /\ printed (trace Posix.env (c_new plain Ex.settings) (Ex.world 4 (Some "f.txt") false))
     = [].
Proof.
  assert (H1 : mutations (trace Posix.env (c_new plain Ex.settings)
                            (Ex.world 4 (Some "f.txt") false)) <> [])
    by (vm_compute; discriminate).
  assert (H2 : raised (trace Posix.env (c_new plain Ex.settings)
                         (Ex.world 4 (Some "f.txt") false)) = [])
    by (vm_compute; reflexivity).
  split; [exact H1 | split; [exact H2 |]].
  destruct (c_new_created Posix.env _ plain Ex.settings H1 H2)
    as (name & new_state & _ & _ & _ & _ & _ & _ & Hprinted).
  exact Hprinted.
Defined.

(** A rename of [/a/d.txt] to [g.txt] that succeeds. *)
Lemma c_rename_renamed_witness :
  mutations (trace Posix.env (c_rename plain Ex.settings) (Ex.world 4 (Some "g.txt") false))
    <> []
  /\ raised (trace Posix.env (c_rename plain Ex.settings) (Ex.world 4 (Some "g.txt") false))
     = []
  /\ killed (trace Posix.env (c_rename plain Ex.settings) (Ex.world 4 (Some "g.txt") false))
     = [{["/a/d.txt"]}].
Proof.
  assert (H1 : mutations (trace Posix.env (c_rename plain Ex.settings)
                            (Ex.world 4 (Some "g.txt") false)) <> [])
    by (vm_compute; discriminate).
  assert (H2 : raised (trace Posix.env (c_rename plain Ex.settings)
                         (Ex.world 4 (Some "g.txt") false)) = [])
    by (vm_compute; reflexivity).
  split; [exact H1 | split; [exact H2 |]].
  destruct (c_rename_renamed Posix.env _ plain Ex.settings H1 H2)
    as (node & new_name & new_state & Hnode & _ & _ & _ & _ & Hkilled & _).
  rewrite Hkilled. injection Hnode as <-. reflexivity.
Defined.

End CreateRenameExamples.

Section RefreshMoreExamples.
#[local] Existing Instance Posix.imports.

(** The index holds [/a/b] alone; the refresh puts the root [/a] in. *)
Lemma c_refresh_keeps_root_witness :
  exists (index : Index) (rest : list Delta),
    forwarded (trace Posix.env (c_refresh stale_index Ex.settings false) without_b)
    = [kw_index index :: rest]
    /\ "/a" ∈ index.
Proof.
  destruct (c_refresh_keeps_root Posix.env without_b stale_index Ex.settings false)
    as (index & selection & qf & vcs & rest & Hf & Hroot & _).
  exists index. eexists. split; [exact Hf | exact Hroot].
Defined.

(** The index holds [/a/b], which is gone from the disk. *)
Lemma c_refresh_prunes_stale_witness :
  ("/a/b" ∉ reported_there
              (trace Posix.env (c_refresh stale_index Ex.settings false) without_b))
  /\ exists (index : Index) (rest : list Delta),
       forwarded (trace Posix.env (c_refresh stale_index Ex.settings false) without_b)
       = [kw_index index :: rest]
       /\ "/a/b" ∉ index.
Proof.
  assert (H1 : "/a/b" ∉ reported_there
                 (trace Posix.env (c_refresh stale_index Ex.settings false) without_b))
    by decided.
  split; [exact H1 |].
  destruct (c_refresh_prunes_stale Posix.env without_b stale_index Ex.settings "/a/b" H1)
    as (index & selection & rest & Hf & _ & Hindex & _).
  exists index. eexists. split; [exact Hf |].
  intros Hin. destruct (Hindex Hin) as [Hroot | [Hfollow _]]; discriminate.
Defined.

(** A refresh asked to write, with version control off. *)
Lemma c_refresh_reports_witness :
  State.enable_vc plain = false
  /\ status_reads (trace Posix.env (c_refresh plain Ex.settings true) (Ex.world 1 None false))
     = [].
Proof.
  assert (H1 : State.enable_vc plain = false) by reflexivity.
  split; [exact H1 |].
  exact (proj1 (proj2 (c_refresh_reports Posix.env (Ex.world 1 None false)
                         plain Ex.settings) H1)).
Defined.

End RefreshMoreExamples.

Section TogglesExamples.
#[local] Existing Instance Posix.imports.

(** The quickfix list has the one entry [/a/d.txt]; the state does not
    filter by it, the stale state does. *)
Lemma c_toggle_qf_filtering_flips_witness :
  Posix.quickfix_list (with_quickfix {["/a/d.txt" := 1%nat]} (Ex.world 1 None false)) <> ∅
  /\ QuickFix.filtering (State.qf stale_state) = negb (QuickFix.filtering (State.qf plain))
  /\ forwarded (trace Posix.env (c_toggle_qf_filtering plain Ex.settings)
                  (with_quickfix {["/a/d.txt" := 1%nat]} (Ex.world 1 None false)))
     = [[kw_qf (QuickFix.mk {["/a/d.txt" := 1%nat]} true)]]
  /\ forwarded (trace Posix.env (c_toggle_qf_filtering stale_state Ex.settings)
                  (with_quickfix {["/a/d.txt" := 1%nat]} (Ex.world 1 None false)))
     = [[kw_qf (QuickFix.mk {["/a/d.txt" := 1%nat]} false)]].
Proof.
  assert (H1 : Posix.quickfix_list
                 (with_quickfix {["/a/d.txt" := 1%nat]} (Ex.world 1 None false)) <> ∅)
    by decided.
  assert (H2 : QuickFix.filtering (State.qf stale_state)
               = negb (QuickFix.filtering (State.qf plain))) by reflexivity.
  split; [exact H1 | split; [exact H2 |]].
  pose proof (c_toggle_qf_filtering_flips Posix.env
                (with_quickfix {["/a/d.txt" := 1%nat]} (Ex.world 1 None false))
                (with_quickfix {["/a/d.txt" := 1%nat]} (Ex.world 1 None false))
                plain stale_state Ex.settings H1 eq_refl H2) as (Hon & _ & Hoff).
  split; [exact Hon | exact Hoff].
Defined.

(** Version control is on and is switched off. *)
Lemma c_toggle_vc_status_witness :
  State.enable_vc versioned = true
  /\ forwarded (trace Posix.env
                  (c_toggle_vc versioned Ex.settings)
                  (Ex.world 1 None false))
     = [[kw_enable_vc false; kw_vc ∅]].
Proof.
  assert (H1 : State.enable_vc versioned = true) by reflexivity.
  split; [exact H1 |].
  exact (proj1 (proj1 (c_toggle_vc_status Posix.env (Ex.world 1 None false)
                         versioned Ex.settings) H1)).
Defined.

End TogglesExamples.

Section DeleteMoreExamples.
#[local] Existing Instance Posix.imports.


(** The user answers no to the confirmation of a trash. *)
Lemma delete_needs_yes_witness :
  (c_trash = c_delete \/ c_trash = c_trash)
  /\ confirmed (trace Posix.env (c_trash plain Ex.settings false)
                  (answering 2 (Ex.world 4 None false))) <> [1]
  /\ result Posix.env (c_trash plain Ex.settings false) (answering 2 (Ex.world 4 None false))
     = None
  /\ mutations (trace Posix.env (c_trash plain Ex.settings false)
                  (answering 2 (Ex.world 4 None false))) = [].
Proof.
  assert (H1 : c_trash = c_delete \/ c_trash = c_trash) by (right; reflexivity).
  assert (H2 : confirmed (trace Posix.env (c_trash plain Ex.settings false)
                            (answering 2 (Ex.world 4 None false))) <> [1])
    by (vm_compute; discriminate).
  split; [exact H1 | split; [exact H2 |]].
  pose proof (delete_needs_yes Posix.env _ plain Ex.settings false c_trash H1 H2)
    as (Hres & Hmut & _).
  split; [exact Hres | exact Hmut].
Defined.

(** The selected [/a/d.txt] is deleted. *)
Lemma delete_done_witness :
  (c_delete = c_delete \/ c_delete = c_trash)
  /\ mutations (trace Posix.env (c_delete unfiltered_selected Ex.settings false)
                  (Ex.world 2 None false)) <> []
  /\ raised (trace Posix.env (c_delete unfiltered_selected Ex.settings false)
               (Ex.world 2 None false)) = []
  /\ killed (trace Posix.env (c_delete unfiltered_selected Ex.settings false)
               (Ex.world 2 None false)) = [{["/a/d.txt"]}]
  /\ confirmed (trace Posix.env (c_delete unfiltered_selected Ex.settings false)
                  (Ex.world 2 None false)) = [1].
Proof.
  assert (H1 : c_delete = c_delete \/ c_delete = c_trash) by (left; reflexivity).
  assert (H2 : mutations (trace Posix.env (c_delete unfiltered_selected Ex.settings false)
                            (Ex.world 2 None false)) <> [])
    by (vm_compute; discriminate).
  assert (H3 : raised (trace Posix.env (c_delete unfiltered_selected Ex.settings false)
                         (Ex.world 2 None false)) = [])
    by (vm_compute; reflexivity).
  split; [exact H1 | split; [exact H2 | split; [exact H3 |]]].
  destruct (delete_done Posix.env _ unfiltered_selected Ex.settings false c_delete H1 H2 H3)
    as (chosen & new_state & -> & _ & _ & Hkilled & Hconfirmed & _).
  split; [exact Hkilled | exact Hconfirmed].
Defined.

End DeleteMoreExamples.

Section OperationExamples.
#[local] Existing Instance Posix.imports.
#[local] Existing Instance PosixMore.more.
#[local] Existing Instance PosixMore.awaited.

(** A cut with nothing selected. *)
Lemma operation_nothing_selected_witness :
  unify_ancestors (State.selection plain) = []
  /\ result Posix.env (c_cut plain Ex.settings) (Ex.world 2 None false) = None.
Proof.
  unfold c_cut.
  assert (H1 : unify_ancestors (State.selection plain) = []) by (vm_compute; reflexivity).
  split; [exact H1 |].
  exact (proj1 (operation_nothing_selected Posix.env (Ex.world 2 None false) plain
                  Ex.settings "Cut" cut (or_introl H1))).
Defined.

(** A copy of the selected [/a/d.txt] with the cursor on that file: the
    destination is the file itself. *)
Lemma operation_conflict_witness :
  reads_only Posix.env
  /\ result Posix.env (_index unfiltered_selected) (Ex.world 4 None false) = Some Ex.d
  /\ In "/a/d.txt" (unify_ancestors (State.selection unfiltered_selected))
  /\ (Posix.env _ (E.exists_ (_find_dest "/a/d.txt" Ex.d)) (Ex.world 4 None false)).1 = true
  /\ result Posix.env (c_copy unfiltered_selected Ex.settings) (Ex.world 4 None false) = None
  /\ mutations (trace Posix.env (c_copy unfiltered_selected Ex.settings)
                  (Ex.world 4 None false)) = [].
Proof.
  unfold c_copy.
  assert (H0 : reads_only Posix.env)
    by (intros X e w He; destruct e; simpl in He; try discriminate He; reflexivity).
  assert (H1 : result Posix.env (_index unfiltered_selected) (Ex.world 4 None false)
               = Some Ex.d) by (vm_compute; reflexivity).
  assert (H2 : In "/a/d.txt" (unify_ancestors (State.selection unfiltered_selected)))
    by (vm_compute; left; reflexivity).
  assert (H3 : (Posix.env _ (E.exists_ (_find_dest "/a/d.txt" Ex.d))
                  (Ex.world 4 None false)).1 = true) by (vm_compute; reflexivity).
  split; [exact H0 | split; [exact H1 | split; [exact H2 | split; [exact H3 |]]]].
  pose proof (operation_conflict Posix.env (Ex.world 4 None false) unfiltered_selected
                Ex.settings "Copy" copy Ex.d "/a/d.txt" H0 H1 H2 H3)
    as (Hres & _ & Hmut & _).
  split; [exact Hres | exact Hmut].
Defined.

(** A cut of the selected [/a/d.txt] into the folder [/a/b], declined. *)
Lemma operation_needs_yes_witness :
  head (confirmed (trace Posix.env (c_cut unfiltered_selected Ex.settings)
                     (answering 2 (Ex.world 2 None false)))) = Some 2
  /\ 2 <> 1
  /\ result Posix.env (c_cut unfiltered_selected Ex.settings)
       (answering 2 (Ex.world 2 None false)) = None
  /\ mutations (trace Posix.env (c_cut unfiltered_selected Ex.settings)
                  (answering 2 (Ex.world 2 None false))) = [].
Proof.
  unfold c_cut.
  assert (H1 : head (confirmed (trace Posix.env
                                  (_operation unfiltered_selected Ex.settings "Cut" cut)
                                  (answering 2 (Ex.world 2 None false)))) = Some 2)
    by (vm_compute; reflexivity).
  assert (H2 : 2 <> 1) by discriminate.
  split; [exact H1 | split; [exact H2 |]].
  pose proof (operation_needs_yes Posix.env (answering 2 (Ex.world 2 None false))
                unfiltered_selected Ex.settings "Cut" cut 2 H1 H2)
    as (Hres & _ & Hmut & _).
  split; [exact Hres | exact Hmut].
Defined.

End OperationExamples.

Section ChangeRootExamples.
#[local] Existing Instance Posix.imports.
#[local] Existing Instance PosixMore.more.
#[local] Existing Instance PosixMore.awaited.

(** The root is the top of the filesystem. *)
Lemma c_change_focus_up_at_top_witness :
  dirname (Node.path (State.root at_top)) = Node.path (State.root at_top)
  /\ result Posix.env (c_change_focus_up at_top Ex.settings) (Ex.world 1 None false) = None.
Proof.
  assert (H1 : dirname (Node.path (State.root at_top)) = Node.path (State.root at_top))
    by reflexivity.
  split; [exact H1 |].
  exact (proj1 (c_change_focus_up_at_top Posix.env (Ex.world 1 None false) at_top
                  Ex.settings (or_intror H1))).
Defined.

(** A change of focus on the file [/a/b/c.txt]: the new base is [/a/b]. *)
Lemma c_change_focus_rebases_witness :
  result Posix.env (_index plain) (Ex.world 3 None false) = Some Ex.c
  /\ exists new_state : State.t,
       result Posix.env (c_change_focus plain Ex.settings) (Ex.world 3 None false)
       = Some (Stage1 new_state)
       /\ "/a/b" ∈ State.index plain ∪ {[collapse_target Ex.c]}.
Proof.
  assert (H1 : result Posix.env (_index plain) (Ex.world 3 None false) = Some Ex.c)
    by reflexivity.
  split; [exact H1 |].
  destruct (c_change_focus_rebases Posix.env (Ex.world 3 None false) plain Ex.settings
              Ex.c H1) as (index & root & new_state & -> & _ & _ & Hres & Hin & _).
  exists new_state. split; [exact Hres | exact Hin].
Defined.

End ChangeRootExamples.

Section SearchExamples.
#[local] Existing Instance Posix.imports.
#[local] Existing Instance PosixMore.more.
#[local] Existing Instance PosixMore.awaited.

(** The search prompt is cancelled. *)
Lemma c_new_search_empty_witness :
  (Posix.env _ (E.input "New search:" (Some "")) (Ex.world 1 None false)).1 = None
  /\ exists new_state : State.t,
       result Posix.env (c_new_search by_search Ex.settings) (Ex.world 1 None false)
       = Some (Stage1 new_state).
Proof.
  assert (H1 : (Posix.env _ (E.input "New search:" (Some "")) (Ex.world 1 None false)).1
               = None) by reflexivity.
  split; [exact H1 |].
  destruct (c_new_search_empty Posix.env (Ex.world 1 None false) by_search Ex.settings
              (or_introl H1)) as (new_state & _ & Hres).
  exists new_state. exact Hres.
Defined.

(** The pattern [(] is entered, which the search refuses. *)
Lemma c_new_search_error_witness :
  Posix.env _ (E.input "New search:" (Some "")) (Ex.world 1 (Some "(") false)
    = (Some "(", Ex.world 1 (Some "(") false)
  /\ "(" <> ""
  /\ result Posix.env (search "(" (Node.path (State.root plain)) linesep)
       (Ex.world 1 (Some "(") false) = inl "bad pattern"
  /\ printed (trace Posix.env (c_new_search plain Ex.settings) (Ex.world 1 (Some "(") false))
     = [("bad pattern", true)].
Proof.
  assert (H1 : Posix.env _ (E.input "New search:" (Some "")) (Ex.world 1 (Some "(") false)
               = (Some "(", Ex.world 1 (Some "(") false)) by reflexivity.
  assert (H2 : "(" <> "") by discriminate.
  assert (H3 : result Posix.env (search "(" (Node.path (State.root plain)) linesep)
                 (Ex.world 1 (Some "(") false) = inl "bad pattern") by reflexivity.
  split; [exact H1 | split; [exact H2 | split; [exact H3 |]]].
  pose proof (c_new_search_error Posix.env _ _ plain Ex.settings "(" "bad pattern"
                H1 H2 H3) as (_ & Htrace & _).
  rewrite Htrace. reflexivity.
Defined.

(** The filter prompt is cancelled while [/a/d.txt] is selected. *)
Lemma c_new_filter_clears_selection_witness :
  (Posix.env _ (E.input "New filter:"
                  (Some (FilterPattern.pattern (State.filter_pattern by_pattern))))
     (Ex.world 1 None false)).1 = None
  /\ forwarded (trace Posix.env (c_new_filter by_pattern Ex.settings) (Ex.world 1 None false))
     = [[kw_selection ∅;
         kw_filter_pattern (search_forward (State.filter_pattern by_pattern) (Some "") None)]].
Proof.
  assert (H1 : (Posix.env _ (E.input "New filter:"
                  (Some (FilterPattern.pattern (State.filter_pattern by_pattern))))
                  (Ex.world 1 None false)).1 = None) by reflexivity.
  split; [exact H1 |].
  exact (proj2 (proj2 (c_new_filter_clears_selection Posix.env (Ex.world 1 None false)
                         by_pattern Ex.settings)) H1).
Defined.

End SearchExamples.

Section DispatchExamples.
#[local] Existing Instance Posix.imports.

(** A jump to the current file [/a/d.txt]: the dispatcher redraws with the
    focus on it. *)
Lemma Main_run_redraws_witness :
  exists stage : Stage.t,
    result Posix.env (c_jump_to_current at_d Ex.settings) (Ex.world 1 None false) = Some stage
    /\ result Posix.env (Main_run c_jump_to_current (Some at_d) Ex.settings)
         (Ex.world 1 None false) = Stage.state stage.
Proof.
  pose proof (proj1 (Main_run_redraws Posix.env (Ex.world 1 None false)
                       c_jump_to_current at_d Ex.settings)) as Hstage.
  destruct (result Posix.env (c_jump_to_current at_d Ex.settings) (Ex.world 1 None false))
    as [stage |] eqn:Hres; [| vm_compute in Hres; discriminate Hres].
  exists stage. split; [reflexivity |].
  exact (proj1 (Hstage stage eq_refl)).
Defined.

End DispatchExamples.
